(** * Memphis function helper: [create_function] and its batch [handler]

    A shallow embedding of [src/general_testing/main.py], lines 5-121.  The
    file follows the layout of the Python module:

    - [Py]: the dynamically typed values and the exceptions the handler
      manipulates;
    - [Base64]: the two calls into Python's [base64] module
      ([b64decode] with its default, non-validating mode and [b64encode]);
    - [Json]: [json.dumps] with the [EncodeBase64] encoder class, up to the
      JSON tree that is written out;
    - [create_function]: the [handler] loop with its per-message
      [try]/[except] block and the final serialisation;
    - [Demo]: a small runtime and a user function, for concrete runs;
    - [JsonEncoder], [Sample]: [json.dumps] without an encoder class and
      the example [event_handler] and entry point [handler] of lines
      124-146.

    The properties follow the definitions: the base64 codec, the encoder,
    the loop, and then the statements about whole runs.

    Sharing.  The handler passes [message['headers']] itself to the user
    function and reads it again when the message fails, so the dictionary
    is threaded through the [try] block next to the state of the user
    function: a function that updates it in place hands back the updated
    dictionary.  The other values are not shared between the handler and
    the function and are kept as plain trees.

    What the model leaves out.  A call of the user function terminates, and
    the function updates a dictionary only while it runs for the message
    the dictionary came with; values are finite trees, so neither a
    circular reference nor the recursion limit is met by [json.dumps]. *)

From Stdlib Require Import List String Ascii NArith ZArith Lia Bool Arith.
From Stdlib Require Import Strings.Byte Numbers.DecimalString Sorting.Sorted.
Import ListNotations.

#[local] Set Warnings "-register-all".

Local Open Scope string_scope.
Local Open Scope list_scope.

(* ================================================================== *)
(** ** Python values and exceptions *)

Module Py.

(** A class, as far as the program looks at it: [__name__], which
    [json] prints; the name that the interpreter prints in its own error
    messages (the same, but for extension types such as
    [datetime.datetime]); and [str] of the class, which the f-string of
    line 104 prints. *)
Record PyClass : Type := mkClass {
  cls_name : string;
  cls_tp_name : string;
  cls_str : string
}.

(** A built-in class. *)
Definition builtin (name : string) : PyClass :=
  mkClass name name ("<class '" ++ name ++ "'>").

(** A class defined by a [class] statement, with the metaclass [type]. *)
Definition python_class (module qualname name : string) : PyClass :=
  mkClass name name ("<class '" ++ module ++ "." ++ qualname ++ "'>").

(** An instance of [Exception]: its class name and [str(e)].  Only
    [Exception] instances are caught by the handler's [except Exception]
    clauses; interpreter exits ([SystemExit], [KeyboardInterrupt]) are not
    exceptions of the program and are not modelled. *)
Record PyExc : Type := mkExc { exc_class : string; exc_str : string }.

(** What iterating an object does: it cannot be iterated, or it yields
    [items] and then either stops or raises. *)
Inductive Iteration (A : Type) : Type :=
| NotIterable
| Yields (items : list A) (raised : option PyExc).

Arguments NotIterable {A}.
Arguments Yields {A} items raised.

(** The values that flow through the handler.  A [str] is kept as the
    sequence of its UTF-8 bytes (Rocq's [string]); a lone surrogate, which
    UTF-8 proper does not encode, is kept as the three bytes [ED A0..BF xx]
    that the [surrogatepass] handler writes for it.  [bytes] is a list of
    bytes; a [float] is kept as its [repr], which is all that [json] does
    with one; a [dict] is an association list, since Python dictionaries
    keep insertion order and [json.dumps] writes keys in that order.
    [PyObject cls iteration] stands for an instance of a class [cls] that
    derives from none of the built-in classes above (a set, a generator, a
    coroutine that nobody awaited, a user-defined object, ...), with what
    iterating it does. *)
Inductive PyVal : Type :=
| PyNone
| PyBool (b : bool)
| PyInt (z : Z)
| PyFloat (repr : string)
| PyStr (s : string)
| PyBytes (bs : list byte)
| PyList (items : list PyVal)
| PyTuple (items : list PyVal)
| PyDict (kvs : list (PyVal * PyVal))
| PyObject (cls : PyClass) (iteration : Iteration PyVal).

(** [type(v)] *)
Definition type_of (v : PyVal) : PyClass :=
  match v with
  | PyNone => builtin "NoneType"
  | PyBool _ => builtin "bool"
  | PyInt _ => builtin "int"
  | PyFloat _ => builtin "float"
  | PyStr _ => builtin "str"
  | PyBytes _ => builtin "bytes"
  | PyList _ => builtin "list"
  | PyTuple _ => builtin "tuple"
  | PyDict _ => builtin "dict"
  | PyObject cls _ => cls
  end.

(** [type(v).__name__] *)
Definition type_name (v : PyVal) : string := cls_name (type_of v).

(** The class of [v] as the interpreter's error messages name it. *)
Definition tp_name (v : PyVal) : string := cls_tp_name (type_of v).

(** [str(type(v))], as an f-string renders [{type(v)}]. *)
Definition type_repr (v : PyVal) : string := cls_str (type_of v).

(** [isinstance(v, bytes)] and [isinstance(v, dict)] *)
Definition isinstance_bytes (v : PyVal) : bool :=
  match v with PyBytes _ => true | _ => false end.

Definition isinstance_dict (v : PyVal) : bool :=
  match v with PyDict _ => true | _ => false end.

(** [v is None] *)
Definition is_None (v : PyVal) : bool :=
  match v with PyNone => true | _ => false end.

(** Decimal rendering of a natural number and of an integer, as [str(n)]
    and [%zd] print them. *)
Definition str_of_nat (n : nat) : string :=
  NilZero.string_of_uint (Nat.to_uint n).

Definition str_of_Z (z : Z) : string :=
  NilZero.string_of_int (Z.to_int z).

(** [d[key] = v] on the items of a dictionary, for a [str] key: the value
    of an existing key is replaced where it stands, a new key goes to the
    end.  Only a [str] key is equal to the [str] [key]. *)
Definition key_is (k : PyVal) (key : string) : bool :=
  match k with
  | PyStr s => String.eqb s key
  | _ => false
  end.

Fixpoint dict_setitem (kvs : list (PyVal * PyVal)) (key : string) (v : PyVal)
  : list (PyVal * PyVal) :=
  match kvs with
  | [] => [(PyStr key, v)]
  | (k, x) :: rest =>
      if key_is k key then (k, v) :: rest
      else (k, x) :: dict_setitem rest key v
  end.

(** [int.__repr__] refuses an integer of more than 4300 digits. *)
Definition int_too_long (z : Z) : bool :=
  (4300 <? String.length (str_of_Z (Z.abs z)))%nat.

Definition int_str_limit : PyExc :=
  mkExc "ValueError"
    "Exceeds the limit (4300 digits) for integer string conversion; use sys.set_int_max_str_digits() to increase the limit".

(** Results of operations that may raise. *)
Definition result (A : Type) : Type := (PyExc + A)%type.

Definition ok {A} (a : A) : result A := inr a.
Definition raise {A} (e : PyExc) : result A := inl e.

(** *** [bytes(s, encoding='utf-8')] *)

(** A byte of the form [10xxxxxx]: it continues a character. *)
Definition is_continuation (c : ascii) : bool :=
  let n := N_of_ascii c in ((128 <=? n) && (n <? 192))%N.

(** The text starts with the three bytes of a lone surrogate. *)
Definition starts_with_surrogate (s : string) : bool :=
  match s with
  | String c1 (String c2 (String c3 _)) =>
      ((N_of_ascii c1 =? 237) && (160 <=? N_of_ascii c2)
       && (N_of_ascii c2 <? 192))%N
  | _ => false
  end.

(** The number of surrogates in a row at the start of the text. *)
Fixpoint surrogate_run (s : string) : nat :=
  match s with
  | String c1 (String c2 (String c3 rest)) =>
      if ((N_of_ascii c1 =? 237) && (160 <=? N_of_ascii c2)
          && (N_of_ascii c2 <? 192))%N
      then S (surrogate_run rest)
      else 0
  | _ => 0
  end.

(** The code point of the surrogate at the start of the text. *)
Definition surrogate_code (s : string) : N :=
  match s with
  | String _ (String c2 (String c3 _)) =>
      (53248 + N.land (N_of_ascii c2) 63 * 64 + N.land (N_of_ascii c3) 63)%N
  | _ => 0%N
  end.

Definition hex_digit (n : N) : ascii :=
  match n with
  | 0 => "0" | 1 => "1" | 2 => "2" | 3 => "3" | 4 => "4" | 5 => "5"
  | 6 => "6" | 7 => "7" | 8 => "8" | 9 => "9" | 10 => "a" | 11 => "b"
  | 12 => "c" | 13 => "d" | 14 => "e" | _ => "f"
  end%N%char.

(** [%04x] *)
Definition hex4 (n : N) : string :=
  String (hex_digit (N.land (N.shiftr n 12) 15))
    (String (hex_digit (N.land (N.shiftr n 8) 15))
       (String (hex_digit (N.land (N.shiftr n 4) 15))
          (String (hex_digit (N.land n 15)) EmptyString))).

(** The first surrogate of a text: its position, counted in characters,
    and the text from there on. *)
Fixpoint find_surrogate (s : string) (position : nat) : option (nat * string) :=
  match s with
  | EmptyString => None
  | String c rest =>
      if starts_with_surrogate s then Some (position, s)
      else find_surrogate rest (if is_continuation c then position
                                else S position)
  end.

Definition surrogates_not_allowed (position : nat) (s : string) : PyExc :=
  mkExc "UnicodeEncodeError"
    (match surrogate_run s with
     | 1%nat =>
         "'utf-8' codec can't encode character '\u" ++ hex4 (surrogate_code s)
           ++ "' in position " ++ str_of_nat position
     | n =>
         "'utf-8' codec can't encode characters in position "
           ++ str_of_nat position ++ "-" ++ str_of_nat (position + n - 1)
     end ++ ": surrogates not allowed").

(** [bytes(s, encoding='utf-8')]: the bytes of the text, unless it holds a
    lone surrogate. *)
Definition str_encode (s : string) : result (list byte) :=
  match find_surrogate s 0 with
  | Some (position, from) => raise (surrogates_not_allowed position from)
  | None => ok (list_byte_of_string s)
  end.

End Py.
Import Py.

(* ================================================================== *)
(** ** The [base64] module *)

Module Base64.

Local Open Scope N_scope.
Local Open Scope list_scope.

Definition alphabet : list byte :=
  list_byte_of_string
    "ABCDEFGHIJKLMNOPQRSTUVWXYZabcdefghijklmnopqrstuvwxyz0123456789+/".

Definition BASE64_PAD : byte := x3d.

(** [table_b2a_base64[s]] *)
Definition b2a (s : N) : byte := nth (N.to_nat s) alphabet BASE64_PAD.

Fixpoint index_of (c : byte) (l : list byte) (i : N) : option N :=
  match l with
  | [] => None
  | d :: l' => if Byte.eqb c d then Some i else index_of c l' (i + 1)
  end.

(** [table_a2b_base64[c]]: the 6-bit value of an alphabet character,
    [None] for every other byte. *)
Definition a2b (c : byte) : option N := index_of c alphabet 0.

(** A value stored into an [unsigned char]. *)
Definition to_uchar (n : N) : byte :=
  match Byte.of_N (n mod 256) with
  | Some b => b
  | None => x00
  end.

(** The four 6-bit groups of three input bytes. *)
Definition sextet0 (x : N) : N := N.shiftr x 2.
Definition sextet1 (x y : N) : N := N.lor (N.shiftl (N.land x 3) 4) (N.shiftr y 4).
Definition sextet2 (y z : N) : N := N.lor (N.shiftl (N.land y 15) 2) (N.shiftr z 6).
Definition sextet3 (z : N) : N := N.land z 63.

(** [base64.b64encode(bs)]: groups of three bytes become four alphabet
    characters; a last group of one or two bytes is padded with [=]. *)
Fixpoint b64encode (bs : list byte) : list byte :=
  match bs with
  | [] => []
  | [x] =>
      let x := Byte.to_N x in
      [b2a (sextet0 x); b2a (sextet1 x 0); BASE64_PAD; BASE64_PAD]
  | [x; y] =>
      let x := Byte.to_N x in
      let y := Byte.to_N y in
      [b2a (sextet0 x); b2a (sextet1 x y); b2a (sextet2 y 0); BASE64_PAD]
  | x :: y :: z :: rest =>
      let x := Byte.to_N x in
      let y := Byte.to_N y in
      let z := Byte.to_N z in
      b2a (sextet0 x) :: b2a (sextet1 x y) :: b2a (sextet2 y z)
        :: b2a (sextet3 z) :: b64encode rest
  end.

Definition incorrect_padding : PyExc :=
  mkExc "binascii.Error" "Incorrect padding".

Definition invalid_length (decoded : nat) : PyExc :=
  mkExc "binascii.Error"
    ("Invalid base64-encoded string: number of data characters ("
       ++ str_of_nat (decoded / 3 * 4 + 1)
       ++ ") cannot be 1 more than a multiple of 4").

(** The decoding loop of [binascii.a2b_base64] in its default mode
    ([strict_mode=False], which is what [base64.b64decode] passes when
    [validate] is left at [False]).  [quad_pos] is the position inside the
    current group of four characters, [leftchar] the bits carried over,
    [pads] the run of [=] seen, [out] the bytes written so far.  Bytes
    outside the alphabet are skipped; a complete pad sequence ends the
    decoding; input that stops inside a group is an error. *)
Fixpoint a2b_loop (quad_pos : nat) (leftchar : N) (pads : nat)
    (out : list byte) (data : list byte) : result (list byte) :=
  match data with
  | [] =>
      match quad_pos with
      | O => ok out
      | 1%nat => raise (invalid_length (List.length out))
      | _ => raise incorrect_padding
      end
  | c :: rest =>
      if Byte.eqb c BASE64_PAD then
        if (2 <=? quad_pos)%nat then
          if (4 <=? quad_pos + S pads)%nat then ok out
          else a2b_loop quad_pos leftchar (S pads) out rest
        else a2b_loop quad_pos leftchar pads out rest
      else
        match a2b c with
        | None => a2b_loop quad_pos leftchar pads out rest
        | Some v =>
            match quad_pos with
            | O => a2b_loop 1 v 0 out rest
            | 1%nat =>
                a2b_loop 2 (N.land v 15) 0
                  (out ++ [to_uchar (N.lor (N.shiftl leftchar 2) (N.shiftr v 4))])
                  rest
            | 2%nat =>
                a2b_loop 3 (N.land v 3) 0
                  (out ++ [to_uchar (N.lor (N.shiftl leftchar 4) (N.shiftr v 2))])
                  rest
            | _ =>
                a2b_loop 0 0 0
                  (out ++ [to_uchar (N.lor (N.shiftl leftchar 6) v)])
                  rest
            end
        end
  end.

(** [base64.b64decode(data)] *)
Definition b64decode (data : list byte) : result (list byte) :=
  a2b_loop 0 0 0 [] data.

(** Base64 text as RFC 4648 section 4 defines it: groups of four alphabet
    characters, the last group possibly ending in one or two pad
    characters.  The handler makes no such check; this is the yardstick
    for "valid base64 text". *)
Definition is_alphabet (c : byte) : bool :=
  match a2b c with Some _ => true | None => false end.

Fixpoint valid_quads (data : list byte) : bool :=
  match data with
  | [] => true
  | [a; b; c; d] =>
      is_alphabet a && is_alphabet b
      && ((is_alphabet c && (is_alphabet d || Byte.eqb d BASE64_PAD))
          || (Byte.eqb c BASE64_PAD && Byte.eqb d BASE64_PAD))
  | a :: b :: c :: d :: rest =>
      is_alphabet a && is_alphabet b && is_alphabet c && is_alphabet d
      && valid_quads rest
  | _ => false
  end.

Definition valid_base64_text (s : string) : bool :=
  valid_quads (list_byte_of_string s).

(** The numbers below [n], for checking a property of small numbers by
    running it on each of them. *)
Definition below (n : nat) : list N := map N.of_nat (seq 0 n).

End Base64.

Import Base64.

(* ================================================================== *)
(** ** [json.dumps] with [cls=EncodeBase64] *)

Module Json.

(** The JSON document that [json.dumps] writes, as a tree.  Object members
    are kept in the order in which they are written; a number that comes
    from a [float] is kept as the text written for it. *)
Inductive JSON : Type :=
| JNull
| JBool (b : bool)
| JNum (z : Z)
| JFloat (text : string)
| JStr (s : string)
| JArr (items : list JSON)
| JObj (members : list (string * JSON)).

Definition not_serializable (o : PyVal) : PyExc :=
  mkExc "TypeError"
    ("Object of type " ++ type_name o ++ " is not JSON serializable").

Definition bad_key (k : PyVal) : PyExc :=
  mkExc "TypeError"
    ("keys must be str, int, float, bool or None, not " ++ tp_name k).

(** [EncodeBase64.default(o)]: [bytes] are replaced by the text of their
    base64 encoding; anything else is handed to [JSONEncoder.default],
    which raises [TypeError]. *)
Definition EncodeBase64_default (o : PyVal) : result string :=
  match o with
  | PyBytes bs => ok (string_of_list_byte (b64encode bs))
  | _ => raise (not_serializable o)
  end.

(** The text written for a [float]: its [repr], but for the three values
    that JSON has no number for. *)
Definition float_text (repr : string) : string :=
  if String.eqb repr "nan" then "NaN"
  else if String.eqb repr "inf" then "Infinity"
  else if String.eqb repr "-inf" then "-Infinity"
  else repr.

(** A dictionary key as the encoder writes it. *)
Definition encode_key (k : PyVal) : result string :=
  match k with
  | PyStr s => ok s
  | PyFloat repr => ok (float_text repr)
  | PyInt z => if int_too_long z then raise int_str_limit else ok (str_of_Z z)
  | PyBool true => ok "true"
  | PyBool false => ok "false"
  | PyNone => ok "null"
  | _ => raise (bad_key k)
  end.

(** The tree written for a Python value.  Values the encoder does not know
    go through [EncodeBase64_default]; the first error met, in writing
    order, aborts the whole [dumps].  A value is a finite tree here, so the
    encoder's check for circular references never fires. *)
Fixpoint encode (o : PyVal) : result JSON :=
  match o with
  | PyNone => ok JNull
  | PyBool b => ok (JBool b)
  | PyInt z => if int_too_long z then raise int_str_limit else ok (JNum z)
  | PyFloat repr => ok (JFloat (float_text repr))
  | PyStr s => ok (JStr s)
  | PyList items | PyTuple items =>
      match
        (fix encode_items (l : list PyVal) : result (list JSON) :=
           match l with
           | [] => ok []
           | x :: l' =>
               match encode x with
               | inl e => raise e
               | inr j =>
                   match encode_items l' with
                   | inl e => raise e
                   | inr js => ok (j :: js)
                   end
               end
           end) items
      with
      | inl e => raise e
      | inr js => ok (JArr js)
      end
  | PyDict kvs =>
      match
        (fix encode_members (l : list (PyVal * PyVal))
           : result (list (string * JSON)) :=
           match l with
           | [] => ok []
           | (k, v) :: l' =>
               match encode_key k with
               | inl e => raise e
               | inr ks =>
                   match encode v with
                   | inl e => raise e
                   | inr j =>
                       match encode_members l' with
                       | inl e => raise e
                       | inr ms => ok ((ks, j) :: ms)
                       end
                   end
               end
           end) kvs
      with
      | inl e => raise e
      | inr ms => ok (JObj ms)
      end
  | PyBytes _ | PyObject _ _ =>
      match EncodeBase64_default o with
      | inl e => raise e
      | inr s => ok (JStr s)
      end
  end.

(** The two inner loops of [encode], named. *)
Fixpoint encode_items (l : list PyVal) : result (list JSON) :=
  match l with
  | [] => ok []
  | x :: l' =>
      match encode x with
      | inl e => raise e
      | inr j =>
          match encode_items l' with
          | inl e => raise e
          | inr js => ok (j :: js)
          end
      end
  end.

Fixpoint encode_members (l : list (PyVal * PyVal))
  : result (list (string * JSON)) :=
  match l with
  | [] => ok []
  | (k, v) :: l' =>
      match encode_key k with
      | inl e => raise e
      | inr ks =>
          match encode v with
          | inl e => raise e
          | inr j =>
              match encode_members l' with
              | inl e => raise e
              | inr ms => ok ((ks, j) :: ms)
              end
          end
      end
  end.

(** Member lookup in a JSON object (first occurrence), for reading an
    envelope back. *)
Fixpoint assoc (k : string) (ms : list (string * JSON)) : option JSON :=
  match ms with
  | [] => None
  | (k', j) :: ms' => if String.eqb k k' then Some j else assoc k ms'
  end.

Definition member (k : string) (j : JSON) : option JSON :=
  match j with JObj ms => assoc k ms | _ => None end.

End Json.
Import Json.

(** What the embedding takes from the Python runtime without modelling its
    inside: the UTF-8 decoder behind [str(b, 'utf-8')], the parser
    [json.loads], and the text that [json.dumps] writes for a JSON tree. *)
Class PyRuntime : Type := {
  utf8_decode : list byte -> result string;
  json_loads : string -> result PyVal;
  json_text : JSON -> string
}.

(* ================================================================== *)
(** ** [create_function] *)

(** The input envelope.  Headers and inputs are string-to-string mappings;
    the payload is the base64 text of the message.  The ["inputs"] key may be
    missing from the event dictionary ([ev_inputs = None]). *)
Definition Headers : Type := list (string * string).

Record Message : Type := {
  msg_headers : Headers;
  msg_payload : string
}.

Record Event : Type := {
  ev_messages : list Message;
  ev_inputs : option Headers
}.

(** A string-to-string mapping as the Python [dict] it is. *)
Definition dict_of (h : Headers) : PyVal :=
  PyDict (map (fun kv => (PyStr (fst kv), PyStr (snd kv))) h).

(** Line 86: [base64.b64decode(bytes(message['payload'], encoding='utf-8'))]. *)
Definition b64decode_payload (payload : string) : result (list byte) :=
  match str_encode payload with
  | inl e => raise e
  | inr text => b64decode text
  end.

(** [processed_events]: the two lists the handler appends to. *)
Record ProcessedEvents : Type := {
  messages : list PyVal;
  failed_messages : list PyVal
}.

Definition processed_events_dict (pe : ProcessedEvents) : PyVal :=
  PyDict [ (PyStr "messages", PyList (messages pe));
           (PyStr "failed_messages", PyList (failed_messages pe)) ].

(** What calling the user's [event_handler] can do: raise, return a value
    that cannot be awaited, or return an awaitable [obj] (the coroutine of
    an [async def], a future, ...) whose result is there only once it is
    awaited.  [W] is whatever state the user's function reads and writes.

    The function is handed [message['headers']] itself, not a copy, and the
    handler reads that dictionary again when the message fails.  So a call
    reports, next to the new state, the dictionary as it leaves it: the
    argument it was given when it updates nothing in place.  Awaiting
    reports the same.  A function is taken to update a dictionary only
    while it runs for the message the dictionary came with. *)
Inductive Called (W : Type) : Type :=
| Raises (e : PyExc)
| Returns (v : PyVal)
| ReturnsAwaitable (obj : PyVal) (awaited : W -> W * PyVal * result PyVal).

Arguments Raises {W} e.
Arguments Returns {W} v.
Arguments ReturnsAwaitable {W} obj awaited.

(** The two shapes of entries: lines 97-100 and lines 110-114.  [headers]
    is [message["headers"]] as the [except] clause finds it. *)
Definition success_entry (processed_headers processed_message : PyVal) : PyVal :=
  PyDict [ (PyStr "headers", processed_headers);
           (PyStr "payload", processed_message) ].

Definition except_entry (headers : PyVal) (message : Message) (e : PyExc)
  : PyVal :=
  PyDict [ (PyStr "headers", headers);
           (PyStr "payload", PyStr (msg_payload message));
           (PyStr "error", PyStr (exc_str e)) ].

(** The failure entry of a message whose headers nobody has touched. *)
Definition failed_entry (message : Message) (e : PyExc) : PyVal :=
  PyDict [ (PyStr "headers", dict_of (msg_headers message));
           (PyStr "payload", PyStr (msg_payload message));
           (PyStr "error", PyStr (exc_str e)) ].

(** What [json.dumps] writes for a string-to-string mapping and for a failure
    entry. *)
Definition json_of_headers (h : Headers) : JSON :=
  JObj (map (fun kv => (fst kv, JStr (snd kv))) h).

Definition json_failed_entry (message : Message) (e : PyExc) : JSON :=
  JObj [ ("headers", json_of_headers (msg_headers message));
         ("payload", JStr (msg_payload message));
         ("error", JStr (exc_str e)) ].

(** [event["inputs"]] *)
Definition KeyError_inputs : PyExc := mkExc "KeyError" "'inputs'".

Definition lookup_inputs (event : Event) : result PyVal :=
  match ev_inputs event with
  | Some i => ok (dict_of i)
  | None => raise KeyError_inputs
  end.

(** Iterating a value, as the unpacking assignment [a, b = v] does. *)
Fixpoint str_chars (s : string) : list string :=
  match s with
  | EmptyString => []
  | String c rest =>
      let chs := str_chars rest in
      match rest with
      | String d _ =>
          if is_continuation d then
            match chs with
            | ch :: chs' => String c ch :: chs'
            | [] => [String c EmptyString]
            end
          else String c EmptyString :: chs
      | EmptyString => [String c EmptyString]
      end
  end.

Definition iter_items (v : PyVal) : Iteration PyVal :=
  match v with
  | PyList items | PyTuple items => Yields items None
  | PyDict kvs => Yields (map fst kvs) None
  | PyStr s => Yields (map PyStr (str_chars s)) None
  | PyBytes bs => Yields (map (fun b => PyInt (Z.of_N (Byte.to_N b))) bs) None
  | PyObject _ iteration => iteration
  | PyNone | PyBool _ | PyInt _ | PyFloat _ => NotIterable
  end.

(** [a, b = v]: up to three items are asked for. *)
Definition unpack2 (v : PyVal) : result (PyVal * PyVal) :=
  match iter_items v with
  | NotIterable =>
      raise (mkExc "TypeError"
               ("cannot unpack non-iterable " ++ tp_name v ++ " object"))
  | Yields (_ :: _ :: _ :: _) _ =>
      raise (mkExc "ValueError" "too many values to unpack (expected 2)")
  | Yields _ (Some e) => raise e
  | Yields [a; b] None => ok (a, b)
  | Yields l None =>
      raise (mkExc "ValueError"
               ("not enough values to unpack (expected 2, got "
                  ++ str_of_nat (List.length l) ++ ")"))
  end.

(** The coroutine object that calling an [async def] gives. *)
Definition coroutine : PyVal := PyObject (builtin "coroutine") NotIterable.

(** [await v] on a value that cannot be awaited. *)
Definition await_error (v : PyVal) : PyExc :=
  mkExc "TypeError"
    ("object " ++ tp_name v ++ " can't be used in 'await' expression").

(** The two messages the handler raises itself. *)
Definition err_msg_one_None (processed_message processed_headers : PyVal) : string :=
  "processed_messages is of type " ++ type_repr processed_message
    ++ " and processed_headers is " ++ type_repr processed_headers
    ++ ". Either both of these should be None or neither".

Definition err_msg_format : string :=
  "The returned processed_message or processed_headers were not in the right format. processed_message must be bytes and processed_headers, dict".

Definition serialization_failure (e : PyExc) : string :=
  "Returned message types from user function are not able to be converted into JSON: "
    ++ exc_str e.

Section create_function.

Context {W : Type} {RT : PyRuntime}.

(** The parameters of [create_function]. *)
Variable event_handler : PyVal -> PyVal -> PyVal -> W -> W * PyVal * Called W.
Variable use_async : bool.
Variable as_json : bool.

(** Statements of the [try] block.  They run on the state of the user's
    function and on [message['headers']] as it stands; exceptions are
    propagated to the [except] clause. *)
Definition M (A : Type) : Type := W * PyVal -> W * PyVal * result A.

Definition ret {A} (a : A) : M A := fun st => (st, inr a).
Definition throw {A} (e : PyExc) : M A := fun st => (st, inl e).
Definition lift {A} (r : result A) : M A := fun st => (st, r).
Definition bind {A B} (m : M A) (k : A -> M B) : M B :=
  fun st =>
    match m st with
    | (st', inl e) => (st', inl e)
    | (st', inr a) => k a st'
    end.

Notation "x <- m ;; k" := (bind m (fun x => k))
  (at level 100, m at next level, right associativity).

(** Lines 91-94: the call on [message['headers']], awaited or not. *)
Definition call_event_handler (payload inputs : PyVal) : M PyVal :=
  fun st =>
    match event_handler payload (snd st) inputs (fst st) with
    | (st', Raises e) => (st', inl e)
    | (st', Returns v) =>
        if use_async then (st', inl (await_error v)) else (st', inr v)
    | (st', ReturnsAwaitable obj awaited) =>
        if use_async then awaited (fst st') else (st', inr obj)
    end.

(** Lines 86-89: the payload handed to the user's function. *)
Definition decode_payload (message : Message) : result PyVal :=
  match b64decode_payload (msg_payload message) with
  | inl e => raise e
  | inr payload =>
      if as_json then
        match utf8_decode payload with
        | inl e => raise e
        | inr text => json_loads text
        end
      else ok (PyBytes payload)
  end.

(** How the [try] block ends when nothing is raised. *)
Inductive Flow : Type :=
| Append (entry : PyVal)
| Continue.

(** Lines 96-108. *)
Definition check_result (processed_message processed_headers : PyVal)
  : result Flow :=
  if isinstance_bytes processed_message && isinstance_dict processed_headers then
    ok (Append (success_entry processed_headers processed_message))
  else if is_None processed_message && is_None processed_headers then
    ok Continue
  else if is_None processed_message || is_None processed_headers then
    raise (mkExc "Exception" (err_msg_one_None processed_message processed_headers))
  else
    raise (mkExc "Exception" err_msg_format).

(** Lines 86-108: the body of the [try]. *)
Definition try_body (event : Event) (message : Message) : M Flow :=
  payload <- lift (decode_payload message) ;;
  inputs <- lift (lookup_inputs event) ;;
  returned <- call_event_handler payload inputs ;;
  unpacked <- lift (unpack2 returned) ;;
  lift (check_result (fst unpacked) (snd unpacked)).

(** The [try] block of one message, run from the headers the message came
    with. *)
Definition run_try (event : Event) (message : Message) (w : W)
  : W * PyVal * result Flow :=
  try_body event message (w, dict_of (msg_headers message)).

(** Lines 85-114: one iteration of the [for] loop. *)
Definition loop_body (event : Event) (st : W * ProcessedEvents)
    (message : Message) : W * ProcessedEvents :=
  let (w, processed_events) := st in
  match run_try event message w with
  | (w', _, inr (Append entry)) =>
      (w', {| messages := messages processed_events ++ [entry];
              failed_messages := failed_messages processed_events |})
  | (w', _, inr Continue) => (w', processed_events)
  | (w', headers, inl e) =>
      (w', {| messages := messages processed_events;
              failed_messages :=
                failed_messages processed_events
                ++ [except_entry headers message e] |})
  end.

(** Lines 81-114. *)
Definition run_loop (event : Event) (w : W) : W * ProcessedEvents :=
  fold_left (loop_body event) (ev_messages event)
    (w, {| messages := []; failed_messages := [] |}).

(** Line 117: [json.dumps(processed_events, cls=EncodeBase64)]. *)
Definition json_dumps (o : PyVal) : result string :=
  match encode o with
  | inl e => raise e
  | inr j => ok (json_text j)
  end.

(** Lines 80-119: the value returned is either the [bytes] of the JSON
    envelope or the [str] that reports a failed serialisation. *)
Definition handler (event : Event) (w : W) : W * PyVal :=
  let (w', processed_events) := run_loop event w in
  (w',
   match json_dumps (processed_events_dict processed_events) with
   | inr text => PyBytes (list_byte_of_string text)
   | inl e => PyStr (serialization_failure e)
   end).

(** Line 121. *)
Definition create_function (event : Event) (w : W) : W * PyVal :=
  handler event w.

(** *** Observing one run of the loop *)

(** The state of the user's function, and the headers of [m], when the
    [try] block of [m] is over. *)
Definition state_after (event : Event) (m : Message) (w : W) : W :=
  fst (fst (run_try event m w)).

Definition headers_after (event : Event) (m : Message) (w : W) : PyVal :=
  snd (fst (run_try event m w)).

(** The state of the user's function when the loop reaches position [i]
    of the batch. *)
Fixpoint world_before (event : Event) (w : W) (msgs : list Message)
    (i : nat) : W :=
  match i, msgs with
  | S i', m :: rest => world_before event (state_after event m w) rest i'
  | _, _ => w
  end.

(** What became of one message; a failure goes with the headers that the
    [except] clause found. *)
Inductive Outcome : Type :=
| Kept (entry : PyVal)
| Dropped
| Failed (headers : PyVal) (e : PyExc).

Definition outcome (event : Event) (m : Message) (w : W) : Outcome :=
  match run_try event m w with
  | (_, _, inr (Append entry)) => Kept entry
  | (_, _, inr Continue) => Dropped
  | (_, headers, inl e) => Failed headers e
  end.

Fixpoint outcomes (event : Event) (w : W) (msgs : list Message)
  : list Outcome :=
  match msgs with
  | [] => []
  | m :: rest =>
      outcome event m w :: outcomes event (state_after event m w) rest
  end.

(** The entries that a list of outcomes puts into each of the two output
    lists. *)
Fixpoint kept_entries (outs : list Outcome) : list PyVal :=
  match outs with
  | [] => []
  | Kept entry :: outs' => entry :: kept_entries outs'
  | _ :: outs' => kept_entries outs'
  end.

Fixpoint failed_entries (msgs : list Message) (outs : list Outcome)
  : list PyVal :=
  match msgs, outs with
  | m :: msgs', Failed headers e :: outs' =>
      except_entry headers m e :: failed_entries msgs' outs'
  | _ :: msgs', _ :: outs' => failed_entries msgs' outs'
  | _, _ => []
  end.

(** Position [i] of the batch succeeded with [entry], respectively failed
    with [entry]. *)
Definition kept_at (event : Event) (w : W) (i : nat) (entry : PyVal) : Prop :=
  exists m,
    nth_error (ev_messages event) i = Some m /\
    outcome event m (world_before event w (ev_messages event) i) = Kept entry.

Definition failed_at (event : Event) (w : W) (i : nat) (entry : PyVal) : Prop :=
  exists m headers e,
    nth_error (ev_messages event) i = Some m /\
    outcome event m (world_before event w (ev_messages event) i)
      = Failed headers e /\
    entry = except_entry headers m e.

(** The positions of a list of outcomes that satisfy [sel], counted from
    [i], in increasing order. *)
Definition is_Kept (o : Outcome) : bool :=
  match o with Kept _ => true | _ => false end.

Definition is_Failed (o : Outcome) : bool :=
  match o with Failed _ _ => true | _ => false end.

Fixpoint positions (sel : Outcome -> bool) (outs : list Outcome) (i : nat)
  : list nat :=
  match outs with
  | [] => []
  | o :: outs' =>
      if sel o then i :: positions sel outs' (S i)
      else positions sel outs' (S i)
  end.

(** What the call of line 92/94 gives for [m]: the state and the headers it
    leaves, with the value handed back or the exception raised. *)
Definition call_of (payload inputs : PyVal) (m : Message) (w : W)
  : W * PyVal * result PyVal :=
  call_event_handler payload inputs (w, dict_of (msg_headers m)).

(** The pair that line 92/94 binds to [processed_message],
    [processed_headers], when the user's function was called for [m] and
    (awaited or not) handed back something that unpacks into two. *)
Definition returned_pair (event : Event) (m : Message) (w : W)
  : option (PyVal * PyVal) :=
  match decode_payload m, lookup_inputs event with
  | inr payload, inr inputs =>
      match call_of payload inputs m w with
      | (_, inr returned) =>
          match unpack2 returned with
          | inr unpacked => Some unpacked
          | inl _ => None
          end
      | (_, inl _) => None
      end
  | _, _ => None
  end.

Definition returned_None_None (event : Event) (m : Message) (w : W) : bool :=
  match returned_pair event m w with
  | Some (PyNone, PyNone) => true
  | _ => false
  end.

(** Number of messages of the run for which the user's function returned
    [(None, None)]. *)
Fixpoint dropped_count (event : Event) (w : W) (msgs : list Message) : nat :=
  match msgs with
  | [] => 0
  | m :: rest =>
      (if returned_None_None event m w then 1 else 0)
      + dropped_count event (state_after event m w) rest
  end.

(** The payload bytes returned for the messages that succeed, in input
    order. *)
Fixpoint succeeded_payloads (event : Event) (w : W) (msgs : list Message)
  : list (list byte) :=
  match msgs with
  | [] => []
  | m :: rest =>
      match returned_pair event m w with
      | Some (PyBytes b, PyDict _) => [b]
      | _ => []
      end ++ succeeded_payloads event (state_after event m w) rest
  end.

(** The exception that fails [m] when the event has no ["inputs"]: the one
    raised by decoding, if decoding raises, and the [KeyError] of the lookup
    otherwise. *)
Definition error_without_inputs (m : Message) : PyExc :=
  match decode_payload m with
  | inl e => e
  | inr _ => KeyError_inputs
  end.

(** An error arises while [m] is processed: one of the statements of the
    [try] block raises [e]. *)
Inductive message_error (event : Event) (m : Message) (w : W) (e : PyExc)
  : Prop :=
| decode_error :
    decode_payload m = inl e -> message_error event m w e
| inputs_error (payload : PyVal) :
    decode_payload m = inr payload ->
    lookup_inputs event = inl e ->
    message_error event m w e
| transform_exception (payload inputs : PyVal) :
    decode_payload m = inr payload ->
    lookup_inputs event = inr inputs ->
    snd (call_of payload inputs m w) = inl e ->
    message_error event m w e
| unpack_error (payload inputs returned : PyVal) :
    decode_payload m = inr payload ->
    lookup_inputs event = inr inputs ->
    snd (call_of payload inputs m w) = inr returned ->
    unpack2 returned = inl e ->
    message_error event m w e
| contract_violation (processed_message processed_headers : PyVal) :
    returned_pair event m w = Some (processed_message, processed_headers) ->
    check_result processed_message processed_headers = inl e ->
    message_error event m w e.

End create_function.

(* ================================================================== *)
(** ** Concrete runs *)

Module Demo.

Local Open Scope string_scope.

(** A runtime for the examples: text is ASCII, the parser knows three
    documents, and the writer prints strings that need no escaping. *)
Definition ascii_only (bs : list byte) : bool :=
  forallb (fun b => (Byte.to_N b <? 128)%N) bs.

Definition demo_utf8_decode (bs : list byte) : result string :=
  if ascii_only bs then ok (string_of_list_byte bs)
  else raise (mkExc "UnicodeDecodeError"
                "'utf-8' codec can't decode bytes: invalid start byte").

Definition demo_json_loads (s : string) : result PyVal :=
  if String.eqb s "{}" then ok (PyDict [])
  else if String.eqb s "[]" then ok (PyList [])
  else if String.eqb s "null" then ok PyNone
  else raise (mkExc "json.decoder.JSONDecodeError"
                "Expecting value: line 1 column 1 (char 0)").

Definition dquote : ascii := ascii_of_nat 34.

Definition quoted (s : string) : string :=
  String dquote (s ++ String dquote EmptyString).

Fixpoint demo_json_text (j : JSON) : string :=
  match j with
  | JNull => "null"
  | JBool true => "true"
  | JBool false => "false"
  | JNum z => str_of_Z z
  | JFloat text => text
  | JStr s => quoted s
  | JArr items =>
      "[" ++ (fix go (l : list JSON) : string :=
                match l with
                | [] => ""
                | [x] => demo_json_text x
                | x :: l' => demo_json_text x ++ ", " ++ go l'
                end) items ++ "]"
  | JObj members =>
      "{" ++ (fix go (l : list (string * JSON)) : string :=
                match l with
                | [] => ""
                | [(k, x)] => quoted k ++ ": " ++ demo_json_text x
                | (k, x) :: l' =>
                    quoted k ++ ": " ++ demo_json_text x ++ ", " ++ go l'
                end) members ++ "}"
  end.

#[export] Instance demo_runtime : PyRuntime := {
  utf8_decode := demo_utf8_decode;
  json_loads := demo_json_loads;
  json_text := demo_json_text
}.

(** [headers[key] = v] *)
Definition headers_setitem (headers : PyVal) (key : string) (v : PyVal)
  : PyVal :=
  match headers with
  | PyDict kvs => PyDict (dict_setitem kvs key v)
  | _ => headers
  end.

(** A [set] object with the given elements, in the order in which iterating
    it visits them. *)
Definition set_of (elements : list PyVal) : PyVal :=
  PyObject (builtin "set") (Yields elements None).

(** A user function that counts its calls and whose behaviour is chosen by
    the first byte of the payload: [r] raises, [m] marks the headers it was
    given and raises, [n] filters the message out, [h] returns half a pair,
    [s] returns a [str] payload, [u] returns headers that [json.dumps]
    cannot write; anything else is passed through. *)
Definition demo_handler (payload headers inputs : PyVal) (calls : nat)
  : nat * PyVal * Called nat :=
  match payload with
  | PyBytes ("r"%byte :: _) =>
      (S calls, headers, Raises (mkExc "ValueError" "boom"))
  | PyBytes ("m"%byte :: _) =>
      (S calls, headers_setitem headers "seen" (PyStr "yes"),
       Raises (mkExc "ValueError" "boom"))
  | PyBytes ("n"%byte :: _) =>
      (S calls, headers, Returns (PyTuple [PyNone; PyNone]))
  | PyBytes ("h"%byte :: _) =>
      (S calls, headers, Returns (PyTuple [payload; PyNone]))
  | PyBytes ("s"%byte :: _) =>
      (S calls, headers, Returns (PyTuple [PyStr "text"; headers]))
  | PyBytes ("u"%byte :: _) =>
      (S calls, headers,
       Returns (PyTuple [payload; PyDict [(PyStr "tags", set_of [])]]))
  | _ => (S calls, headers, Returns (PyTuple [payload; headers]))
  end.

(** A message with the given payload string. *)
Definition raw_msg (payload : string) : Message :=
  {| msg_headers := [("k", "v")]; msg_payload := payload |}.

Definition batch (msgs : list Message) : Event :=
  {| ev_messages := msgs; ev_inputs := Some [("field", "value")] |}.

Definition batch_without_inputs (msgs : list Message) : Event :=
  {| ev_messages := msgs; ev_inputs := None |}.

End Demo.
(* ================================================================== *)
(** ** [json.dumps] without an encoder class, and the example handler *)

Module JsonEncoder.

(** [JSONEncoder.default(o)]: the base class knows no other value. *)
Definition JSONEncoder_default (o : PyVal) : result string :=
  raise (not_serializable o).

(** The encoder with its [default] method as a parameter: [json.dumps(o)]
    runs it with [JSONEncoder_default], [json.dumps(o, cls=EncodeBase64)]
    with [EncodeBase64_default]. *)
Section encoder.

Variable default : PyVal -> result string.

Fixpoint encode_with (o : PyVal) : result JSON :=
  match o with
  | PyNone => ok JNull
  | PyBool b => ok (JBool b)
  | PyInt z => if int_too_long z then raise int_str_limit else ok (JNum z)
  | PyFloat repr => ok (JFloat (float_text repr))
  | PyStr s => ok (JStr s)
  | PyList items | PyTuple items =>
      match
        (fix encode_items (l : list PyVal) : result (list JSON) :=
           match l with
           | [] => ok []
           | x :: l' =>
               match encode_with x with
               | inl e => raise e
               | inr j =>
                   match encode_items l' with
                   | inl e => raise e
                   | inr js => ok (j :: js)
                   end
               end
           end) items
      with
      | inl e => raise e
      | inr js => ok (JArr js)
      end
  | PyDict kvs =>
      match
        (fix encode_members (l : list (PyVal * PyVal))
           : result (list (string * JSON)) :=
           match l with
           | [] => ok []
           | (k, v) :: l' =>
               match encode_key k with
               | inl e => raise e
               | inr ks =>
                   match encode_with v with
                   | inl e => raise e
                   | inr j =>
                       match encode_members l' with
                       | inl e => raise e
                       | inr ms => ok ((ks, j) :: ms)
                       end
                   end
               end
           end) kvs
      with
      | inl e => raise e
      | inr ms => ok (JObj ms)
      end
  | PyBytes _ | PyObject _ _ =>
      match default o with
      | inl e => raise e
      | inr s => ok (JStr s)
      end
  end.

Fixpoint encode_with_items (l : list PyVal) : result (list JSON) :=
  match l with
  | [] => ok []
  | x :: l' =>
      match encode_with x with
      | inl e => raise e
      | inr j =>
          match encode_with_items l' with
          | inl e => raise e
          | inr js => ok (j :: js)
          end
      end
  end.

Fixpoint encode_with_members (l : list (PyVal * PyVal))
  : result (list (string * JSON)) :=
  match l with
  | [] => ok []
  | (k, v) :: l' =>
      match encode_key k with
      | inl e => raise e
      | inr ks =>
          match encode_with v with
          | inl e => raise e
          | inr j =>
              match encode_with_members l' with
              | inl e => raise e
              | inr ms => ok ((ks, j) :: ms)
              end
          end
      end
  end.

End encoder.

(** The tree written by [json.dumps(o)]. *)
Definition encode_plain (o : PyVal) : result JSON :=
  encode_with JSONEncoder_default o.

End JsonEncoder.
Import JsonEncoder.

Module Sample.

Definition no_item_assignment (o : PyVal) : PyExc :=
  mkExc "TypeError"
    ("'" ++ tp_name o ++ "' object does not support item assignment").

Definition list_index_not_int : PyExc :=
  mkExc "TypeError" "list indices must be integers or slices, not str".

(** [o[key] = v] with a [str] key.  An instance of another class is taken to
    define no [__setitem__]. *)
Definition setitem (o : PyVal) (key : string) (v : PyVal) : result PyVal :=
  match o with
  | PyDict kvs => ok (PyDict (dict_setitem kvs key v))
  | PyList _ => raise list_index_not_int
  | _ => raise (no_item_assignment o)
  end.

(** Lines 127-146: the example [event_handler].  It keeps no state and
    leaves the headers as they are. *)
Definition event_handler {W : Type} {RT : PyRuntime}
    (msg_payload msg_headers inputs : PyVal) (w : W)
  : W * PyVal * Called W :=
  (w, msg_headers,
   match setitem msg_payload "testing" (PyStr "working") with
   | inl e => Raises e
   | inr msg_payload' =>
       match encode_plain msg_payload' with
       | inl e => Raises e
       | inr j =>
           Returns (PyTuple [PyBytes (list_byte_of_string (json_text j));
                             msg_headers])
       end
   end).

(** Lines 124-125: the entry point named in [memphis.yaml]. *)
Definition handler {W : Type} {RT : PyRuntime} (event : Event)
    (context : PyVal) (w : W) : W * PyVal :=
  create_function event_handler false true event w.

End Sample.

(* ================================================================== *)
(** ** More observations of a run *)

(** The bytes the decoder looks at: alphabet characters and the pad. *)
Definition significant (c : byte) : bool :=
  is_alphabet c || Byte.eqb c BASE64_PAD.

Definition strip_payload (s : string) : string :=
  string_of_list_byte (filter significant (list_byte_of_string s)).

(** A failed message, with the headers that the [except] clause found and
    the exception that failed it. *)
Record Failure : Type := {
  fail_message : Message;
  fail_headers : PyVal;
  fail_error : PyExc
}.

(** Lines 110-114 for a failure, and what [json.dumps] writes for it once
    the headers are written as [jh]. *)
Definition failure_entry (f : Failure) : PyVal :=
  PyDict [ (PyStr "headers", fail_headers f);
           (PyStr "payload", PyStr (msg_payload (fail_message f)));
           (PyStr "error", PyStr (exc_str (fail_error f))) ].

Definition json_failure_entry (f : Failure) (jh : JSON) : JSON :=
  JObj [ ("headers", jh);
         ("payload", JStr (msg_payload (fail_message f)));
         ("error", JStr (exc_str (fail_error f))) ].

Section observations.

Context {W : Type} {RT : PyRuntime}.
Variable event_handler : PyVal -> PyVal -> PyVal -> W -> W * PyVal * Called W.
Variable use_async : bool.
Variable as_json : bool.

(** No call of the user's function hands back an awaitable: a plain [def]
    that returns values such as tuples, or raises. *)
Definition plain_function : Prop :=
  forall payload headers inputs w obj awaited,
    snd (event_handler payload headers inputs w) <> ReturnsAwaitable obj awaited.

(** The user's function is an [async def]: every call hands back a
    coroutine. *)
Definition coroutine_function : Prop :=
  forall payload headers inputs w,
    exists awaited,
      snd (event_handler payload headers inputs w)
        = ReturnsAwaitable coroutine awaited.

(** The user's function leaves its state as it found it, in the call and in
    the awaitable it may return. *)
Definition keeps_state : Prop :=
  forall payload headers inputs w,
    fst (fst (event_handler payload headers inputs w)) = w /\
    forall obj awaited,
      snd (event_handler payload headers inputs w)
        = ReturnsAwaitable obj awaited ->
      forall w', fst (fst (awaited w')) = w'.

(** The headers returned for the messages that succeed, in input order. *)
Fixpoint succeeded_headers (event : Event) (w : W) (msgs : list Message)
  : list PyVal :=
  match msgs with
  | [] => []
  | m :: rest =>
      match returned_pair event_handler use_async as_json event m w with
      | Some (PyBytes _, PyDict kvs) => [PyDict kvs]
      | _ => []
      end
      ++ succeeded_headers event
           (state_after event_handler use_async as_json event m w) rest
  end.

(** The messages that fail, each with the headers that the [except] clause
    found and the exception that failed it, in input order. *)
Fixpoint failures (event : Event) (w : W) (msgs : list Message)
  : list Failure :=
  match msgs with
  | [] => []
  | m :: rest =>
      match outcome event_handler use_async as_json event m w with
      | Failed headers e =>
          [{| fail_message := m; fail_headers := headers; fail_error := e |}]
      | _ => []
      end
      ++ failures event
           (state_after event_handler use_async as_json event m w) rest
  end.

(** The headers dictionaries that reach [json.dumps] after the loop: those
    returned for the messages that succeed, then those found for the
    messages that fail. *)
Definition written_headers (event : Event) (w : W) (msgs : list Message)
  : list PyVal :=
  succeeded_headers event w msgs ++ map fail_headers (failures event w msgs).

(** The user's function leaves the headers it is given as they are, in the
    call and in the awaitable it may return. *)
Definition leaves_headers : Prop :=
  forall payload headers inputs w,
    snd (fst (event_handler payload headers inputs w)) = headers /\
    forall obj awaited,
      snd (event_handler payload headers inputs w)
        = ReturnsAwaitable obj awaited ->
      forall w', snd (fst (awaited w')) = headers.

End observations.

Module MoreDemo.

(** An [async def] user function that passes the message through; its body
    counts its runs. *)
Definition async_handler (payload headers inputs : PyVal) (calls : nat)
  : nat * PyVal * Called nat :=
  (calls, headers,
   ReturnsAwaitable coroutine
     (fun runs => (S runs, headers, inr (PyTuple [payload; headers])))).

(** A user function that returns nothing for payloads starting with [x]
    and passes any other message through. *)
Definition forgetful_handler (payload headers inputs : PyVal) (calls : nat)
  : nat * PyVal * Called nat :=
  (S calls, headers,
   match payload with
   | PyBytes ("x"%byte :: _) => Returns PyNone
   | _ => Returns (PyTuple [payload; headers])
   end).

End MoreDemo.

(** The values [json.loads] builds: [None], booleans, integers (of at most
    4300 digits: the parser refuses longer ones), floats, strings, lists of
    such values and dictionaries from strings to such values. *)
Fixpoint json_value (v : PyVal) : bool :=
  match v with
  | PyNone | PyBool _ | PyFloat _ | PyStr _ => true
  | PyInt z => negb (int_too_long z)
  | PyList items =>
      (fix all (l : list PyVal) : bool :=
         match l with
         | [] => true
         | x :: l' => json_value x && all l'
         end) items
  | PyDict kvs =>
      (fix all (l : list (PyVal * PyVal)) : bool :=
         match l with
         | [] => true
         | (k, x) :: l' =>
             match k with PyStr _ => json_value x && all l' | _ => false end
         end) kvs
  | _ => false
  end.

Fixpoint json_values (l : list PyVal) : bool :=
  match l with
  | [] => true
  | x :: l' => json_value x && json_values l'
  end.

Fixpoint json_members (l : list (PyVal * PyVal)) : bool :=
  match l with
  | [] => true
  | (k, x) :: l' =>
      match k with PyStr _ => json_value x && json_members l' | _ => false end
  end.


(* ================================================================== *)
(** ** Properties of the base64 codec *)

Module Base64Facts.

Local Open Scope N_scope.
Local Open Scope list_scope.

Lemma in_below (n : nat) (x : N) : x < N.of_nat n -> In x (below n).
Proof.
  intro Hx. unfold below.
  rewrite <- (N2Nat.id x). apply in_map. apply in_seq. lia.
Qed.

Lemma forall_below (n : nat) (P : N -> bool) :
  forallb P (below n) = true -> forall x, x < N.of_nat n -> P x = true.
Proof.
  intros H x Hx. rewrite forallb_forall in H. apply H, in_below, Hx.
Qed.

Lemma forall2_below (n : nat) (P : N -> N -> bool) :
  forallb (fun x => forallb (P x) (below n)) (below n) = true ->
  forall x y, x < N.of_nat n -> y < N.of_nat n -> P x y = true.
Proof.
  intros H x y Hx Hy.
  apply (forall_below n (P x)); [|exact Hy].
  apply (forall_below n (fun x => forallb (P x) (below n))); assumption.
Qed.

Lemma byte_lt_256 (b : byte) : Byte.to_N b < N.of_nat 256.
Proof. pose proof (Byte.to_N_bounded b). lia. Qed.

Lemma to_uchar_to_N (b : byte) (n : N) :
  n mod 256 = Byte.to_N b -> to_uchar n = b.
Proof.
  intro H. unfold to_uchar. rewrite H, Byte.of_to_N. reflexivity.
Qed.

(** The alphabet tables are inverse of each other on 6-bit values, and no
    alphabet character is the pad. *)
Lemma a2b_b2a (s : N) : s < 64 -> a2b (b2a s) = Some s.
Proof.
  intro Hs.
  assert (H : (match a2b (b2a s) with Some t => t =? s | None => false end) = true).
  { apply (forall_below 64
             (fun s => match a2b (b2a s) with Some t => t =? s | None => false end));
      [vm_compute; reflexivity | exact Hs]. }
  destruct (a2b (b2a s)) as [t|]; [|discriminate].
  apply N.eqb_eq in H. now subst.
Qed.

Lemma b2a_not_pad (s : N) : s < 64 -> Byte.eqb (b2a s) BASE64_PAD = false.
Proof.
  intro Hs.
  assert (H : negb (Byte.eqb (b2a s) BASE64_PAD) = true).
  { apply (forall_below 64 (fun s => negb (Byte.eqb (b2a s) BASE64_PAD)));
      [vm_compute; reflexivity | exact Hs]. }
  now apply negb_true_iff in H.
Qed.

(** The 6-bit groups are 6-bit values. *)
Lemma sextet0_lt (x : N) : x < 256 -> sextet0 x < 64.
Proof.
  intro Hx. apply N.ltb_lt.
  apply (forall_below 256 (fun x => sextet0 x <? 64));
    [vm_compute; reflexivity | exact Hx].
Qed.

Lemma sextet1_lt (x y : N) : x < 256 -> y < 256 -> sextet1 x y < 64.
Proof.
  intros Hx Hy. apply N.ltb_lt.
  apply (forall2_below 256 (fun x y => sextet1 x y <? 64));
    [vm_compute; reflexivity | exact Hx | exact Hy].
Qed.

Lemma sextet2_lt (y z : N) : y < 256 -> z < 256 -> sextet2 y z < 64.
Proof.
  intros Hy Hz. apply N.ltb_lt.
  apply (forall2_below 256 (fun y z => sextet2 y z <? 64));
    [vm_compute; reflexivity | exact Hy | exact Hz].
Qed.

Lemma sextet3_lt (z : N) : sextet3 z < 64.
Proof.
  unfold sextet3. change 63 with (N.ones 6). rewrite N.land_ones.
  apply N.mod_lt. discriminate.
Qed.

(** What the decoder rebuilds from the groups of the encoder. *)
Lemma first_byte (x y : N) :
  x < 256 -> y < 256 ->
  (N.lor (N.shiftl (sextet0 x) 2) (N.shiftr (sextet1 x y) 4)) mod 256 = x.
Proof.
  intros Hx Hy. apply N.eqb_eq.
  apply (forall2_below 256
           (fun x y =>
              (N.lor (N.shiftl (sextet0 x) 2) (N.shiftr (sextet1 x y) 4)) mod 256 =? x));
    [vm_compute; reflexivity | exact Hx | exact Hy].
Qed.

Lemma carry1 (x y : N) :
  x < 256 -> y < 256 -> N.land (sextet1 x y) 15 = N.shiftr y 4.
Proof.
  intros Hx Hy. apply N.eqb_eq.
  apply (forall2_below 256
           (fun x y => N.land (sextet1 x y) 15 =? N.shiftr y 4));
    [vm_compute; reflexivity | exact Hx | exact Hy].
Qed.

Lemma second_byte (y z : N) :
  y < 256 -> z < 256 ->
  (N.lor (N.shiftl (N.shiftr y 4) 4) (N.shiftr (sextet2 y z) 2)) mod 256 = y.
Proof.
  intros Hy Hz. apply N.eqb_eq.
  apply (forall2_below 256
           (fun y z =>
              (N.lor (N.shiftl (N.shiftr y 4) 4) (N.shiftr (sextet2 y z) 2)) mod 256 =? y));
    [vm_compute; reflexivity | exact Hy | exact Hz].
Qed.

Lemma carry2 (y z : N) :
  y < 256 -> z < 256 -> N.land (sextet2 y z) 3 = N.shiftr z 6.
Proof.
  intros Hy Hz. apply N.eqb_eq.
  apply (forall2_below 256
           (fun y z => N.land (sextet2 y z) 3 =? N.shiftr z 6));
    [vm_compute; reflexivity | exact Hy | exact Hz].
Qed.

Lemma third_byte (z : N) :
  z < 256 ->
  (N.lor (N.shiftl (N.shiftr z 6) 6) (sextet3 z)) mod 256 = z.
Proof.
  intro Hz. apply N.eqb_eq.
  apply (forall_below 256
           (fun z => (N.lor (N.shiftl (N.shiftr z 6) 6) (sextet3 z)) mod 256 =? z));
    [vm_compute; reflexivity | exact Hz].
Qed.

(** One step of the decoder on an alphabet character. *)
Lemma a2b_loop_data (s : N) (quad_pos : nat) (leftchar : N) (pads : nat)
    (out rest : list byte) :
  s < 64 ->
  a2b_loop quad_pos leftchar pads out (b2a s :: rest) =
  match quad_pos with
  | O => a2b_loop 1 s 0 out rest
  | 1%nat =>
      a2b_loop 2 (N.land s 15) 0
        (out ++ [to_uchar (N.lor (N.shiftl leftchar 2) (N.shiftr s 4))]) rest
  | 2%nat =>
      a2b_loop 3 (N.land s 3) 0
        (out ++ [to_uchar (N.lor (N.shiftl leftchar 4) (N.shiftr s 2))]) rest
  | _ =>
      a2b_loop 0 0 0 (out ++ [to_uchar (N.lor (N.shiftl leftchar 6) s)]) rest
  end.
Proof.
  intro Hs. cbn [a2b_loop].
  rewrite (b2a_not_pad s Hs), (a2b_b2a s Hs). reflexivity.
Qed.

(** Lists, three elements at a time. *)
Lemma list_ind3 {A} (P : list A -> Prop) :
  P [] ->
  (forall x, P [x]) ->
  (forall x y, P [x; y]) ->
  (forall x y z l, P l -> P (x :: y :: z :: l)) ->
  forall l, P l.
Proof.
  intros H0 H1 H2 H3.
  refine (fix go (l : list A) : P l :=
            match l with
            | [] => H0
            | [x] => H1 x
            | [x; y] => H2 x y
            | x :: y :: z :: l' => H3 x y z l' (go l')
            end).
Qed.

Lemma a2b_loop_b64encode (bs : list byte) :
  forall leftchar out,
    a2b_loop 0 leftchar 0 out (b64encode bs) = inr (out ++ bs).
Proof.
  induction bs as [| x | x y | x y z rest IH] using list_ind3;
    intros leftchar out.
  - cbn. now rewrite app_nil_r.
  - pose proof (byte_lt_256 x) as Hx. cbn [b64encode N.of_nat] in *.
    rewrite a2b_loop_data by (apply sextet0_lt; exact Hx).
    rewrite a2b_loop_data by (apply sextet1_lt; [exact Hx | reflexivity]).
    rewrite (to_uchar_to_N x) by (apply first_byte; [exact Hx | reflexivity]).
    reflexivity.
  - pose proof (byte_lt_256 x) as Hx. pose proof (byte_lt_256 y) as Hy.
    cbn [b64encode] in *.
    rewrite a2b_loop_data by (apply sextet0_lt; exact Hx).
    rewrite a2b_loop_data by (apply sextet1_lt; assumption).
    rewrite a2b_loop_data by (apply sextet2_lt; [exact Hy | reflexivity]).
    rewrite (to_uchar_to_N x) by (apply first_byte; assumption).
    rewrite carry1 by assumption.
    rewrite (to_uchar_to_N y) by (apply second_byte; [exact Hy | reflexivity]).
    cbn. now rewrite <- app_assoc.
  - pose proof (byte_lt_256 x) as Hx. pose proof (byte_lt_256 y) as Hy.
    pose proof (byte_lt_256 z) as Hz.
    cbn [b64encode] in *.
    rewrite a2b_loop_data by (apply sextet0_lt; exact Hx).
    rewrite a2b_loop_data by (apply sextet1_lt; assumption).
    rewrite a2b_loop_data by (apply sextet2_lt; assumption).
    rewrite a2b_loop_data by apply sextet3_lt.
    rewrite (to_uchar_to_N x) by (apply first_byte; assumption).
    rewrite carry1 by assumption.
    rewrite (to_uchar_to_N y) by (apply second_byte; assumption).
    rewrite carry2 by assumption.
    rewrite (to_uchar_to_N z) by (apply third_byte; assumption).
    rewrite IH. repeat rewrite <- app_assoc. reflexivity.
Qed.

(** Decoding what [b64encode] wrote gives the bytes back. *)
Lemma b64decode_b64encode (bs : list byte) :
  b64decode (b64encode bs) = inr bs.
Proof. unfold b64decode. now rewrite a2b_loop_b64encode. Qed.

(** The decoder's two errors carry a message. *)
Lemma a2b_loop_error_nonempty (data : list byte) :
  forall quad_pos leftchar pads out e,
    a2b_loop quad_pos leftchar pads out data = inl e ->
    exc_str e <> EmptyString.
Proof.
  induction data as [|c rest IH]; intros quad_pos leftchar pads out e H.
  - cbn in H. destruct quad_pos as [|[|q]]; inversion H; subst; cbn; discriminate.
  - cbn [a2b_loop] in H.
    destruct (Byte.eqb c BASE64_PAD).
    + destruct (2 <=? quad_pos)%nat.
      * destruct (4 <=? quad_pos + S pads)%nat; [discriminate|]. eauto.
      * eauto.
    + destruct (a2b c); [|eauto].
      destruct quad_pos as [|[|[|q]]]; eauto.
Qed.

Lemma b64decode_error_nonempty (data : list byte) (e : PyExc) :
  b64decode data = inl e -> exc_str e <> EmptyString.
Proof. apply a2b_loop_error_nonempty. Qed.

(** One step of the decoder on any alphabet character. *)
Lemma pad_not_alphabet (c : byte) (v : N) :
  a2b c = Some v -> Byte.eqb c BASE64_PAD = false.
Proof.
  intro H. destruct (Byte.eqb c BASE64_PAD) eqn:E; [|reflexivity].
  apply Byte.byte_dec_bl in E. subst c. vm_compute in H. discriminate.
Qed.

Lemma a2b_loop_alphabet (c : byte) (v : N) (quad_pos : nat) (leftchar : N)
    (pads : nat) (out rest : list byte) :
  a2b c = Some v ->
  a2b_loop quad_pos leftchar pads out (c :: rest) =
  match quad_pos with
  | O => a2b_loop 1 v 0 out rest
  | 1%nat =>
      a2b_loop 2 (N.land v 15) 0
        (out ++ [to_uchar (N.lor (N.shiftl leftchar 2) (N.shiftr v 4))]) rest
  | 2%nat =>
      a2b_loop 3 (N.land v 3) 0
        (out ++ [to_uchar (N.lor (N.shiftl leftchar 4) (N.shiftr v 2))]) rest
  | _ =>
      a2b_loop 0 0 0 (out ++ [to_uchar (N.lor (N.shiftl leftchar 6) v)]) rest
  end.
Proof.
  intro H. cbn [a2b_loop]. rewrite (pad_not_alphabet c v H), H. reflexivity.
Qed.

Lemma is_alphabet_a2b (c : byte) :
  is_alphabet c = true -> exists v, a2b c = Some v.
Proof. unfold is_alphabet. destruct (a2b c); [eauto | discriminate]. Qed.

(** Text that RFC 4648 accepts is never rejected by the decoder: the
    payloads that fail to decode are all invalid base64 text. *)
Lemma valid_quads_accepted (n : nat) :
  forall data,
    (List.length data <= n)%nat ->
    valid_quads data = true ->
    forall leftchar out, exists bs, a2b_loop 0 leftchar 0 out data = inr bs.
Proof.
  induction n as [|n IH]; intros data Hlen Hv leftchar out.
  - destruct data; [|cbn in Hlen; lia]. cbn. eauto.
  - destruct data as [|a [|b [|c [|d rest]]]]; try discriminate Hv.
    + cbn. eauto.
    + destruct rest as [|x rest].
      * cbn [valid_quads] in Hv.
        apply andb_prop in Hv as [Hab Hcd].
        apply andb_prop in Hab as [Ha Hb].
        apply is_alphabet_a2b in Ha as [va Ha].
        apply is_alphabet_a2b in Hb as [vb Hb].
        rewrite (a2b_loop_alphabet a va) by exact Ha.
        rewrite (a2b_loop_alphabet b vb) by exact Hb.
        apply orb_prop in Hcd as [Hcd | Hcd];
          apply andb_prop in Hcd as [Hc Hd].
        -- apply is_alphabet_a2b in Hc as [vc Hc].
           rewrite (a2b_loop_alphabet c vc) by exact Hc.
           apply orb_prop in Hd as [Hd | Hd].
           ++ apply is_alphabet_a2b in Hd as [vd Hd].
              rewrite (a2b_loop_alphabet d vd) by exact Hd.
              cbn. eauto.
           ++ cbn [a2b_loop]. rewrite Hd. cbn. eauto.
        -- cbn [a2b_loop]. rewrite Hc, Hd. cbn. eauto.
      * cbn [valid_quads] in Hv.
        apply andb_prop in Hv as [Hv Hrest].
        apply andb_prop in Hv as [Hv Hd].
        apply andb_prop in Hv as [Hv Hc].
        apply andb_prop in Hv as [Ha Hb].
        apply is_alphabet_a2b in Ha as [va Ha].
        apply is_alphabet_a2b in Hb as [vb Hb].
        apply is_alphabet_a2b in Hc as [vc Hc].
        apply is_alphabet_a2b in Hd as [vd Hd].
        rewrite (a2b_loop_alphabet a va) by exact Ha.
        rewrite (a2b_loop_alphabet b vb) by exact Hb.
        rewrite (a2b_loop_alphabet c vc) by exact Hc.
        rewrite (a2b_loop_alphabet d vd) by exact Hd.
        apply IH; [cbn in Hlen |- *; lia | exact Hrest].
Qed.

Lemma valid_base64_text_accepted (s : string) :
  valid_base64_text s = true ->
  exists bs, b64decode (list_byte_of_string s) = inr bs.
Proof.
  intro H. unfold b64decode.
  apply (valid_quads_accepted (List.length (list_byte_of_string s)));
    [lia | exact H].
Qed.

End Base64Facts.

(* ================================================================== *)
(** ** Properties of the encoder *)

Module JsonFacts.

Lemma encode_PyList (items : list PyVal) :
  encode (PyList items) =
  match encode_items items with
  | inl e => inl e
  | inr js => inr (JArr js)
  end.
Proof. reflexivity. Qed.

Lemma encode_PyDict (kvs : list (PyVal * PyVal)) :
  encode (PyDict kvs) =
  match encode_members kvs with
  | inl e => inl e
  | inr ms => inr (JObj ms)
  end.
Proof. reflexivity. Qed.

Lemma encode_items_Forall2 (items : list PyVal) :
  forall js,
    encode_items items = inr js ->
    Forall2 (fun o j => encode o = inr j) items js.
Proof.
  induction items as [|o items IH]; intros js H; cbn in H.
  - inversion H. constructor.
  - destruct (encode o) as [e|j] eqn:Ho; [discriminate|].
    destruct (encode_items items) as [e|js'] eqn:Hi; [discriminate|].
    inversion H; subst. constructor; auto.
Qed.

Lemma encode_items_map (A : Type) (f : A -> PyVal) (g : A -> JSON) (l : list A) :
  (forall a, encode (f a) = inr (g a)) ->
  encode_items (map f l) = inr (map g l).
Proof.
  intro H. induction l as [|a l IH]; cbn; [reflexivity|].
  now rewrite H, IH.
Qed.

(** A string-to-string mapping is always written. *)
Lemma encode_dict_of (h : Headers) :
  encode (dict_of h) = inr (json_of_headers h).
Proof.
  unfold dict_of, json_of_headers. rewrite encode_PyDict.
  assert (H : encode_members (map (fun kv => (PyStr (fst kv), PyStr (snd kv))) h)
              = inr (map (fun kv => (fst kv, JStr (snd kv))) h)).
  { induction h as [|[k v] h IH]; cbn; [reflexivity|].
    cbn in IH. now rewrite IH. }
  now rewrite H.
Qed.

(** So is a failure entry. *)
Lemma encode_failed_entry (m : Message) (e : PyExc) :
  encode (failed_entry m e) = inr (json_failed_entry m e).
Proof.
  unfold failed_entry, json_failed_entry. rewrite encode_PyDict.
  cbn [encode_members encode_key]. rewrite encode_dict_of. reflexivity.
Qed.

(** A failure entry is written when its headers are. *)
Lemma encode_except_entry (h : PyVal) (m : Message) (e : PyExc) :
  encode (except_entry h m e) =
  match encode h with
  | inl e' => inl e'
  | inr jh =>
      inr (JObj [ ("headers", jh);
                  ("payload", JStr (msg_payload m));
                  ("error", JStr (exc_str e)) ])
  end.
Proof.
  unfold except_entry. rewrite encode_PyDict.
  cbn [encode_members encode_key].
  destruct (encode h) as [e'|jh]; reflexivity.
Qed.

(** A success entry, when it is written, carries the base64 text of the
    payload bytes. *)
Lemma encode_success_entry (h : PyVal) (b : list byte) (j : JSON) :
  encode (success_entry h (PyBytes b)) = inr j ->
  exists jh,
    encode h = inr jh /\
    j = JObj [ ("headers", jh);
               ("payload", JStr (string_of_list_byte (b64encode b))) ].
Proof.
  unfold success_entry. rewrite encode_PyDict.
  cbn [encode_members encode_key].
  destruct (encode h) as [e|jh]; [discriminate|].
  cbn. intro H. inversion H; subst. eauto.
Qed.

(** The two lists of [processed_events] are written one after the other. *)
Lemma encode_processed_events (pe : ProcessedEvents) :
  encode (processed_events_dict pe) =
  match encode_items (messages pe) with
  | inl e => inl e
  | inr ms =>
      match encode_items (failed_messages pe) with
      | inl e => inl e
      | inr fs => inr (JObj [ ("messages", JArr ms); ("failed_messages", JArr fs) ])
      end
  end.
Proof.
  unfold processed_events_dict. rewrite encode_PyDict.
  cbn [encode_members encode_key]. rewrite !encode_PyList.
  destruct (encode_items (messages pe)) as [e|ms]; [reflexivity|].
  destruct (encode_items (failed_messages pe)) as [e|fs]; reflexivity.
Qed.

End JsonFacts.
Import JsonFacts.

(* ================================================================== *)
(** ** The loop, message by message *)

Section run_facts.

Context {W : Type} {RT : PyRuntime}.
Variable event_handler : PyVal -> PyVal -> PyVal -> W -> W * PyVal * Called W.
Variable use_async : bool.
Variable as_json : bool.

(** [f_] is [f] at the parameters of this section. *)
Local Abbreviation run_try_ := (run_try event_handler use_async as_json).
Local Abbreviation state_after_ := (state_after event_handler use_async as_json).
Local Abbreviation headers_after_ := (headers_after event_handler use_async as_json).
Local Abbreviation loop_body_ := (loop_body event_handler use_async as_json).
Local Abbreviation run_loop_ := (run_loop event_handler use_async as_json).
Local Abbreviation handler_ := (handler event_handler use_async as_json).
Local Abbreviation outcome_ := (outcome event_handler use_async as_json).
Local Abbreviation outcomes_ := (outcomes event_handler use_async as_json).
Local Abbreviation world_before_ := (world_before event_handler use_async as_json).
Local Abbreviation returned_pair_ := (returned_pair event_handler use_async as_json).
Local Abbreviation returned_None_None_ := (returned_None_None event_handler use_async as_json).
Local Abbreviation decode_payload_ := (decode_payload as_json).
Local Abbreviation kept_at_ := (kept_at event_handler use_async as_json).
Local Abbreviation failed_at_ := (failed_at event_handler use_async as_json).
Local Abbreviation message_error_ := (message_error event_handler use_async as_json).
Local Abbreviation succeeded_payloads_ := (succeeded_payloads event_handler use_async as_json).
Local Abbreviation dropped_count_ := (dropped_count event_handler use_async as_json).
Local Abbreviation call_of_ := (call_of event_handler use_async).

(** The [try] block, statement by statement. *)
Lemma run_try_unfold (event : Event) (m : Message) (w : W) :
  run_try_ event m w =
  match decode_payload_ m with
  | inl e => (w, dict_of (msg_headers m), inl e)
  | inr payload =>
      match lookup_inputs event with
      | inl e => (w, dict_of (msg_headers m), inl e)
      | inr inputs =>
          match call_of_ payload inputs m w with
          | (st, inl e) => (st, inl e)
          | (st, inr returned) =>
              match unpack2 returned with
              | inl e => (st, inl e)
              | inr unpacked =>
                  (st, check_result (fst unpacked) (snd unpacked))
              end
          end
      end
  end.
Proof.
  unfold run_try, try_body, call_of, bind, lift.
  destruct (decode_payload_ m) as [e|payload]; [reflexivity|].
  destruct (lookup_inputs event) as [e|inputs]; [reflexivity|].
  destruct (call_event_handler event_handler use_async payload inputs
              (w, dict_of (msg_headers m))) as [st [e|returned]]; [reflexivity|].
  destruct (unpack2 returned) as [e|unpacked]; reflexivity.
Qed.

(** The call itself, case by case. *)
Lemma call_of_unfold (payload inputs : PyVal) (m : Message) (w : W) :
  call_of_ payload inputs m w =
  match event_handler payload (dict_of (msg_headers m)) inputs w with
  | (st, Raises e) => (st, inl e)
  | (st, Returns v) =>
      if use_async then (st, inl (await_error v)) else (st, inr v)
  | (st, ReturnsAwaitable obj awaited) =>
      if use_async then awaited (fst st) else (st, inr obj)
  end.
Proof. reflexivity. Qed.

(** The [try] block in terms of the pair that reached line 96. *)
Lemma try_body_returned (event : Event) (m : Message) (w : W) (p : PyVal * PyVal) :
  returned_pair_ event m w = Some p ->
  snd (run_try_ event m w) = check_result (fst p) (snd p).
Proof.
  rewrite run_try_unfold. unfold returned_pair.
  destruct (decode_payload_ m) as [e|payload]; [discriminate|].
  destruct (lookup_inputs event) as [e|inputs]; [discriminate|].
  destruct (call_of_ payload inputs m w) as [st [e|returned]]; [discriminate|].
  destruct (unpack2 returned) as [e|unpacked]; [discriminate|].
  intro H. inversion H; subst. reflexivity.
Qed.

Lemma try_body_not_returned (event : Event) (m : Message) (w : W) :
  returned_pair_ event m w = None ->
  exists e, snd (run_try_ event m w) = inl e.
Proof.
  rewrite run_try_unfold. unfold returned_pair.
  destruct (decode_payload_ m) as [e|payload]; [intros _; eexists; reflexivity|].
  destruct (lookup_inputs event) as [e|inputs]; [intros _; eexists; reflexivity|].
  destruct (call_of_ payload inputs m w) as [st [e|returned]];
    [intros _; eexists; reflexivity|].
  destruct (unpack2 returned) as [e|unpacked]; [intros _; eexists; reflexivity|discriminate].
Qed.

Lemma check_result_Continue (pm ph : PyVal) :
  check_result pm ph = inr Continue <-> pm = PyNone /\ ph = PyNone.
Proof.
  unfold check_result. split.
  - destruct pm, ph; cbn; intro H; try discriminate; auto.
  - intros [-> ->]. reflexivity.
Qed.

(** The outcome of a message, read off the end of its [try] block. *)
Lemma outcome_unfold (event : Event) (m : Message) (w : W) :
  outcome_ event m w =
  match snd (run_try_ event m w) with
  | inr (Append entry) => Kept entry
  | inr Continue => Dropped
  | inl e => Failed (headers_after_ event m w) e
  end.
Proof.
  unfold outcome, headers_after.
  destruct (run_try_ event m w) as [[w' h] [e|[entry|]]]; reflexivity.
Qed.

Lemma outcome_Dropped (event : Event) (m : Message) (w : W) :
  outcome_ event m w = Dropped <-> returned_None_None_ event m w = true.
Proof.
  rewrite outcome_unfold. unfold returned_None_None.
  destruct (returned_pair_ event m w) as [[pm ph]|] eqn:Hp.
  - rewrite (try_body_returned _ _ _ _ Hp). cbn [fst snd].
    split.
    + intro H.
      assert (Hc : check_result pm ph = inr Continue).
      { destruct (check_result pm ph) as [e|[entry|]]; congruence. }
      apply check_result_Continue in Hc as [-> ->]. reflexivity.
    + intro H.
      assert (Hn : pm = PyNone /\ ph = PyNone).
      { destruct pm; try discriminate; destruct ph; try discriminate; auto. }
      apply check_result_Continue in Hn. now rewrite Hn.
  - destruct (try_body_not_returned _ _ _ Hp) as [e ->].
    split; discriminate.
Qed.

(** One iteration appends what the outcome of the message says. *)
Lemma loop_body_outcome (event : Event) (w : W) (pe : ProcessedEvents)
    (m : Message) :
  loop_body_ event (w, pe) m =
  (state_after_ event m w,
   {| messages := messages pe ++ kept_entries [outcome_ event m w];
      failed_messages :=
        failed_messages pe ++ failed_entries [m] [outcome_ event m w] |}).
Proof.
  unfold loop_body, outcome, state_after.
  destruct (run_try_ event m w) as [[w' h] [e|[entry|]]]; cbn;
    rewrite ?app_nil_r; destruct pe; reflexivity.
Qed.

Lemma kept_entries_cons (o : Outcome) (outs : list Outcome) :
  kept_entries (o :: outs) = kept_entries [o] ++ kept_entries outs.
Proof. destruct o; reflexivity. Qed.

Lemma failed_entries_cons (m : Message) (msgs : list Message) (o : Outcome)
    (outs : list Outcome) :
  failed_entries (m :: msgs) (o :: outs) =
  failed_entries [m] [o] ++ failed_entries msgs outs.
Proof. destruct o; reflexivity. Qed.

Lemma fold_loop_body (event : Event) (msgs : list Message) :
  forall w pe,
    fold_left (loop_body_ event) msgs (w, pe) =
    (world_before_ event w msgs (List.length msgs),
     {| messages := messages pe ++ kept_entries (outcomes_ event w msgs);
        failed_messages :=
          failed_messages pe ++ failed_entries msgs (outcomes_ event w msgs) |}).
Proof.
  induction msgs as [|m rest IH]; intros w pe.
  - cbn. rewrite !app_nil_r. destruct pe; reflexivity.
  - cbn [fold_left]. rewrite loop_body_outcome, IH.
    cbn [messages failed_messages world_before List.length
           outcomes].
    rewrite (kept_entries_cons (outcome_ event m w)
               (outcomes_ event (state_after_ event m w) rest)).
    rewrite (failed_entries_cons m rest (outcome_ event m w)
               (outcomes_ event (state_after_ event m w) rest)).
    rewrite <- !app_assoc. reflexivity.
Qed.

(** The whole loop: the two output lists are the kept and the failed
    entries of the outcomes, each in input order. *)
Lemma run_loop_outcomes (event : Event) (w : W) :
  snd (run_loop_ event w) =
  {| messages := kept_entries (outcomes_ event w (ev_messages event));
     failed_messages :=
       failed_entries (ev_messages event)
         (outcomes_ event w (ev_messages event)) |}.
Proof. unfold run_loop. rewrite fold_loop_body. reflexivity. Qed.

Lemma outcomes_length (event : Event) (msgs : list Message) :
  forall w, List.length (outcomes_ event w msgs) = List.length msgs.
Proof. induction msgs as [|m rest IH]; intro w; cbn; [|rewrite IH]; reflexivity. Qed.

Lemma outcomes_nth (event : Event) (msgs : list Message) :
  forall w i,
    nth_error (outcomes_ event w msgs) i =
    option_map (fun m => outcome_ event m (world_before_ event w msgs i))
      (nth_error msgs i).
Proof.
  induction msgs as [|m rest IH]; intros w i.
  - destruct i; reflexivity.
  - destruct i as [|i]; [reflexivity|]. cbn. apply IH.
Qed.


Lemma try_body_error_iff (event : Event) (m : Message) (w : W) (e : PyExc) :
  message_error_ event m w e <-> snd (run_try_ event m w) = inl e.
Proof.
  split.
  - intros [Hd | payload Hd Hi | payload inputs Hd Hi Hc
           | payload inputs returned Hd Hi Hc Hu | pm ph Hp Hc].
    + rewrite run_try_unfold. now rewrite Hd.
    + rewrite run_try_unfold. now rewrite Hd, Hi.
    + rewrite run_try_unfold. rewrite Hd, Hi.
      destruct (call_of_ payload inputs m w)
        as [st [e'|returned]]; cbn [fst snd] in *; [congruence|discriminate].
    + rewrite run_try_unfold. rewrite Hd, Hi.
      destruct (call_of_ payload inputs m w)
        as [st [e'|returned']]; cbn [fst snd] in *; [discriminate|].
      inversion Hc; subst. now rewrite Hu.
    + rewrite (try_body_returned _ _ _ _ Hp). exact Hc.
  - intro H.
    destruct (decode_payload_ m) as [e1|payload] eqn:Hd.
    { rewrite run_try_unfold, Hd in H. cbn in H.
      inversion H; subst. now apply decode_error. }
    destruct (lookup_inputs event) as [e1|inputs] eqn:Hi.
    { rewrite run_try_unfold, Hd, Hi in H. cbn in H.
      inversion H; subst. now apply inputs_error with payload. }
    destruct (call_of_ payload inputs m w) as [st [e1|returned]] eqn:Hc.
    { rewrite run_try_unfold, Hd, Hi, Hc in H. cbn in H.
      inversion H; subst.
      apply transform_exception with payload inputs; auto. now rewrite Hc. }
    destruct (unpack2 returned) as [e1|[pm ph]] eqn:Hu.
    { rewrite run_try_unfold, Hd, Hi, Hc, Hu in H. cbn in H.
      inversion H; subst.
      apply unpack_error with payload inputs returned; auto. now rewrite Hc. }
    assert (Hp : returned_pair_ event m w = Some (pm, ph)).
    { unfold returned_pair. now rewrite Hd, Hi, Hc, Hu. }
    rewrite (try_body_returned _ _ _ _ Hp) in H.
    now apply contract_violation with pm ph.
Qed.

Lemma outcome_Failed (event : Event) (m : Message) (w : W) (h : PyVal)
    (e : PyExc) :
  outcome_ event m w = Failed h e <->
  message_error_ event m w e /\ h = headers_after_ event m w.
Proof.
  rewrite try_body_error_iff, outcome_unfold.
  destruct (snd (run_try_ event m w)) as [e'|[entry|]]; split;
    try (intro H; discriminate H); try (intros [H _]; discriminate H).
  - intro H. inversion H; subst. auto.
  - intros [H ->]. inversion H; subst. reflexivity.
Qed.

(** When the call is not reached, the headers are those of the input. *)
Lemma headers_after_unreached (event : Event) (m : Message) (w : W) :
  (forall payload inputs,
      decode_payload_ m = inr payload -> lookup_inputs event <> inr inputs) ->
  headers_after_ event m w = dict_of (msg_headers m) /\
  state_after_ event m w = w.
Proof.
  intro H. unfold headers_after, state_after. rewrite run_try_unfold.
  destruct (decode_payload_ m) as [e|payload]; [split; reflexivity|].
  destruct (lookup_inputs event) as [e|inputs] eqn:Hi; [split; reflexivity|].
  exfalso. exact (H payload inputs eq_refl eq_refl).
Qed.

Lemma check_result_Append (pm ph entry : PyVal) :
  check_result pm ph = inr (Append entry) <->
  (exists b kvs, pm = PyBytes b /\ ph = PyDict kvs) /\ entry = success_entry ph pm.
Proof.
  unfold check_result. split.
  - destruct pm, ph; cbn; intro H; try discriminate;
      inversion H; subst; split; eauto.
  - intros [(b & kvs & -> & ->) ->]. reflexivity.
Qed.

Lemma outcome_Kept (event : Event) (m : Message) (w : W) (b : list byte)
    (kvs : list (PyVal * PyVal)) :
  returned_pair_ event m w = Some (PyBytes b, PyDict kvs) ->
  outcome_ event m w = Kept (success_entry (PyDict kvs) (PyBytes b)).
Proof.
  intro Hp. rewrite outcome_unfold. now rewrite (try_body_returned _ _ _ _ Hp).
Qed.

Lemma outcome_Kept_inv (event : Event) (m : Message) (w : W) (entry : PyVal) :
  outcome_ event m w = Kept entry ->
  exists b kvs,
    returned_pair_ event m w = Some (PyBytes b, PyDict kvs) /\
    entry = success_entry (PyDict kvs) (PyBytes b).
Proof.
  rewrite outcome_unfold. intro H.
  destruct (returned_pair_ event m w) as [[pm ph]|] eqn:Hp.
  - rewrite (try_body_returned _ _ _ _ Hp) in H. cbn [fst snd] in H.
    destruct (check_result pm ph) as [e|[entry'|]] eqn:Hc; try discriminate.
    inversion H; subst.
    apply check_result_Append in Hc as [(b & kvs & -> & ->) ->]. eauto.
  - destruct (try_body_not_returned _ _ _ Hp) as [e He].
    rewrite He in H. discriminate.
Qed.

(** Membership in the two output lists, position by position. *)
Lemma In_kept_entries (outs : list Outcome) (entry : PyVal) :
  In entry (kept_entries outs) <->
  exists i, nth_error outs i = Some (Kept entry).
Proof.
  induction outs as [|o outs IH].
  - split; [intros [] | intros [[|i] H]; discriminate].
  - split.
    + intro H. destruct o as [entry'| |h e]; cbn in H.
      * destruct H as [->|H]; [exists 0; reflexivity|].
        apply IH in H as [i Hi]. exists (S i). exact Hi.
      * apply IH in H as [i Hi]. exists (S i). exact Hi.
      * apply IH in H as [i Hi]. exists (S i). exact Hi.
    + intros [[|i] Hi]; cbn in Hi.
      * inversion Hi; subst. now left.
      * assert (In entry (kept_entries outs)) by (apply IH; eauto).
        destruct o; cbn; auto.
Qed.

Lemma In_failed_entries (msgs : list Message) :
  forall (outs : list Outcome) (entry : PyVal),
    In entry (failed_entries msgs outs) <->
    exists i m h e,
      nth_error msgs i = Some m /\ nth_error outs i = Some (Failed h e) /\
      entry = except_entry h m e.
Proof.
  induction msgs as [|m msgs IH]; intros outs entry.
  - split; [intros [] | intros ([|i] & m & h & e & H & _); discriminate].
  - destruct outs as [|o outs].
    + split; [intros [] | intros ([|i] & m' & h & e & _ & H & _); discriminate].
    + split.
      * intro H.
        assert (Hrest : In entry (failed_entries msgs outs) ->
                        exists i m' h e, nth_error (m :: msgs) i = Some m' /\
                          nth_error (o :: outs) i = Some (Failed h e) /\
                          entry = except_entry h m' e).
        { intro Hr. apply IH in Hr as (i & m' & h & e & H1 & H2 & H3).
          exists (S i), m', h, e. auto. }
        destruct o as [entry'| |h e]; cbn in H; auto.
        destruct H as [<-|H]; auto.
        exists 0, m, h, e. auto.
      * intros ([|i] & m' & h & e & H1 & H2 & H3); cbn in H1, H2.
        -- inversion H1; inversion H2; subst. now left.
        -- assert (In entry (failed_entries msgs outs))
             by (apply IH; exists i, m', h, e; auto).
           destruct o; cbn; auto.
Qed.


(** C2: an error raised while one message is processed (by decoding, by the
    user's function, or by the check of what it returned) becomes a
    [failed_messages] entry of that message and does not stop the loop: when
    message [m] meets an error and the user's function succeeds for message
    [n] of the same batch, the result holds together the failure entry of
    [m] -- the headers of [m] as the [except] clause finds them, the payload
    string of [m] and the text of the error -- and the success entry of
    [n], made of the headers and of the bytes that the function returned. *)
Theorem errors_are_contained (event : Event) (w : W) (i j : nat)
    (m n : Message) (e : PyExc) (b : list byte) (kvs : list (PyVal * PyVal)) :
  nth_error (ev_messages event) i = Some m ->
  nth_error (ev_messages event) j = Some n ->
  message_error_ event m (world_before_ event w (ev_messages event) i) e ->
  returned_pair_ event n (world_before_ event w (ev_messages event) j)
    = Some (PyBytes b, PyDict kvs) ->
  In (PyDict [ (PyStr "headers",
                headers_after_ event m
                  (world_before_ event w (ev_messages event) i));
               (PyStr "payload", PyStr (msg_payload m));
               (PyStr "error", PyStr (exc_str e)) ])
     (failed_messages (snd (run_loop_ event w))) /\
  In (PyDict [ (PyStr "headers", PyDict kvs);
               (PyStr "payload", PyBytes b) ])
     (messages (snd (run_loop_ event w))).
Proof.
  intros Hm Hn He Hp. rewrite run_loop_outcomes. cbn [messages failed_messages].
  split.
  - apply In_failed_entries.
    exists i, m,
      (headers_after_ event m (world_before_ event w (ev_messages event) i)), e.
    repeat split; auto.
    rewrite outcomes_nth, Hm. cbn. f_equal. apply outcome_Failed. auto.
  - apply In_kept_entries. exists j.
    rewrite outcomes_nth, Hn. cbn. f_equal.
    exact (outcome_Kept _ _ _ _ _ Hp).
Qed.

(** C3: when the user's function returns a pair with exactly one [None], or
    a pair whose components are not [bytes] and [dict], the iteration
    appends nothing to the success list and appends to the failure list the
    entry of the message: its headers as the [except] clause finds them, its
    payload string, and an error string that is not empty -- the sentence of
    line 104 with the two classes, respectively the sentence of line
    107. *)
Theorem malformed_result_fails (event : Event) (w : W)
    (processed_events : ProcessedEvents) (m : Message)
    (processed_message processed_headers : PyVal) :
  returned_pair_ event m w = Some (processed_message, processed_headers) ->
  xorb (is_None processed_message) (is_None processed_headers) = true \/
  (is_None processed_message || is_None processed_headers = false /\
   isinstance_bytes processed_message && isinstance_dict processed_headers = false) ->
  exists error : string,
    error <> EmptyString /\
    error =
      (if is_None processed_message || is_None processed_headers
       then
         ("processed_messages is of type "
            ++ cls_str (type_of processed_message)
            ++ " and processed_headers is "
            ++ cls_str (type_of processed_headers)
            ++ ". Either both of these should be None or neither")%string
       else
         "The returned processed_message or processed_headers were not in the right format. processed_message must be bytes and processed_headers, dict") /\
    loop_body_ event (w, processed_events) m =
    (state_after_ event m w,
     {| messages := messages processed_events;
        failed_messages :=
          failed_messages processed_events
          ++ [PyDict [ (PyStr "headers", headers_after_ event m w);
                       (PyStr "payload", PyStr (msg_payload m));
                       (PyStr "error", PyStr error) ]] |}).
Proof.
  intros Hp Hbad.
  assert (Hc : exists e,
             check_result processed_message processed_headers = inl e /\
             exc_str e <> EmptyString /\
             exc_str e =
               (if is_None processed_message || is_None processed_headers
                then err_msg_one_None processed_message processed_headers
                else err_msg_format)).
  { unfold check_result.
    destruct Hbad as [Hx | [Hn Ht]].
    - destruct processed_message, processed_headers; try discriminate Hx; cbn;
        eexists; (split; [reflexivity|]); split; try reflexivity;
        cbn; discriminate.
    - rewrite Ht.
      destruct (is_None processed_message) eqn:H1; [discriminate|].
      destruct (is_None processed_headers) eqn:H2; [discriminate|].
      cbn. eexists; (split; [reflexivity|]); split; [|reflexivity].
      cbn; discriminate. }
  destruct Hc as (e & Hc & Hne & Hmsg).
  exists (exc_str e). split; [exact Hne|]. split; [exact Hmsg|].
  rewrite loop_body_outcome.
  assert (Ho : outcome_ event m w = Failed (headers_after_ event m w) e).
  { apply outcome_Failed. split; [|reflexivity].
    now apply contract_violation with
        processed_message processed_headers. }
  rewrite Ho. cbn. now rewrite app_nil_r.
Qed.


(** Positions selected from a list of outcomes. *)
Lemma positions_ge (sel : Outcome -> bool) (outs : list Outcome) :
  forall k, Forall (fun p => k <= p) (positions sel outs k).
Proof.
  induction outs as [|o outs IH]; intro k; cbn; [constructor|].
  assert (H : Forall (fun p => k <= p) (positions sel outs (S k))).
  { eapply Forall_impl; [|apply IH]. cbn. intros; lia. }
  destruct (sel o); [constructor; [lia | exact H] | exact H].
Qed.

Lemma positions_sorted (sel : Outcome -> bool) (outs : list Outcome) :
  forall k, StronglySorted lt (positions sel outs k).
Proof.
  induction outs as [|o outs IH]; intro k; cbn; [constructor|].
  destruct (sel o); [|apply IH].
  constructor; [apply IH|].
  eapply Forall_impl; [|apply (positions_ge sel outs (S k))].
  cbn. intros; lia.
Qed.

Lemma positions_complete (sel : Outcome -> bool) (outs : list Outcome) :
  forall k i o,
    nth_error outs i = Some o -> sel o = true ->
    In (k + i) (positions sel outs k).
Proof.
  induction outs as [|o' outs IH]; intros k i o Hi Hs.
  - destruct i; discriminate.
  - destruct i as [|i]; cbn in Hi.
    + inversion Hi; subst. cbn. rewrite Hs, Nat.add_0_r. now left.
    + cbn. replace (k + S i) with (S k + i) by lia.
      destruct (sel o'); [right|]; eapply IH; eauto.
Qed.

Lemma kept_positions_entries (outs : list Outcome) :
  forall k,
    Forall2 (fun p entry => k <= p /\ nth_error outs (p - k) = Some (Kept entry))
      (positions is_Kept outs k) (kept_entries outs).
Proof.
  induction outs as [|o outs IH]; intro k; cbn; [constructor|].
  assert (H : Forall2
                (fun p entry =>
                   k <= p /\ nth_error (o :: outs) (p - k) = Some (Kept entry))
                (positions is_Kept outs (S k)) (kept_entries outs)).
  { eapply Forall2_impl; [|apply IH]. cbn. intros p entry [Hle Hn].
    split; [lia|]. replace (p - k) with (S (p - S k)) by lia. exact Hn. }
  destruct o as [entry| |e]; cbn; auto.
  constructor; [|exact H].
  split; [lia|]. now rewrite Nat.sub_diag.
Qed.

Lemma failed_positions_entries (msgs : list Message) :
  forall outs k,
    List.length outs = List.length msgs ->
    Forall2
      (fun p entry =>
         k <= p /\
         exists m h e,
           nth_error msgs (p - k) = Some m /\
           nth_error outs (p - k) = Some (Failed h e) /\
           entry = except_entry h m e)
      (positions is_Failed outs k) (failed_entries msgs outs).
Proof.
  induction msgs as [|m msgs IH]; intros outs k Hlen.
  - destruct outs; [constructor | discriminate].
  - destruct outs as [|o outs]; [discriminate|].
    assert (H : Forall2
                  (fun p entry =>
                     k <= p /\
                     exists m' h e,
                       nth_error (m :: msgs) (p - k) = Some m' /\
                       nth_error (o :: outs) (p - k) = Some (Failed h e) /\
                       entry = except_entry h m' e)
                  (positions is_Failed outs (S k)) (failed_entries msgs outs)).
    { eapply Forall2_impl; [|apply IH; cbn in Hlen; lia]. cbn.
      intros p entry [Hle (m' & h & e & H1 & H2 & H3)].
      split; [lia|]. exists m', h, e.
      replace (p - k) with (S (p - S k)) by lia. auto. }
    destruct o as [entry| |h e]; cbn; auto.
    constructor; [|exact H].
    split; [lia|]. exists m, h, e. rewrite Nat.sub_diag. auto.
Qed.

(** C4: the success list follows the input order of the succeeding
    messages and the failure list follows the input order of the failing
    messages: each list is the image of a strictly increasing sequence of
    input positions, which holds every succeeding (failing) position; the
    two lists are built separately. *)
Theorem output_order_is_input_order (event : Event) (w : W) :
  exists ks fs : list nat,
    StronglySorted lt ks /\
    StronglySorted lt fs /\
    Forall2 (kept_at_ event w) ks (messages (snd (run_loop_ event w))) /\
    Forall2 (failed_at_ event w) fs (failed_messages (snd (run_loop_ event w))) /\
    (forall i entry, kept_at_ event w i entry -> In i ks) /\
    (forall i entry, failed_at_ event w i entry -> In i fs).
Proof.
  exists (positions is_Kept (outcomes_ event w (ev_messages event)) 0),
         (positions is_Failed (outcomes_ event w (ev_messages event)) 0).
  rewrite run_loop_outcomes. cbn [messages failed_messages].
  split; [apply positions_sorted|].
  split; [apply positions_sorted|].
  split; [|split; [|split]].
  - eapply Forall2_impl; [|apply kept_positions_entries].
    cbn beta. intros p entry [_ Hn]. rewrite Nat.sub_0_r in Hn.
    rewrite outcomes_nth in Hn. unfold kept_at.
    destruct (nth_error (ev_messages event) p) as [m|]; [|discriminate].
    exists m. split; [reflexivity|]. cbn [option_map] in Hn.
    injection Hn as Hn. exact Hn.
  - eapply Forall2_impl;
      [|apply failed_positions_entries; apply outcomes_length].
    cbn beta. intros p entry [_ (m & h & e & H1 & H2 & H3)].
    rewrite Nat.sub_0_r in H1, H2.
    rewrite outcomes_nth, H1 in H2. cbn [option_map] in H2.
    injection H2 as H2. exists m, h, e. repeat split; auto.
  - intros i entry (m & Hm & Ho).
    apply (positions_complete is_Kept _ 0 i (Kept entry)); [|reflexivity].
    rewrite outcomes_nth, Hm. cbn [option_map]. now f_equal.
  - intros i entry (m & h & e & Hm & Ho & _).
    apply (positions_complete is_Failed _ 0 i (Failed h e)); [|reflexivity].
    rewrite outcomes_nth, Hm. cbn [option_map]. now f_equal.
Qed.

Lemma handler_unfold (event : Event) (w : W) :
  handler_ event w =
  (fst (run_loop_ event w),
   match json_dumps (processed_events_dict (snd (run_loop_ event w))) with
   | inr text => PyBytes (list_byte_of_string text)
   | inl e => PyStr (serialization_failure e)
   end).
Proof. unfold handler. destruct (run_loop_ event w); reflexivity. Qed.

(** C7: when the final serialisation of [processed_events] fails, the call
    returns the sentence of line 119 followed by the text of the exception,
    and nothing of the processed batch; otherwise it returns the bytes of
    the JSON envelope, which holds both lists.  The first result is a
    [str], the second is [bytes]. *)
Theorem serialization_failure_or_envelope (event : Event) (w : W) :
  let processed_events := snd (run_loop_ event w) in
  let returned := snd (handler_ event w) in
  (exists e,
      encode (processed_events_dict processed_events) = inl e /\
      returned =
        PyStr ("Returned message types from user function are not able to be converted into JSON: "
                  ++ exc_str e)%string /\
      isinstance_bytes returned = false)
  \/
  (exists ms fs,
      encode_items (messages processed_events) = inr ms /\
      encode_items (failed_messages processed_events) = inr fs /\
      returned =
        PyBytes (list_byte_of_string
                   (json_text (JObj [ ("messages", JArr ms);
                                      ("failed_messages", JArr fs) ]))) /\
      isinstance_bytes returned = true).
Proof.
  cbv zeta. rewrite handler_unfold. cbn [snd]. unfold json_dumps.
  rewrite encode_processed_events.
  destruct (encode_items (messages (snd (run_loop_ event w)))) as [e|ms].
  - left. exists e. auto.
  - destruct (encode_items (failed_messages (snd (run_loop_ event w)))) as [e|fs].
    + left. exists e. auto.
    + right. exists ms, fs. auto.
Qed.


Lemma try_body_decode_error (event : Event) (m : Message) (w : W) (e : PyExc) :
  decode_payload_ m = inl e ->
  run_try_ event m w = (w, dict_of (msg_headers m), inl e).
Proof. intro H. rewrite run_try_unfold. now rewrite H. Qed.

Lemma loop_body_error (event : Event) (w w' : W) (h : PyVal)
    (pe : ProcessedEvents) (m : Message) (e : PyExc) :
  run_try_ event m w = (w', h, inl e) ->
  loop_body_ event (w, pe) m =
  (w', {| messages := messages pe;
          failed_messages := failed_messages pe ++ [except_entry h m e] |}).
Proof. intro H. unfold loop_body. now rewrite H. Qed.

Lemma append_nonempty (a b : string) : b <> EmptyString -> (a ++ b)%string <> EmptyString.
Proof. destruct a; cbn; [auto | discriminate]. Qed.

Lemma b64decode_payload_error_nonempty (payload : string) (e : PyExc) :
  b64decode_payload payload = inl e -> exc_str e <> EmptyString.
Proof.
  unfold b64decode_payload, str_encode.
  destruct (find_surrogate payload 0) as [[position from]|].
  - intro H. inversion H; subst. unfold surrogates_not_allowed. cbn [exc_str].
    apply append_nonempty. discriminate.
  - apply Base64Facts.b64decode_error_nonempty.
Qed.

(** C5, as the code has it: a message whose payload string line 86 rejects
    produces a failure entry with the payload string unchanged and a
    non-empty error string, and no success entry; a batch of that one
    message returns one failure entry and no success entry. *)
Theorem rejected_payload_fails (event : Event) (w : W)
    (processed_events : ProcessedEvents) (m : Message) (e : PyExc) :
  b64decode_payload (msg_payload m) = inl e ->
  exc_str e <> EmptyString /\
  loop_body_ event (w, processed_events) m =
    (w, {| messages := messages processed_events;
           failed_messages :=
             failed_messages processed_events
             ++ [PyDict [ (PyStr "headers", dict_of (msg_headers m));
                          (PyStr "payload", PyStr (msg_payload m));
                          (PyStr "error", PyStr (exc_str e)) ]] |}) /\
  (ev_messages event = [m] ->
   snd (run_loop_ event w) =
     {| messages := [];
        failed_messages :=
          [PyDict [ (PyStr "headers", dict_of (msg_headers m));
                    (PyStr "payload", PyStr (msg_payload m));
                    (PyStr "error", PyStr (exc_str e)) ]] |}).
Proof.
  intro Hd.
  assert (Hp : decode_payload_ m = inl e) by (unfold decode_payload; now rewrite Hd).
  pose proof (try_body_decode_error event m w e Hp) as Ht.
  split; [eapply b64decode_payload_error_nonempty; exact Hd|].
  split.
  - exact (loop_body_error _ _ _ _ _ _ _ Ht).
  - intro Hm. unfold run_loop. rewrite Hm. cbn [fold_left].
    rewrite (loop_body_error _ _ _ _ _ _ _ Ht). reflexivity.
Qed.

(** C8: with [as_json] set, the payload is base64-decoded, the bytes are
    decoded as UTF-8 and the text is parsed as JSON; the user's function is
    called with the parsed value (and the headers of the message, and the
    inputs), and what it does decides the message; when the UTF-8 decoding
    or the parsing raises, the user's function is not called and the
    message gets a failure entry made of its headers, of its payload string
    and of the text of that exception. *)
Theorem as_json_parses_before_call (event : Event) (w : W)
    (processed_events : ProcessedEvents) (m : Message) (bs : list byte) :
  as_json = true ->
  b64decode_payload (msg_payload m) = inr bs ->
  match utf8_decode bs with
  | inl e =>
      loop_body_ event (w, processed_events) m =
      (w, {| messages := messages processed_events;
             failed_messages :=
               failed_messages processed_events
               ++ [PyDict [ (PyStr "headers", dict_of (msg_headers m));
                            (PyStr "payload", PyStr (msg_payload m));
                            (PyStr "error", PyStr (exc_str e)) ]] |})
  | inr text =>
      match json_loads text with
      | inl e =>
          loop_body_ event (w, processed_events) m =
          (w, {| messages := messages processed_events;
                 failed_messages :=
                   failed_messages processed_events
                   ++ [PyDict [ (PyStr "headers", dict_of (msg_headers m));
                                (PyStr "payload", PyStr (msg_payload m));
                                (PyStr "error", PyStr (exc_str e)) ]] |})
      | inr parsed =>
          forall inputs,
            lookup_inputs event = inr inputs ->
            run_try_ event m w =
            match event_handler parsed (dict_of (msg_headers m)) inputs w with
            | (st, Raises e) => (st, inl e)
            | (st, Returns v) =>
                if use_async then (st, inl (await_error v))
                else
                  (st,
                   match unpack2 v with
                   | inl e => inl e
                   | inr unpacked => check_result (fst unpacked) (snd unpacked)
                   end)
            | (st, ReturnsAwaitable obj awaited) =>
                if use_async then
                  match awaited (fst st) with
                  | (st', inl e) => (st', inl e)
                  | (st', inr v) =>
                      (st',
                       match unpack2 v with
                       | inl e => inl e
                       | inr unpacked =>
                           check_result (fst unpacked) (snd unpacked)
                       end)
                  end
                else
                  (st,
                   match unpack2 obj with
                   | inl e => inl e
                   | inr unpacked => check_result (fst unpacked) (snd unpacked)
                   end)
            end
      end
  end.
Proof.
  intros Hj Hd.
  assert (Hp : decode_payload_ m =
               match utf8_decode bs with
               | inl e => inl e
               | inr text => json_loads text
               end).
  { unfold decode_payload. rewrite Hd, Hj. reflexivity. }
  destruct (utf8_decode bs) as [e|text].
  - exact (loop_body_error _ _ _ _ _ _ _ (try_body_decode_error event m w e Hp)).
  - destruct (json_loads text) as [e|parsed].
    + exact (loop_body_error _ _ _ _ _ _ _ (try_body_decode_error event m w e Hp)).
    + intros inputs Hi. rewrite run_try_unfold, Hp, Hi, call_of_unfold.
      destruct (event_handler parsed (dict_of (msg_headers m)) inputs w)
        as [st [e|v|obj awaited]]; [reflexivity| |].
      * destruct use_async; [reflexivity|].
        destruct (unpack2 v) as [e|unpacked]; reflexivity.
      * destruct use_async.
        -- destruct (awaited (fst st)) as [st' [e|v]]; [reflexivity|].
           destruct (unpack2 v) as [e|unpacked]; reflexivity.
        -- destruct (unpack2 obj) as [e|unpacked]; reflexivity.
Qed.

Lemma succeeded_payloads_entries (event : Event) (msgs : list Message) :
  forall w,
    Forall2 (fun b entry => exists h, entry = success_entry h (PyBytes b))
      (succeeded_payloads_ event w msgs)
      (kept_entries (outcomes_ event w msgs)).
Proof.
  induction msgs as [|m rest IH]; intro w; cbn [succeeded_payloads outcomes];
    [constructor|].
  destruct (outcome_ event m w) as [entry| |h e] eqn:Ho.
  - apply outcome_Kept_inv in Ho as (b & kvs & Hp & ->).
    rewrite Hp. cbn. constructor; [eauto | apply IH].
  - destruct (returned_pair_ event m w) as [[[] []]|] eqn:Hp; cbn; try apply IH.
    rewrite (outcome_Kept _ _ _ _ _ Hp) in Ho. discriminate.
  - destruct (returned_pair_ event m w) as [[[] []]|] eqn:Hp; cbn; try apply IH.
    rewrite (outcome_Kept _ _ _ _ _ Hp) in Ho. discriminate.
Qed.

(** C9: when the envelope is written, its [messages] array has one entry per
    succeeding message, in order, and base64-decoding the [payload] string
    of an entry gives exactly the bytes that the user's function returned
    for that message. *)
Theorem envelope_payload_round_trip (event : Event) (w : W) (envelope : JSON) :
  encode (processed_events_dict (snd (run_loop_ event w))) = inr envelope ->
  snd (handler_ event w) = PyBytes (list_byte_of_string (json_text envelope)) /\
  exists entries,
    member "messages" envelope = Some (JArr entries) /\
    Forall2
      (fun b entry =>
         exists p,
           member "payload" entry = Some (JStr p) /\
           b64decode (list_byte_of_string p) = inr b)
      (succeeded_payloads_ event w (ev_messages event)) entries.
Proof.
  intro He. split.
  { rewrite handler_unfold. cbn [snd]. unfold json_dumps. now rewrite He. }
  rewrite encode_processed_events in He.
  destruct (encode_items (messages (snd (run_loop_ event w)))) as [e|ms] eqn:Hms;
    [discriminate|].
  destruct (encode_items (failed_messages (snd (run_loop_ event w)))) as [e|fs];
    [discriminate|].
  inversion He; subst envelope. exists ms. split; [reflexivity|].
  apply encode_items_Forall2 in Hms.
  rewrite run_loop_outcomes in Hms. cbn [messages] in Hms.
  pose proof (succeeded_payloads_entries event (ev_messages event) w) as Hk.
  revert Hms.
  generalize dependent ms.
  induction Hk as [|b entry bs' entries' [h ->] Hk IH]; intros ms _ Hms.
  - inversion Hms. constructor.
  - inversion Hms as [|? j ? js Hj Hjs]; subst.
    constructor.
    + apply encode_success_entry in Hj as (jh & _ & ->).
      exists (string_of_list_byte (b64encode b)). split; [reflexivity|].
      rewrite list_byte_of_string_of_list_byte.
      apply Base64Facts.b64decode_b64encode.
    + apply IH; auto.
Qed.

Lemma try_body_without_inputs (event : Event) (m : Message) (w : W) :
  ev_inputs event = None ->
  run_try_ event m w =
  (w, dict_of (msg_headers m), inl (error_without_inputs as_json m)).
Proof.
  intro Hi. rewrite run_try_unfold. unfold error_without_inputs, lookup_inputs.
  rewrite Hi. destruct (decode_payload_ m); reflexivity.
Qed.

Lemma fold_loop_without_inputs (event : Event) (msgs : list Message) :
  ev_inputs event = None ->
  forall w pe,
    fold_left (loop_body_ event) msgs (w, pe) =
    (w, {| messages := messages pe;
           failed_messages :=
             failed_messages pe
             ++ map (fun m => failed_entry m (error_without_inputs as_json m)) msgs |}).
Proof.
  intro Hi. induction msgs as [|m rest IH]; intros w pe.
  - cbn. rewrite app_nil_r. destruct pe; reflexivity.
  - cbn [fold_left map].
    rewrite (loop_body_error _ _ _ _ _ _ _ (try_body_without_inputs event m w Hi)).
    rewrite IH. cbn [messages failed_messages]. rewrite <- app_assoc.
    reflexivity.
Qed.

(** C10, as the code has it: when the event has no ["inputs"] key, the
    call still returns a JSON envelope; the user's function is never called,
    the success list is empty and every message has a failure entry, whose
    error string is the one of the lookup error when the payload of the
    message decodes, and the one of the decoding error when it does not. *)
Theorem missing_inputs_fails_every_message (event : Event) (w : W) :
  ev_inputs event = None ->
  run_loop_ event w =
    (w, {| messages := [];
           failed_messages :=
             map (fun m => failed_entry m (error_without_inputs as_json m))
               (ev_messages event) |}) /\
  handler_ event w =
    (w, PyBytes (list_byte_of_string
                   (json_text
                      (JObj [ ("messages", JArr []);
                              ("failed_messages",
                               JArr (map (fun m =>
                                            json_failed_entry m
                                              (error_without_inputs as_json m))
                                       (ev_messages event))) ])))) /\
  (forall m,
      In m (ev_messages event) ->
      (forall payload,
          decode_payload_ m = inr payload ->
          exc_str (error_without_inputs as_json m) = exc_str KeyError_inputs) /\
      (forall e,
          decode_payload_ m = inl e ->
          error_without_inputs as_json m = e)).
Proof.
  intro Hi.
  assert (Hr : run_loop_ event w =
               (w, {| messages := [];
                      failed_messages :=
                        map (fun m => failed_entry m (error_without_inputs as_json m))
                          (ev_messages event) |})).
  { unfold run_loop. now rewrite fold_loop_without_inputs. }
  split; [exact Hr|]. split.
  - rewrite handler_unfold, Hr. cbn [fst snd]. unfold json_dumps.
    rewrite encode_processed_events. cbn [messages failed_messages encode_items].
    rewrite (encode_items_map _ _
               (fun m => json_failed_entry m (error_without_inputs as_json m)))
      by (intro; apply encode_failed_entry).
    reflexivity.
  - intros m _. unfold error_without_inputs. split.
    + intros payload ->. reflexivity.
    + intros e ->. reflexivity.
Qed.


End run_facts.

(* ================================================================== *)
(** ** The statements at concrete batches *)

#[local] Existing Instance Demo.demo_runtime.

(** A batch where the user's function marks the headers and raises for the
    first message, and succeeds for the second. *)
Lemma errors_are_contained_witness :
  nth_error
    (ev_messages (Demo.batch [Demo.raw_msg "bQ=="; Demo.raw_msg "b2s="])) 0
    = Some (Demo.raw_msg "bQ==") /\
  nth_error
    (ev_messages (Demo.batch [Demo.raw_msg "bQ=="; Demo.raw_msg "b2s="])) 1
    = Some (Demo.raw_msg "b2s=") /\
  message_error Demo.demo_handler false false
    (Demo.batch [Demo.raw_msg "bQ=="; Demo.raw_msg "b2s="])
    (Demo.raw_msg "bQ==") 0 (mkExc "ValueError" "boom") /\
  returned_pair Demo.demo_handler false false
    (Demo.batch [Demo.raw_msg "bQ=="; Demo.raw_msg "b2s="])
    (Demo.raw_msg "b2s=") 1
    = Some (PyBytes (list_byte_of_string "ok"), PyDict [(PyStr "k", PyStr "v")]) /\
  In (PyDict [ (PyStr "headers",
                PyDict [(PyStr "k", PyStr "v"); (PyStr "seen", PyStr "yes")]);
               (PyStr "payload", PyStr "bQ==");
               (PyStr "error", PyStr "boom") ])
     (failed_messages
        (snd (run_loop Demo.demo_handler false false
                (Demo.batch [Demo.raw_msg "bQ=="; Demo.raw_msg "b2s="]) 0)))
  /\
  In (PyDict [ (PyStr "headers", PyDict [(PyStr "k", PyStr "v")]);
               (PyStr "payload", PyBytes (list_byte_of_string "ok")) ])
     (messages
        (snd (run_loop Demo.demo_handler false false
                (Demo.batch [Demo.raw_msg "bQ=="; Demo.raw_msg "b2s="]) 0))).
Proof.
  assert (Hm : nth_error
                 (ev_messages
                    (Demo.batch [Demo.raw_msg "bQ=="; Demo.raw_msg "b2s="])) 0
               = Some (Demo.raw_msg "bQ==")) by reflexivity.
  assert (Hn : nth_error
                 (ev_messages
                    (Demo.batch [Demo.raw_msg "bQ=="; Demo.raw_msg "b2s="])) 1
               = Some (Demo.raw_msg "b2s=")) by reflexivity.
  assert (He : message_error Demo.demo_handler false false
                 (Demo.batch [Demo.raw_msg "bQ=="; Demo.raw_msg "b2s="])
                 (Demo.raw_msg "bQ==") 0 (mkExc "ValueError" "boom")).
  { apply transform_exception with
      (payload := PyBytes (list_byte_of_string "m"))
      (inputs := dict_of [("field", "value")]); reflexivity. }
  assert (Hp : returned_pair Demo.demo_handler false false
                 (Demo.batch [Demo.raw_msg "bQ=="; Demo.raw_msg "b2s="])
                 (Demo.raw_msg "b2s=") 1
               = Some (PyBytes (list_byte_of_string "ok"),
                       PyDict [(PyStr "k", PyStr "v")]))
    by (vm_compute; reflexivity).
  split; [exact Hm|]. split; [exact Hn|]. split; [exact He|]. split; [exact Hp|].
  exact (errors_are_contained Demo.demo_handler false false
           (Demo.batch [Demo.raw_msg "bQ=="; Demo.raw_msg "b2s="]) 0
           0 1 (Demo.raw_msg "bQ==") (Demo.raw_msg "b2s=")
           (mkExc "ValueError" "boom") (list_byte_of_string "ok")
           [(PyStr "k", PyStr "v")] Hm Hn He Hp).
Defined.

(** A message for which the user's function returns [(payload, None)]. *)
Lemma malformed_result_fails_witness :
  returned_pair Demo.demo_handler false false (Demo.batch [])
    (Demo.raw_msg "aGFsZg==") 0
    = Some (PyBytes (list_byte_of_string "half"), PyNone) /\
  xorb (is_None (PyBytes (list_byte_of_string "half"))) (is_None PyNone) = true /\
  exists error : string,
    error <> EmptyString /\
    error =
      "processed_messages is of type <class 'bytes'> and processed_headers is <class 'NoneType'>. Either both of these should be None or neither" /\
    loop_body Demo.demo_handler false false (Demo.batch [])
      (0, {| messages := []; failed_messages := [] |})
      (Demo.raw_msg "aGFsZg==") =
    (1, {| messages := [];
           failed_messages :=
             [PyDict [ (PyStr "headers", PyDict [(PyStr "k", PyStr "v")]);
                       (PyStr "payload", PyStr "aGFsZg==");
                       (PyStr "error", PyStr error) ]] |}).
Proof.
  assert (Hp : returned_pair Demo.demo_handler false false (Demo.batch [])
                 (Demo.raw_msg "aGFsZg==") 0
               = Some (PyBytes (list_byte_of_string "half"), PyNone))
    by (vm_compute; reflexivity).
  split; [exact Hp|]. split; [reflexivity|].
  exact (malformed_result_fails Demo.demo_handler false false (Demo.batch []) 0
           {| messages := []; failed_messages := [] |} (Demo.raw_msg "aGFsZg==")
           (PyBytes (list_byte_of_string "half")) PyNone Hp
           (or_introl eq_refl)).
Defined.

(** C5, as the spec states it, fails: the payload [!!!!] is not base64
    text, yet the decoder skips its four characters and hands the empty
    byte string to the user's function; the message succeeds. *)
Lemma unclean_base64_text_is_decoded :
  valid_base64_text "!!!!" = false /\
  b64decode_payload "!!!!" = inr [] /\
  snd (run_loop Demo.demo_handler false false
         (Demo.batch [Demo.raw_msg "!!!!"]) 0) =
    {| messages :=
         [PyDict [ (PyStr "headers", PyDict [(PyStr "k", PyStr "v")]);
                   (PyStr "payload", PyBytes []) ]];
       failed_messages := [] |}.
Proof. repeat split; vm_compute; reflexivity. Qed.

(** A payload of one alphabet character is rejected by the decoder. *)
Lemma rejected_payload_fails_witness :
  b64decode_payload "A" = inl (invalid_length 0) /\
  exc_str (invalid_length 0) <> EmptyString /\
  loop_body Demo.demo_handler false false (Demo.batch [Demo.raw_msg "A"])
    (0, {| messages := []; failed_messages := [] |}) (Demo.raw_msg "A") =
    (0, {| messages := [];
           failed_messages :=
             [PyDict [ (PyStr "headers", PyDict [(PyStr "k", PyStr "v")]);
                       (PyStr "payload", PyStr "A");
                       (PyStr "error", PyStr (exc_str (invalid_length 0))) ]] |}) /\
  (ev_messages (Demo.batch [Demo.raw_msg "A"]) = [Demo.raw_msg "A"] ->
   snd (run_loop Demo.demo_handler false false
          (Demo.batch [Demo.raw_msg "A"]) 0) =
     {| messages := [];
        failed_messages :=
          [PyDict [ (PyStr "headers", PyDict [(PyStr "k", PyStr "v")]);
                    (PyStr "payload", PyStr "A");
                    (PyStr "error", PyStr (exc_str (invalid_length 0))) ]] |}).
Proof.
  split; [reflexivity|].
  apply (rejected_payload_fails Demo.demo_handler false false
           (Demo.batch [Demo.raw_msg "A"]) 0
           {| messages := []; failed_messages := [] |} (Demo.raw_msg "A")
           (invalid_length 0)).
  reflexivity.
Defined.

(** C6 fails on the code where the user's function updates the headers it
    is given and then raises: the handler hands [message['headers']] itself
    to the function and reads it again in the [except] clause, so the
    failure entry of a message that came with the headers [{'k': 'v'}]
    carries [{'k': 'v', 'seen': 'yes'}]; no failure entry of the run has the
    headers of the input. *)
Theorem failed_entry_shows_updated_headers :
  dict_of (msg_headers (Demo.raw_msg "bQ==")) = PyDict [(PyStr "k", PyStr "v")] /\
  run_loop Demo.demo_handler false false (Demo.batch [Demo.raw_msg "bQ=="]) 0 =
    (1, {| messages := [];
           failed_messages :=
             [PyDict [ (PyStr "headers",
                        PyDict [(PyStr "k", PyStr "v");
                                (PyStr "seen", PyStr "yes")]);
                       (PyStr "payload", PyStr "bQ==");
                       (PyStr "error", PyStr "boom") ]] |}) /\
  forall e,
    ~ In (PyDict [ (PyStr "headers", dict_of (msg_headers (Demo.raw_msg "bQ==")));
                   (PyStr "payload", PyStr (msg_payload (Demo.raw_msg "bQ==")));
                   (PyStr "error", PyStr (exc_str e)) ])
         (failed_messages
            (snd (run_loop Demo.demo_handler false false
                    (Demo.batch [Demo.raw_msg "bQ=="]) 0))).
Proof.
  split; [reflexivity|]. split; [vm_compute; reflexivity|].
  intros e [H|[]]. vm_compute in H. discriminate H.
Qed.

(** With [as_json], the payload [e30=] (the text [{}]) reaches the user's
    function as the parsed, empty dictionary; the function hands it back
    where [bytes] are due, and the message fails on line 107. *)
Lemma as_json_parses_before_call_witness :
  true = true /\
  b64decode_payload "e30=" = inr (list_byte_of_string "{}") /\
  (forall inputs,
      lookup_inputs (Demo.batch [Demo.raw_msg "e30="]) = inr inputs ->
      run_try Demo.demo_handler false true (Demo.batch [Demo.raw_msg "e30="])
        (Demo.raw_msg "e30=") 0 =
      (1, PyDict [(PyStr "k", PyStr "v")],
       inl (mkExc "Exception"
              "The returned processed_message or processed_headers were not in the right format. processed_message must be bytes and processed_headers, dict"))).
Proof.
  split; [reflexivity|]. split; [reflexivity|].
  exact (as_json_parses_before_call Demo.demo_handler false true
           (Demo.batch [Demo.raw_msg "e30="]) 0
           {| messages := []; failed_messages := [] |} (Demo.raw_msg "e30=")
           (list_byte_of_string "{}") eq_refl eq_refl).
Defined.

(** The envelope of a batch with one success and one failure. *)
Lemma envelope_payload_round_trip_witness :
  exists envelope,
    encode
      (processed_events_dict
         (snd (run_loop Demo.demo_handler false false
                 (Demo.batch [Demo.raw_msg "b2s="; Demo.raw_msg "cmFpc2U="]) 0)))
      = inr envelope /\
    snd (handler Demo.demo_handler false false
           (Demo.batch [Demo.raw_msg "b2s="; Demo.raw_msg "cmFpc2U="]) 0)
      = PyBytes (list_byte_of_string (json_text envelope)) /\
    exists entries,
      member "messages" envelope = Some (JArr entries) /\
      Forall2
        (fun b entry =>
           exists p,
             member "payload" entry = Some (JStr p) /\
             b64decode (list_byte_of_string p) = inr b)
        (succeeded_payloads Demo.demo_handler false false
           (Demo.batch [Demo.raw_msg "b2s="; Demo.raw_msg "cmFpc2U="]) 0
           (ev_messages
              (Demo.batch [Demo.raw_msg "b2s="; Demo.raw_msg "cmFpc2U="])))
        entries.
Proof.
  eexists. split; [vm_compute; reflexivity|].
  apply (envelope_payload_round_trip Demo.demo_handler false false
           (Demo.batch [Demo.raw_msg "b2s="; Demo.raw_msg "cmFpc2U="]) 0).
  vm_compute. reflexivity.
Defined.

(** C10, as stated, fails: without ["inputs"], a message whose payload is
    rejected by the base64 decoder is reported with the decoder's error,
    not with the error of the lookup. *)
Lemma missing_inputs_decode_error_comes_first :
  ev_inputs (Demo.batch_without_inputs [Demo.raw_msg "AA"]) = None /\
  snd (run_loop Demo.demo_handler false false
         (Demo.batch_without_inputs [Demo.raw_msg "AA"]) 0) =
    {| messages := [];
       failed_messages :=
         [PyDict [ (PyStr "headers", PyDict [(PyStr "k", PyStr "v")]);
                   (PyStr "payload", PyStr "AA");
                   (PyStr "error", PyStr "Incorrect padding") ]] |} /\
  exc_str KeyError_inputs = "'inputs'".
Proof. repeat split; vm_compute; reflexivity. Qed.

(** An event without ["inputs"], with one payload that decodes and one
    that does not. *)
Lemma missing_inputs_fails_every_message_witness :
  ev_inputs (Demo.batch_without_inputs [Demo.raw_msg "b2s="; Demo.raw_msg "A"])
    = None /\
  run_loop Demo.demo_handler false false
    (Demo.batch_without_inputs [Demo.raw_msg "b2s="; Demo.raw_msg "A"]) 0 =
    (0, {| messages := [];
           failed_messages :=
             [failed_entry (Demo.raw_msg "b2s=") KeyError_inputs;
              failed_entry (Demo.raw_msg "A") (invalid_length 0)] |}).
Proof.
  split; [reflexivity|].
  exact (proj1 (missing_inputs_fails_every_message Demo.demo_handler false false
                  (Demo.batch_without_inputs [Demo.raw_msg "b2s="; Demo.raw_msg "A"])
                  0 eq_refl)).
Defined.

(** *** Further runs *)

(** A message for which the user's function returns [(None, None)] is in
    neither list and is counted as dropped. *)
Example filtered_message_is_dropped :
  snd (run_loop Demo.demo_handler false false
         (Demo.batch [Demo.raw_msg "b2s="; Demo.raw_msg "bm9uZQ=="]) 0) =
    {| messages :=
         [PyDict [ (PyStr "headers", PyDict [(PyStr "k", PyStr "v")]);
                   (PyStr "payload", PyBytes (list_byte_of_string "ok")) ]];
       failed_messages := [] |} /\
  dropped_count Demo.demo_handler false false
    (Demo.batch [Demo.raw_msg "b2s="; Demo.raw_msg "bm9uZQ=="]) 0
    [Demo.raw_msg "b2s="; Demo.raw_msg "bm9uZQ=="] = 1.
Proof. split; vm_compute; reflexivity. Qed.

(** Headers that [json.dumps] cannot write make the whole call return the
    failure string. *)
Example serialization_can_fail :
  snd (handler Demo.demo_handler false false
         (Demo.batch [Demo.raw_msg "b2s="; Demo.raw_msg "dQ=="]) 0) =
  PyStr "Returned message types from user function are not able to be converted into JSON: Object of type set is not JSON serializable".
Proof. vm_compute. reflexivity. Qed.

(** With [use_async], a plain function's result cannot be awaited: the
    message fails. *)
Example awaiting_a_plain_result_fails :
  snd (run_loop Demo.demo_handler true false
         (Demo.batch [Demo.raw_msg "b2s="]) 0) =
    {| messages := [];
       failed_messages :=
         [PyDict [ (PyStr "headers", PyDict [(PyStr "k", PyStr "v")]);
                   (PyStr "payload", PyStr "b2s=");
                   (PyStr "error",
                    PyStr "object tuple can't be used in 'await' expression") ]] |}.
Proof. vm_compute. reflexivity. Qed.

(** The empty batch. *)
Example empty_batch :
  run_loop Demo.demo_handler false false (Demo.batch []) 0 =
    (0, {| messages := []; failed_messages := [] |}).
Proof. reflexivity. Qed.

(* ================================================================== *)
(** ** More about the base64 codec, as lines 77 and 86 use it *)

Module Base64More.

Local Open Scope N_scope.
Local Open Scope list_scope.

Lemma b2a_is_alphabet (s : N) : s < 64 -> is_alphabet (b2a s) = true.
Proof.
  intro Hs. unfold is_alphabet. now rewrite Base64Facts.a2b_b2a.
Qed.

Lemma pad_is_pad : Byte.eqb BASE64_PAD BASE64_PAD = true.
Proof. reflexivity. Qed.

Lemma valid_quads_b64encode (bs : list byte) :
  valid_quads (b64encode bs) = true.
Proof.
  induction bs as [| x | x y | x y z rest IH] using Base64Facts.list_ind3.
  - reflexivity.
  - pose proof (Base64Facts.byte_lt_256 x) as Hx. cbn [b64encode N.of_nat] in *.
    cbn [valid_quads].
    rewrite !b2a_is_alphabet, pad_is_pad;
      [reflexivity
      | apply Base64Facts.sextet1_lt; [exact Hx | reflexivity]
      | apply Base64Facts.sextet0_lt; exact Hx].
  - pose proof (Base64Facts.byte_lt_256 x) as Hx.
    pose proof (Base64Facts.byte_lt_256 y) as Hy.
    cbn [b64encode N.of_nat] in *. cbn [valid_quads].
    rewrite (b2a_is_alphabet (sextet0 (Byte.to_N x)))
      by (apply Base64Facts.sextet0_lt; exact Hx).
    rewrite (b2a_is_alphabet (sextet1 (Byte.to_N x) (Byte.to_N y)))
      by (apply Base64Facts.sextet1_lt; assumption).
    rewrite (b2a_is_alphabet (sextet2 (Byte.to_N y) 0))
      by (apply Base64Facts.sextet2_lt; [exact Hy | reflexivity]).
    rewrite pad_is_pad. reflexivity.
  - pose proof (Base64Facts.byte_lt_256 x) as Hx.
    pose proof (Base64Facts.byte_lt_256 y) as Hy.
    pose proof (Base64Facts.byte_lt_256 z) as Hz.
    cbn [b64encode N.of_nat] in *.
    assert (H0 : is_alphabet (b2a (sextet0 (Byte.to_N x))) = true)
      by (apply b2a_is_alphabet, Base64Facts.sextet0_lt; exact Hx).
    assert (H1 : is_alphabet (b2a (sextet1 (Byte.to_N x) (Byte.to_N y))) = true)
      by (apply b2a_is_alphabet, Base64Facts.sextet1_lt; assumption).
    assert (H2 : is_alphabet (b2a (sextet2 (Byte.to_N y) (Byte.to_N z))) = true)
      by (apply b2a_is_alphabet, Base64Facts.sextet2_lt; assumption).
    assert (H3 : is_alphabet (b2a (sextet3 (Byte.to_N z))) = true)
      by (apply b2a_is_alphabet, Base64Facts.sextet3_lt).
    destruct (b64encode rest) as [|c rest'] eqn:Hrest.
    + cbn [valid_quads]. rewrite H0, H1, H2, H3. reflexivity.
    + cbn [valid_quads]. rewrite H0, H1, H2, H3.
      cbn [andb]. exact IH.
Qed.

Lemma length_b64encode (bs : list byte) :
  List.length (b64encode bs) = (4 * ((List.length bs + 2) / 3))%nat.
Proof.
  induction bs as [| x | x y | x y z rest IH] using Base64Facts.list_ind3;
    try reflexivity.
  cbn [b64encode List.length]. rewrite IH.
  replace (S (S (S (List.length rest))) + 2)%nat
    with (List.length rest + 2 + 1 * 3)%nat by lia.
  rewrite Nat.div_add by discriminate. lia.
Qed.

(** X1: the text that [EncodeBase64.default] writes for a [bytes] value is
    always base64 text in the sense of RFC 4648 -- a whole number of groups
    of four alphabet characters, padded at the end only -- and has four
    characters for every three bytes, rounded up. *)
Theorem EncodeBase64_default_writes_valid_text (bs : list byte) :
  exists text,
    EncodeBase64_default (PyBytes bs) = inr text /\
    valid_base64_text text = true /\
    String.length text = (4 * ((List.length bs + 2) / 3))%nat.
Proof.
  exists (string_of_list_byte (b64encode bs)).
  split; [reflexivity|]. split.
  - unfold valid_base64_text. rewrite list_byte_of_string_of_list_byte.
    apply valid_quads_b64encode.
  - rewrite <- length_b64encode.
    rewrite <- (list_byte_of_string_of_list_byte (b64encode bs)) at 2.
    generalize (string_of_list_byte (b64encode bs)). intro s.
    induction s as [|c s IH]; cbn; [reflexivity|]. now rewrite IH.
Qed.

Lemma not_significant (c : byte) :
  significant c = false ->
  Byte.eqb c BASE64_PAD = false /\ a2b c = None.
Proof.
  unfold significant, is_alphabet. intro H.
  apply orb_false_elim in H as [Ha Hp]. split; [exact Hp|].
  destruct (a2b c); [discriminate | reflexivity].
Qed.

Lemma a2b_loop_filter (data : list byte) :
  forall quad_pos leftchar pads out,
    a2b_loop quad_pos leftchar pads out (filter significant data) =
    a2b_loop quad_pos leftchar pads out data.
Proof.
  induction data as [|c rest IH]; intros quad_pos leftchar pads out;
    [reflexivity|].
  cbn [filter]. destruct (significant c) eqn:Hs.
  - cbn [a2b_loop].
    destruct (Byte.eqb c BASE64_PAD).
    + destruct (2 <=? quad_pos)%nat; [|apply IH].
      destruct (4 <=? quad_pos + S pads)%nat; [reflexivity | apply IH].
    + destruct (a2b c); [|apply IH].
      destruct quad_pos as [|[|[|q]]]; apply IH.
  - apply not_significant in Hs as [Hp Ha].
    rewrite IH. cbn [a2b_loop]. now rewrite Hp, Ha.
Qed.

Lemma a2b_loop_b64encode_tail (bs : list byte) :
  (List.length bs mod 3 <> 0)%nat ->
  forall tail leftchar out,
    a2b_loop 0 leftchar 0 out (b64encode bs ++ tail) = inr (out ++ bs).
Proof.
  induction bs as [| x | x y | x y z rest IH] using Base64Facts.list_ind3;
    intros Hlen tail leftchar out.
  - now contradiction Hlen.
  - pose proof (Base64Facts.byte_lt_256 x) as Hx.
    cbn [b64encode N.of_nat app] in *.
    rewrite Base64Facts.a2b_loop_data by (apply Base64Facts.sextet0_lt; exact Hx).
    rewrite Base64Facts.a2b_loop_data
      by (apply Base64Facts.sextet1_lt; [exact Hx | reflexivity]).
    rewrite (Base64Facts.to_uchar_to_N x)
      by (apply Base64Facts.first_byte; [exact Hx | reflexivity]).
    reflexivity.
  - pose proof (Base64Facts.byte_lt_256 x) as Hx.
    pose proof (Base64Facts.byte_lt_256 y) as Hy.
    cbn [b64encode app] in *.
    rewrite Base64Facts.a2b_loop_data by (apply Base64Facts.sextet0_lt; exact Hx).
    rewrite Base64Facts.a2b_loop_data by (apply Base64Facts.sextet1_lt; assumption).
    rewrite Base64Facts.a2b_loop_data
      by (apply Base64Facts.sextet2_lt; [exact Hy | reflexivity]).
    rewrite (Base64Facts.to_uchar_to_N x)
      by (apply Base64Facts.first_byte; assumption).
    rewrite Base64Facts.carry1 by assumption.
    rewrite (Base64Facts.to_uchar_to_N y)
      by (apply Base64Facts.second_byte; [exact Hy | reflexivity]).
    cbn. now rewrite <- app_assoc.
  - pose proof (Base64Facts.byte_lt_256 x) as Hx.
    pose proof (Base64Facts.byte_lt_256 y) as Hy.
    pose proof (Base64Facts.byte_lt_256 z) as Hz.
    cbn [b64encode app] in *.
    rewrite Base64Facts.a2b_loop_data by (apply Base64Facts.sextet0_lt; exact Hx).
    rewrite Base64Facts.a2b_loop_data by (apply Base64Facts.sextet1_lt; assumption).
    rewrite Base64Facts.a2b_loop_data by (apply Base64Facts.sextet2_lt; assumption).
    rewrite Base64Facts.a2b_loop_data by apply Base64Facts.sextet3_lt.
    rewrite (Base64Facts.to_uchar_to_N x)
      by (apply Base64Facts.first_byte; assumption).
    rewrite Base64Facts.carry1 by assumption.
    rewrite (Base64Facts.to_uchar_to_N y)
      by (apply Base64Facts.second_byte; assumption).
    rewrite Base64Facts.carry2 by assumption.
    rewrite (Base64Facts.to_uchar_to_N z)
      by (apply Base64Facts.third_byte; assumption).
    rewrite IH.
    + repeat rewrite <- app_assoc. reflexivity.
    + cbn [List.length] in Hlen.
      replace (S (S (S (List.length rest))))
        with (List.length rest + 1 * 3)%nat in Hlen by lia.
      now rewrite Nat.Div0.mod_add in Hlen.
Qed.

(** Text without the byte [ED] holds no surrogate. *)
Definition no_ED (l : list byte) : bool :=
  forallb (fun b => negb (Byte.to_N b =? 237)) l.

Lemma N_of_ascii_of_byte (b : byte) : N_of_ascii (ascii_of_byte b) = Byte.to_N b.
Proof. destruct b; reflexivity. Qed.

Lemma significant_not_ED (c : byte) :
  significant c = true -> negb (Byte.to_N c =? 237) = true.
Proof. destruct c; vm_compute; congruence. Qed.

Lemma no_ED_filter (l : list byte) : no_ED (filter significant l) = true.
Proof.
  induction l as [|c l IH]; [reflexivity|]. cbn [filter].
  destruct (significant c) eqn:Hc; [|exact IH].
  cbn [no_ED forallb]. rewrite (significant_not_ED c Hc). exact IH.
Qed.

Lemma b2a_not_ED (s : N) :
  s < 64 -> negb (Byte.to_N (b2a s) =? 237) = true.
Proof.
  intro Hs. apply significant_not_ED. unfold significant.
  now rewrite b2a_is_alphabet.
Qed.

Lemma no_ED_b64encode (bs : list byte) : no_ED (b64encode bs) = true.
Proof.
  induction bs as [| x | x y | x y z rest IH] using Base64Facts.list_ind3.
  - reflexivity.
  - pose proof (Base64Facts.byte_lt_256 x) as Hx.
    cbn [b64encode N.of_nat no_ED forallb] in *.
    rewrite !b2a_not_ED;
      [reflexivity
      | apply Base64Facts.sextet1_lt; [exact Hx | reflexivity]
      | apply Base64Facts.sextet0_lt; exact Hx].
  - pose proof (Base64Facts.byte_lt_256 x) as Hx.
    pose proof (Base64Facts.byte_lt_256 y) as Hy.
    cbn [b64encode N.of_nat no_ED forallb] in *.
    rewrite (b2a_not_ED (sextet0 (Byte.to_N x)))
      by (apply Base64Facts.sextet0_lt; exact Hx).
    rewrite (b2a_not_ED (sextet1 (Byte.to_N x) (Byte.to_N y)))
      by (apply Base64Facts.sextet1_lt; assumption).
    rewrite (b2a_not_ED (sextet2 (Byte.to_N y) 0))
      by (apply Base64Facts.sextet2_lt; [exact Hy | reflexivity]).
    reflexivity.
  - pose proof (Base64Facts.byte_lt_256 x) as Hx.
    pose proof (Base64Facts.byte_lt_256 y) as Hy.
    pose proof (Base64Facts.byte_lt_256 z) as Hz.
    cbn [b64encode no_ED forallb] in *.
    rewrite (b2a_not_ED (sextet0 (Byte.to_N x)))
      by (apply Base64Facts.sextet0_lt; exact Hx).
    rewrite (b2a_not_ED (sextet1 (Byte.to_N x) (Byte.to_N y)))
      by (apply Base64Facts.sextet1_lt; assumption).
    rewrite (b2a_not_ED (sextet2 (Byte.to_N y) (Byte.to_N z)))
      by (apply Base64Facts.sextet2_lt; assumption).
    rewrite (b2a_not_ED (sextet3 (Byte.to_N z)))
      by apply Base64Facts.sextet3_lt.
    exact IH.
Qed.

Lemma alphabet_or_pad_not_ED (c : byte) :
  is_alphabet c || Byte.eqb c BASE64_PAD = true ->
  negb (Byte.to_N c =? 237) = true.
Proof. exact (significant_not_ED c). Qed.

Lemma valid_quads_no_ED (n : nat) :
  forall data,
    (List.length data <= n)%nat ->
    valid_quads data = true -> no_ED data = true.
Proof.
  induction n as [|n IH]; intros data Hlen Hv.
  - destruct data; [reflexivity | cbn in Hlen; lia].
  - destruct data as [|a [|b [|c [|d rest]]]]; try discriminate Hv;
      [reflexivity|].
    assert (Hcases :
              is_alphabet a = true /\ is_alphabet b = true /\
              (is_alphabet c || Byte.eqb c BASE64_PAD = true) /\
              (is_alphabet d || Byte.eqb d BASE64_PAD = true) /\
              valid_quads rest = true).
    { destruct rest as [|x rest]; cbn [valid_quads] in Hv.
      - apply andb_prop in Hv as [Hab Hcd].
        apply andb_prop in Hab as [Ha Hb].
        repeat split; auto.
        + apply orb_prop in Hcd as [Hcd|Hcd];
            apply andb_prop in Hcd as [Hc _]; rewrite Hc;
            [reflexivity | apply orb_true_r].
        + apply orb_prop in Hcd as [Hcd|Hcd];
            apply andb_prop in Hcd as [_ Hd]; [exact Hd|].
          rewrite Hd. apply orb_true_r.
      - apply andb_prop in Hv as [Hv Hrest].
        apply andb_prop in Hv as [Hv Hd].
        apply andb_prop in Hv as [Hv Hc].
        apply andb_prop in Hv as [Ha Hb].
        rewrite Hc, Hd. repeat split; auto. }
    destruct Hcases as (Ha & Hb & Hc & Hd & Hrest).
    cbn [no_ED forallb].
    rewrite (alphabet_or_pad_not_ED a) by (now rewrite Ha).
    rewrite (alphabet_or_pad_not_ED b) by (now rewrite Hb).
    rewrite (alphabet_or_pad_not_ED c Hc), (alphabet_or_pad_not_ED d Hd).
    cbn [andb]. apply IH; [cbn in Hlen; lia | exact Hrest].
Qed.

Lemma find_surrogate_shift (s : string) :
  forall p q, find_surrogate s p = None -> find_surrogate s q = None.
Proof.
  induction s as [|c rest IH]; intros p q; [reflexivity|].
  cbn [find_surrogate].
  destruct (starts_with_surrogate (String c rest)); [discriminate|].
  apply IH.
Qed.

Lemma starts_with_surrogate_no_ED (c : ascii) (rest : string) :
  negb (N_of_ascii c =? 237) = true ->
  starts_with_surrogate (String c rest) = false.
Proof.
  intro H. apply negb_true_iff in H.
  destruct rest as [|c2 [|c3 rest]]; cbn [starts_with_surrogate];
    try reflexivity.
  now rewrite H.
Qed.

Lemma find_surrogate_app (l tail : list byte) :
  no_ED l = true ->
  find_surrogate (string_of_list_byte tail) 0 = None ->
  forall p, find_surrogate (string_of_list_byte (l ++ tail)) p = None.
Proof.
  intros Hl Ht. induction l as [|c l IH]; intro p.
  - exact (find_surrogate_shift _ 0 p Ht).
  - cbn [no_ED forallb] in Hl. apply andb_true_iff in Hl as [Hc Hl].
    change (string_of_list_byte ((c :: l) ++ tail))
      with (String (ascii_of_byte c) (string_of_list_byte (l ++ tail))).
    cbn [find_surrogate].
    rewrite starts_with_surrogate_no_ED
      by (rewrite N_of_ascii_of_byte; exact Hc).
    apply IH. exact Hl.
Qed.

(** Text made of bytes other than [ED] is encoded as it stands. *)
Lemma str_encode_no_ED (l : list byte) :
  no_ED l = true -> str_encode (string_of_list_byte l) = inr l.
Proof.
  intro Hl. unfold str_encode.
  pose proof (find_surrogate_app l [] Hl eq_refl 0) as H.
  rewrite app_nil_r in H. rewrite H.
  now rewrite list_byte_of_string_of_list_byte.
Qed.

Lemma str_encode_inr (s : string) (text : list byte) :
  str_encode s = inr text ->
  text = list_byte_of_string s /\ find_surrogate s 0 = None.
Proof.
  unfold str_encode.
  destruct (find_surrogate s 0) as [[p from]|]; [discriminate|].
  intro H. inversion H. auto.
Qed.

(** Base64 text in the sense of RFC 4648 is never rejected by line 86. *)
Lemma valid_base64_payload_accepted (s : string) :
  valid_base64_text s = true ->
  exists bs, b64decode_payload s = inr bs.
Proof.
  intro H. unfold b64decode_payload.
  replace (str_encode s)
    with (str_encode (string_of_list_byte (list_byte_of_string s)))
    by (now rewrite string_of_list_byte_of_string).
  rewrite str_encode_no_ED
    by (apply (valid_quads_no_ED (List.length (list_byte_of_string s)));
        [lia | exact H]).
  now apply Base64Facts.valid_base64_text_accepted.
Qed.

End Base64More.

(** X2: line 86 reads the payload as if every character outside the base64
    alphabet and the pad had been removed from it: line breaks, blanks and
    any other foreign character in a payload change nothing of what the
    user's function receives, nor of whether decoding fails -- unless the
    payload holds a lone surrogate, which [bytes(..., encoding='utf-8')]
    refuses before any decoding. *)
Theorem foreign_characters_are_skipped {RT : PyRuntime} (as_json : bool)
    (headers : Headers) (payload : string) :
  match str_encode payload with
  | inl e =>
      decode_payload as_json
        {| msg_headers := headers; msg_payload := payload |} = inl e /\
      exc_class e = "UnicodeEncodeError"
  | inr _ =>
      decode_payload as_json
        {| msg_headers := headers; msg_payload := strip_payload payload |} =
      decode_payload as_json
        {| msg_headers := headers; msg_payload := payload |}
  end.
Proof.
  unfold decode_payload, b64decode_payload. cbn [msg_payload].
  destruct (str_encode payload) as [e|text] eqn:Hs.
  - split; [reflexivity|].
    unfold str_encode in Hs.
    destruct (find_surrogate payload 0) as [[p from]|]; [|discriminate].
    inversion Hs. reflexivity.
  - apply Base64More.str_encode_inr in Hs as [-> _].
    unfold strip_payload.
    rewrite Base64More.str_encode_no_ED by apply Base64More.no_ED_filter.
    unfold b64decode. now rewrite Base64More.a2b_loop_filter.
Qed.

(** X3: a payload that is the base64 encoding of some bytes is handed to the
    user's function as exactly those bytes when [as_json] is off, and as
    what [json.loads] makes of their UTF-8 text when it is on. *)
Theorem encoded_payload_is_decoded {RT : PyRuntime} (as_json : bool)
    (headers : Headers) (bs : list byte) :
  decode_payload as_json
    {| msg_headers := headers;
       msg_payload := string_of_list_byte (b64encode bs) |} =
  if as_json then
    match utf8_decode bs with
    | inl e => inl e
    | inr text => json_loads text
    end
  else inr (PyBytes bs).
Proof.
  unfold decode_payload, b64decode_payload. cbn [msg_payload].
  rewrite Base64More.str_encode_no_ED by apply Base64More.no_ED_b64encode.
  rewrite Base64Facts.b64decode_b64encode.
  reflexivity.
Qed.

(** X19: decoding stops at the padding that ends a group: when a payload
    starts with the base64 encoding of bytes whose number is not a multiple
    of three (so that the encoding ends in [=]), whatever follows that
    encoding in the payload is ignored, without an error, as long as it
    holds no lone surrogate. *)
Theorem text_after_padding_is_ignored {RT : PyRuntime} (as_json : bool)
    (headers : Headers) (bs tail : list byte) :
  (List.length bs mod 3 <> 0)%nat ->
  str_encode (string_of_list_byte tail) = inr tail ->
  decode_payload as_json
    {| msg_headers := headers;
       msg_payload := string_of_list_byte (b64encode bs ++ tail) |} =
  decode_payload as_json
    {| msg_headers := headers;
       msg_payload := string_of_list_byte (b64encode bs) |}.
Proof.
  intros Hlen Htail. unfold decode_payload, b64decode_payload.
  cbn [msg_payload].
  apply Base64More.str_encode_inr in Htail as [_ Htail].
  assert (H1 : str_encode (string_of_list_byte (b64encode bs ++ tail))
               = inr (b64encode bs ++ tail)).
  { unfold str_encode.
    rewrite (Base64More.find_surrogate_app (b64encode bs) tail
               (Base64More.no_ED_b64encode bs) Htail 0).
    now rewrite list_byte_of_string_of_list_byte. }
  rewrite H1.
  rewrite Base64More.str_encode_no_ED by apply Base64More.no_ED_b64encode.
  unfold b64decode.
  rewrite (Base64More.a2b_loop_b64encode_tail bs Hlen tail).
  now rewrite Base64Facts.a2b_loop_b64encode.
Qed.

(* ================================================================== *)
(** ** The encoder with and without [EncodeBase64] *)

Module JsonEncoderFacts.

(** Induction on values, through the lists they hold. *)
Lemma PyVal_nested_ind (P : PyVal -> Prop) :
  P PyNone ->
  (forall b, P (PyBool b)) ->
  (forall z, P (PyInt z)) ->
  (forall repr, P (PyFloat repr)) ->
  (forall s, P (PyStr s)) ->
  (forall bs, P (PyBytes bs)) ->
  (forall items, Forall P items -> P (PyList items)) ->
  (forall items, Forall P items -> P (PyTuple items)) ->
  (forall kvs, Forall (fun kv => P (snd kv)) kvs -> P (PyDict kvs)) ->
  (forall cls iteration, P (PyObject cls iteration)) ->
  forall v, P v.
Proof.
  intros HNone HBool HInt HFloat HStr HBytes HList HTuple HDict HObject.
  refine (fix go (v : PyVal) : P v :=
            match v with
            | PyNone => HNone
            | PyBool b => HBool b
            | PyInt z => HInt z
            | PyFloat repr => HFloat repr
            | PyStr s => HStr s
            | PyBytes bs => HBytes bs
            | PyList items =>
                HList items
                  ((fix all (l : list PyVal) : Forall P l :=
                      match l with
                      | [] => Forall_nil P
                      | x :: l' => Forall_cons x (go x) (all l')
                      end) items)
            | PyTuple items =>
                HTuple items
                  ((fix all (l : list PyVal) : Forall P l :=
                      match l with
                      | [] => Forall_nil P
                      | x :: l' => Forall_cons x (go x) (all l')
                      end) items)
            | PyDict kvs =>
                HDict kvs
                  ((fix all (l : list (PyVal * PyVal))
                      : Forall (fun kv => P (snd kv)) l :=
                      match l with
                      | [] => Forall_nil _
                      | kv :: l' => Forall_cons kv (go (snd kv)) (all l')
                      end) kvs)
            | PyObject cls iteration => HObject cls iteration
            end).
Qed.

Lemma encode_with_PyList (default : PyVal -> result string) (items : list PyVal) :
  encode_with default (PyList items) =
  match encode_with_items default items with
  | inl e => inl e
  | inr js => inr (JArr js)
  end.
Proof. reflexivity. Qed.

Lemma encode_with_PyTuple (default : PyVal -> result string) (items : list PyVal) :
  encode_with default (PyTuple items) =
  match encode_with_items default items with
  | inl e => inl e
  | inr js => inr (JArr js)
  end.
Proof. reflexivity. Qed.

Lemma encode_with_PyDict (default : PyVal -> result string)
    (kvs : list (PyVal * PyVal)) :
  encode_with default (PyDict kvs) =
  match encode_with_members default kvs with
  | inl e => inl e
  | inr ms => inr (JObj ms)
  end.
Proof. reflexivity. Qed.

Lemma encode_PyTuple (items : list PyVal) :
  encode (PyTuple items) =
  match encode_items items with
  | inl e => inl e
  | inr js => inr (JArr js)
  end.
Proof. reflexivity. Qed.

Lemma plain_items_encode (items : list PyVal) :
  Forall (fun v => forall j, encode_plain v = inr j -> encode v = inr j) items ->
  forall js,
    encode_with_items JSONEncoder_default items = inr js ->
    encode_items items = inr js.
Proof.
  induction 1 as [|x l Hx _ IH]; intros js H; cbn in H |- *; [exact H|].
  fold (encode_plain x) in H.
  destruct (encode_plain x) as [e|j] eqn:Ex; [discriminate|].
  rewrite (Hx j eq_refl).
  destruct (encode_with_items JSONEncoder_default l) as [e|js']; [discriminate|].
  now rewrite (IH js' eq_refl).
Qed.

Lemma plain_members_encode (kvs : list (PyVal * PyVal)) :
  Forall (fun kv => forall j, encode_plain (snd kv) = inr j ->
                              encode (snd kv) = inr j) kvs ->
  forall ms,
    encode_with_members JSONEncoder_default kvs = inr ms ->
    encode_members kvs = inr ms.
Proof.
  induction 1 as [|[k x] l Hx _ IH]; intros ms H; cbn in H |- *; [exact H|].
  destruct (encode_key k) as [e|ks]; [discriminate|].
  fold (encode_plain x) in H. cbn [snd] in Hx.
  destruct (encode_plain x) as [e|j] eqn:Ex; [discriminate|].
  rewrite (Hx j eq_refl).
  destruct (encode_with_members JSONEncoder_default l) as [e|ms']; [discriminate|].
  now rewrite (IH ms' eq_refl).
Qed.

(** X4: [EncodeBase64] only adds to the standard encoder: whatever
    [json.dumps] writes for a value without the encoder class, it writes
    for it with [cls=EncodeBase64] as well. *)
Theorem EncodeBase64_extends_JSONEncoder (o : PyVal) (j : JSON) :
  encode_plain o = inr j -> encode o = inr j.
Proof.
  revert j.
  induction o
    as [| b | z | repr | s | bs | items IH | items IH | kvs IH | cls iteration]
    using PyVal_nested_ind; intros j H; try exact H.
  - discriminate H.
  - unfold encode_plain in H. rewrite encode_with_PyList in H.
    rewrite JsonFacts.encode_PyList.
    destruct (encode_with_items JSONEncoder_default items) as [e|js] eqn:E;
      [discriminate|].
    now rewrite (plain_items_encode items IH js E).
  - unfold encode_plain in H. rewrite encode_with_PyTuple in H.
    rewrite encode_PyTuple.
    destruct (encode_with_items JSONEncoder_default items) as [e|js] eqn:E;
      [discriminate|].
    now rewrite (plain_items_encode items IH js E).
  - unfold encode_plain in H. rewrite encode_with_PyDict in H.
    rewrite JsonFacts.encode_PyDict.
    destruct (encode_with_members JSONEncoder_default kvs) as [e|ms] eqn:E;
      [discriminate|].
    now rewrite (plain_members_encode kvs IH ms E).
Qed.

(** The values of [json.loads] are always written. *)
Lemma json_value_PyList (items : list PyVal) :
  json_value (PyList items) = json_values items.
Proof. reflexivity. Qed.

Lemma json_value_PyDict (kvs : list (PyVal * PyVal)) :
  json_value (PyDict kvs) = json_members kvs.
Proof. reflexivity. Qed.

Lemma json_value_encode_plain (v : PyVal) :
  json_value v = true -> exists j, encode_plain v = inr j.
Proof.
  induction v
    as [| b | z | repr | s | bs | items IH | items IH | kvs IH | cls iteration]
    using PyVal_nested_ind; intro H; try discriminate H;
    try (eexists; reflexivity).
  - cbn [json_value] in H. apply negb_true_iff in H.
    exists (JNum z). unfold encode_plain. cbn [encode_with]. now rewrite H.
  - rewrite json_value_PyList in H. unfold encode_plain.
    rewrite encode_with_PyList.
    assert (Hi : exists js, encode_with_items JSONEncoder_default items = inr js).
    { induction IH as [|x l Hx _ IHl]; [eexists; reflexivity|].
      cbn in H. apply andb_prop in H as [H1 H2].
      destruct (Hx H1) as [j Hj]. destruct (IHl H2) as [js Hjs].
      exists (j :: js). cbn. fold (encode_plain x). now rewrite Hj, Hjs. }
    destruct Hi as [js ->]. eauto.
  - rewrite json_value_PyDict in H. unfold encode_plain.
    rewrite encode_with_PyDict.
    assert (Hi : exists ms, encode_with_members JSONEncoder_default kvs = inr ms).
    { induction IH as [|[k x] l Hx _ IHl]; [eexists; reflexivity|].
      cbn in H. destruct k; try discriminate H.
      apply andb_prop in H as [H1 H2]. cbn [snd] in Hx.
      destruct (Hx H1) as [j Hj]. destruct (IHl H2) as [ms Hms].
      eexists. cbn. fold (encode_plain x). rewrite Hj, Hms. reflexivity. }
    destruct Hi as [ms ->]. eauto.
Qed.

End JsonEncoderFacts.

(* ================================================================== *)
(** ** The example handler of lines 124-146 *)

Module SampleFacts.

Lemma dict_setitem_member (default : PyVal -> result string)
    (kvs : list (PyVal * PyVal)) :
  json_members kvs = true ->
  forall ms,
    encode_with_members default
      (dict_setitem kvs "testing" (PyStr "working")) = inr ms ->
    assoc "testing" ms = Some (JStr "working").
Proof.
  induction kvs as [|[k x] rest IH]; intros Hj ms H.
  - cbn in H. inversion H. reflexivity.
  - cbn [json_members] in Hj. destruct k as [| | | |s| | | | |]; try discriminate Hj.
    apply andb_prop in Hj as [_ Hj].
    cbn [dict_setitem key_is] in H.
    destruct (String.eqb s "testing") eqn:Hk.
    + cbn [encode_with_members encode_key encode_with] in H.
      destruct (encode_with_members default rest) as [e|ms']; [discriminate|].
      inversion H; subst. cbn [assoc].
      rewrite String.eqb_sym, Hk. reflexivity.
    + cbn [encode_with_members encode_key] in H.
      destruct (encode_with default x) as [e|j]; [discriminate|].
      destruct (encode_with_members default
                  (dict_setitem rest "testing" (PyStr "working")))
        as [e|ms'] eqn:Em; [discriminate|].
      inversion H; subst. cbn [assoc].
      rewrite String.eqb_sym, Hk. now apply IH.
Qed.

Lemma json_members_setitem (kvs : list (PyVal * PyVal)) :
  json_members kvs = true ->
  json_members (dict_setitem kvs "testing" (PyStr "working")) = true.
Proof.
  induction kvs as [|[k x] rest IH]; intro H; [reflexivity|].
  cbn [dict_setitem]. cbn in H.
  destruct k; try discriminate H.
  apply andb_prop in H as [H1 H2].
  destruct (key_is (PyStr s) "testing"); cbn.
  - exact H2.
  - now rewrite H1, IH.
Qed.

(** X5: for a JSON object (what [json.loads] builds from an object: string
    keys; values that are [None], booleans, integers, floats, strings,
    lists or objects of such), the example [event_handler] returns the text
    of that object with the member ["testing"] set to ["working"], as
    bytes, together with the headers it was given, which it leaves as they
    are; it keeps no state. *)
Theorem event_handler_sets_testing {W : Type} {RT : PyRuntime}
    (kvs : list (PyVal * PyVal)) (msg_headers inputs : PyVal) (w : W) :
  json_value (PyDict kvs) = true ->
  exists j,
    encode_plain (PyDict (dict_setitem kvs "testing" (PyStr "working")))
      = inr j /\
    member "testing" j = Some (JStr "working") /\
    Sample.event_handler (PyDict kvs) msg_headers inputs w =
      (w, msg_headers,
       Returns (PyTuple [PyBytes (list_byte_of_string (json_text j));
                         msg_headers])).
Proof.
  intro H. rewrite JsonEncoderFacts.json_value_PyDict in H.
  pose proof (json_members_setitem kvs H) as H'.
  rewrite <- JsonEncoderFacts.json_value_PyDict in H'.
  destruct (JsonEncoderFacts.json_value_encode_plain _ H') as [j Hj].
  exists j. split; [exact Hj|]. split.
  - unfold encode_plain in Hj.
    rewrite JsonEncoderFacts.encode_with_PyDict in Hj.
    destruct (encode_with_members JSONEncoder_default
                (dict_setitem kvs "testing" (PyStr "working")))
      as [e|ms] eqn:Em; [discriminate|].
    inversion Hj; subst. cbn [member].
    now apply (dict_setitem_member JSONEncoder_default kvs H).
  - unfold Sample.event_handler, Sample.setitem, ok. cbv beta iota.
    now rewrite Hj.
Qed.

Lemma event_handler_raises_on_non_dict {W : Type} {RT : PyRuntime}
    (msg_payload msg_headers inputs : PyVal) (w : W) :
  isinstance_dict msg_payload = false ->
  exists e,
    exc_class e = "TypeError" /\
    Sample.event_handler msg_payload msg_headers inputs w
      = (w, msg_headers, Raises e).
Proof.
  intro H. destruct msg_payload; try discriminate H;
    eexists; (split; [|reflexivity]); reflexivity.
Qed.

End SampleFacts.

(* ================================================================== *)
(** ** More about whole runs *)

Section more_run_facts.

Context {W : Type} {RT : PyRuntime}.
Variable event_handler : PyVal -> PyVal -> PyVal -> W -> W * PyVal * Called W.
Variable use_async : bool.
Variable as_json : bool.

(** [f_] is [f] at the parameters of this section. *)
Local Abbreviation run_try_ := (run_try event_handler use_async as_json).
Local Abbreviation state_after_ := (state_after event_handler use_async as_json).
Local Abbreviation headers_after_ := (headers_after event_handler use_async as_json).
Local Abbreviation loop_body_ := (loop_body event_handler use_async as_json).
Local Abbreviation run_loop_ := (run_loop event_handler use_async as_json).
Local Abbreviation handler_ := (handler event_handler use_async as_json).
Local Abbreviation outcome_ := (outcome event_handler use_async as_json).
Local Abbreviation outcomes_ := (outcomes event_handler use_async as_json).
Local Abbreviation world_before_ := (world_before event_handler use_async as_json).
Local Abbreviation returned_pair_ := (returned_pair event_handler use_async as_json).
Local Abbreviation decode_payload_ := (decode_payload as_json).
Local Abbreviation message_error_ := (message_error event_handler use_async as_json).
Local Abbreviation succeeded_headers_ := (succeeded_headers event_handler use_async as_json).
Local Abbreviation failures_ := (failures event_handler use_async as_json).
Local Abbreviation written_headers_ := (written_headers event_handler use_async as_json).
Local Abbreviation call_of_ := (call_of event_handler use_async).

(** X6: an event without messages returns the envelope with two empty
    arrays and the user's function is not called -- also when the event has
    no ["inputs"]. *)
Theorem empty_batch_gives_empty_envelope (event : Event) (w : W) :
  ev_messages event = [] ->
  handler_ event w =
  (w, PyBytes (list_byte_of_string
                 (json_text (JObj [ ("messages", JArr []);
                                    ("failed_messages", JArr []) ])))).
Proof.
  intro H. unfold handler, run_loop. rewrite H. reflexivity.
Qed.

(** The [try] block reads the event only for its inputs. *)
Lemma try_body_inputs_only (event1 event2 : Event) (m : Message) (w : W) :
  ev_inputs event1 = ev_inputs event2 ->
  run_try_ event1 m w = run_try_ event2 m w.
Proof.
  intro H. unfold run_try, try_body, lookup_inputs. now rewrite H.
Qed.

Lemma fold_loop_inputs_only (event1 event2 : Event) (msgs : list Message) :
  ev_inputs event1 = ev_inputs event2 ->
  forall st,
    fold_left (loop_body_ event1) msgs st = fold_left (loop_body_ event2) msgs st.
Proof.
  intro H. induction msgs as [|m rest IH]; intro st; [reflexivity|].
  cbn [fold_left]. rewrite IH. f_equal.
  destruct st as [w pe]. unfold loop_body.
  now rewrite (try_body_inputs_only event1 event2 m w H).
Qed.

(** X7: processing a batch made of two batches put end to end is processing
    the first, then the second from the state the first left: the two
    output lists are the lists of the first run followed by the lists of
    the second. *)
Theorem batches_compose (inputs : option Headers) (batch1 batch2 : list Message)
    (w : W) :
  let run1 := run_loop_ {| ev_messages := batch1; ev_inputs := inputs |} w in
  let run2 :=
    run_loop_ {| ev_messages := batch2; ev_inputs := inputs |} (fst run1) in
  run_loop_ {| ev_messages := batch1 ++ batch2; ev_inputs := inputs |} w =
  (fst run2,
   {| messages := messages (snd run1) ++ messages (snd run2);
      failed_messages := failed_messages (snd run1) ++ failed_messages (snd run2) |}).
Proof.
  cbv zeta. unfold run_loop. cbn [ev_messages].
  rewrite fold_left_app.
  rewrite (fold_loop_inputs_only
             {| ev_messages := batch1 ++ batch2; ev_inputs := inputs |}
             {| ev_messages := batch1; ev_inputs := inputs |} batch1 eq_refl).
  destruct (fold_left
              (loop_body_ {| ev_messages := batch1; ev_inputs := inputs |})
              batch1 (w, {| messages := []; failed_messages := [] |}))
    as [w1 pe1].
  rewrite (fold_loop_inputs_only
             {| ev_messages := batch1 ++ batch2; ev_inputs := inputs |}
             {| ev_messages := batch2; ev_inputs := inputs |} batch2 eq_refl).
  rewrite !fold_loop_body. cbn [fst snd messages failed_messages app].
  reflexivity.
Qed.

Lemma try_body_keeps_state (event : Event) (m : Message) (w : W) :
  keeps_state event_handler -> state_after_ event m w = w.
Proof.
  intro Hk. unfold state_after. rewrite run_try_unfold.
  destruct (decode_payload_ m) as [e|payload]; [reflexivity|].
  destruct (lookup_inputs event) as [e|inputs]; [reflexivity|].
  rewrite call_of_unfold.
  destruct (Hk payload (dict_of (msg_headers m)) inputs w) as [Hw Hb].
  destruct (event_handler payload (dict_of (msg_headers m)) inputs w)
    as [[w' h] [e|v|obj awaited]]; cbn [fst snd] in *; subst w'.
  - reflexivity.
  - destruct use_async; [reflexivity|].
    destruct (unpack2 v) as [e|unpacked]; reflexivity.
  - destruct use_async.
    + specialize (Hb obj awaited eq_refl w).
      destruct (awaited w) as [[w' h'] [e|v]]; cbn [fst] in *; subst w';
        [reflexivity|].
      destruct (unpack2 v) as [e|unpacked]; reflexivity.
    + destruct (unpack2 obj) as [e|unpacked]; reflexivity.
Qed.

Lemma outcomes_keeps_state (event : Event) (msgs : list Message) (w : W) :
  keeps_state event_handler ->
  outcomes_ event w msgs = map (fun m => outcome_ event m w) msgs /\
  world_before_ event w msgs (List.length msgs) = w.
Proof.
  intro Hk. induction msgs as [|m rest [IH1 IH2]]; [split; reflexivity|].
  cbn [outcomes world_before List.length map].
  rewrite (try_body_keeps_state event m w Hk). now rewrite IH1, IH2.
Qed.

(** X8: when the user's function keeps no state, the outcome of a message
    does not depend on the rest of the batch: the run leaves the state
    alone, and the output lists are made of the outcomes that the messages
    have one by one. *)
Theorem stateless_function_isolates_messages (event : Event) (w : W) :
  keeps_state event_handler ->
  run_loop_ event w =
  (w,
   {| messages :=
        kept_entries (map (fun m => outcome_ event m w) (ev_messages event));
      failed_messages :=
        failed_entries (ev_messages event)
          (map (fun m => outcome_ event m w) (ev_messages event)) |}).
Proof.
  intro Hk. unfold run_loop. rewrite fold_loop_body.
  destruct (outcomes_keeps_state event (ev_messages event) w Hk) as [-> ->].
  reflexivity.
Qed.

(** When every message fails, nothing is kept. *)
Lemma all_messages_fail (event : Event) (msgs : list Message) :
  (forall m w, exists h e, outcome_ event m w = Failed h e) ->
  forall w,
    kept_entries (outcomes_ event w msgs) = [] /\
    List.length (failed_entries msgs (outcomes_ event w msgs)) = List.length msgs.
Proof.
  intro H. induction msgs as [|m rest IH]; intro w; [split; reflexivity|].
  cbn [outcomes]. destruct (H m w) as (h & e & ->).
  destruct (IH (state_after_ event m w)) as [IH1 IH2].
  cbn [kept_entries failed_entries List.length]. now rewrite IH1, IH2.
Qed.

Lemma outcome_of_error (event : Event) (m : Message) (w : W) (e : PyExc) :
  snd (run_try_ event m w) = inl e ->
  outcome_ event m w = Failed (headers_after_ event m w) e.
Proof. intro H. rewrite outcome_unfold. now rewrite H. Qed.

(** A message fails as soon as its call, awaited or not, gives nothing that
    unpacks. *)
Lemma call_fails (event : Event) (m : Message) (w : W) :
  (forall payload inputs,
      match call_of_ payload inputs m w with
      | (_, inl _) => True
      | (_, inr returned) => exists e, unpack2 returned = inl e
      end) ->
  exists h e, outcome_ event m w = Failed h e.
Proof.
  intro H. exists (headers_after_ event m w).
  assert (He : exists e, snd (run_try_ event m w) = inl e).
  { rewrite run_try_unfold.
    destruct (decode_payload_ m) as [e|payload]; [eexists; reflexivity|].
    destruct (lookup_inputs event) as [e|inputs]; [eexists; reflexivity|].
    specialize (H payload inputs).
    destruct (call_of_ payload inputs m w) as [st [e|returned]];
      [eexists; reflexivity|].
    destruct H as [e ->]. eexists; reflexivity. }
  destruct He as [e He]. exists e. now apply outcome_of_error.
Qed.

(** X9: with [use_async] set, a user function that never hands back an
    awaitable -- a plain [def] that returns tuples, say -- never succeeds:
    what a call returns cannot be awaited, so every message of every batch
    lands in [failed_messages]. *)
Theorem awaiting_a_plain_function_fails_all (event : Event) (w : W) :
  use_async = true ->
  plain_function event_handler ->
  messages (snd (run_loop_ event w)) = [] /\
  List.length (failed_messages (snd (run_loop_ event w)))
    = List.length (ev_messages event).
Proof.
  intros Ha Hp. rewrite run_loop_outcomes. cbn [messages failed_messages].
  apply all_messages_fail. intros m w'. apply call_fails.
  intros payload inputs. rewrite call_of_unfold, Ha.
  pose proof (Hp payload (dict_of (msg_headers m)) inputs w') as Hn.
  destruct (event_handler payload (dict_of (msg_headers m)) inputs w')
    as [st [e|v|obj awaited]]; cbn [fst snd] in *; [exact I | exact I |].
  exfalso. now apply (Hn obj awaited).
Qed.

(** X10: without [use_async], a user function that is an [async def] never
    succeeds: the coroutine a call returns is not a pair, so every message
    of every batch lands in [failed_messages]. *)
Theorem calling_an_async_function_fails_all (event : Event) (w : W) :
  use_async = false ->
  coroutine_function event_handler ->
  messages (snd (run_loop_ event w)) = [] /\
  List.length (failed_messages (snd (run_loop_ event w)))
    = List.length (ev_messages event).
Proof.
  intros Ha Hc. rewrite run_loop_outcomes. cbn [messages failed_messages].
  apply all_messages_fail. intros m w'. apply call_fails.
  intros payload inputs. rewrite call_of_unfold, Ha.
  destruct (Hc payload (dict_of (msg_headers m)) inputs w') as [awaited Hb].
  destruct (event_handler payload (dict_of (msg_headers m)) inputs w')
    as [st c]; cbn [fst snd] in *. subst c. eexists. reflexivity.
Qed.

(** X11: when what the user's function hands back does not unpack into
    exactly two items -- [None] because the function returned nothing, a
    single value, a triple, a set of three -- and iterating it raises
    nothing of its own, the message fails: with a [TypeError] when the
    value cannot be iterated, with a [ValueError] when it yields another
    number of items than two; it is neither kept nor filtered out. *)
Theorem non_pair_result_fails (event : Event) (m : Message) (w : W)
    (payload inputs returned : PyVal) :
  decode_payload_ m = inr payload ->
  lookup_inputs event = inr inputs ->
  snd (call_of_ payload inputs m w) = inr returned ->
  (forall a b, iter_items returned <> Yields [a; b] None) ->
  (forall items e, iter_items returned <> Yields items (Some e)) ->
  exists e,
    outcome_ event m w = Failed (headers_after_ event m w) e /\
    (exc_class e = "TypeError" /\ iter_items returned = NotIterable \/
     exc_class e = "ValueError" /\
     exists items,
       iter_items returned = Yields items None /\ List.length items <> 2).
Proof.
  intros Hd Hi Hc Hn Hr.
  assert (Hu : exists e,
             unpack2 returned = inl e /\
             (exc_class e = "TypeError" /\ iter_items returned = NotIterable \/
              exc_class e = "ValueError" /\
              exists items,
                iter_items returned = Yields items None /\
                List.length items <> 2)).
  { unfold unpack2.
    destruct (iter_items returned) as [|items [e|]] eqn:Hit.
    - eexists. split; [reflexivity|]. left. split; reflexivity.
    - exfalso. exact (Hr items e eq_refl).
    - destruct items as [|a [|b [|c l]]].
      + eexists. split; [reflexivity|]. right. split; [reflexivity|].
        exists []. split; [reflexivity|]. discriminate.
      + eexists. split; [reflexivity|]. right. split; [reflexivity|].
        exists [a]. split; [reflexivity|]. discriminate.
      + exfalso. exact (Hn a b eq_refl).
      + eexists. split; [reflexivity|]. right. split; [reflexivity|].
        exists (a :: b :: c :: l). split; [reflexivity|]. discriminate. }
  destruct Hu as (e & Hu & Hcls). exists e. split; [|exact Hcls].
  apply outcome_of_error. rewrite run_try_unfold, Hd, Hi.
  destruct (call_of_ payload inputs m w)
    as [st [e'|returned']]; cbn [snd] in Hc; [discriminate|].
  inversion Hc; subst. now rewrite Hu.
Qed.
(** X12: every entry of the success list is a dictionary with a [dict]
    under ["headers"] and a [bytes] value under ["payload"], whatever the
    user's function does. *)
Theorem success_entries_are_well_typed (event : Event) (w : W) :
  Forall
    (fun entry =>
       exists kvs b,
         entry = PyDict [ (PyStr "headers", PyDict kvs);
                          (PyStr "payload", PyBytes b) ])
    (messages (snd (run_loop_ event w))).
Proof.
  rewrite run_loop_outcomes. cbn [messages]. apply Forall_forall.
  intros entry Hin. apply In_kept_entries in Hin as [i Hi].
  rewrite outcomes_nth in Hi.
  destruct (nth_error (ev_messages event) i) as [m|]; [|discriminate].
  cbn [option_map] in Hi. injection Hi as Hi.
  apply outcome_Kept_inv in Hi as (b & kvs & _ & ->).
  exists kvs, b. reflexivity.
Qed.

Lemma succeeded_headers_entries (event : Event) (msgs : list Message) :
  forall w,
    Forall2 (fun h entry => exists b, entry = success_entry h (PyBytes b))
      (succeeded_headers_ event w msgs)
      (kept_entries (outcomes_ event w msgs)).
Proof.
  induction msgs as [|m rest IH]; intro w; cbn [succeeded_headers outcomes];
    [constructor|].
  destruct (outcome_ event m w) as [entry| |h e] eqn:Ho.
  - apply outcome_Kept_inv in Ho as (b & kvs & Hp & ->).
    rewrite Hp. cbn. constructor; [eauto | apply IH].
  - destruct (returned_pair_ event m w) as [[[] []]|] eqn:Hp; cbn; try apply IH.
    rewrite (outcome_Kept _ _ _ _ _ _ _ _ Hp) in Ho. discriminate.
  - destruct (returned_pair_ event m w) as [[[] []]|] eqn:Hp; cbn; try apply IH.
    rewrite (outcome_Kept _ _ _ _ _ _ _ _ Hp) in Ho. discriminate.
Qed.

Lemma failed_entries_failures (event : Event) (msgs : list Message) :
  forall w,
    failed_entries msgs (outcomes_ event w msgs) =
    map failure_entry (failures_ event w msgs).
Proof.
  induction msgs as [|m rest IH]; intro w; [reflexivity|].
  cbn [outcomes failures].
  destruct (outcome_ event m w) as [entry| |h e]; cbn; now rewrite IH.
Qed.

Lemma encode_failure_entry (f : Failure) :
  encode (failure_entry f) =
  match encode (fail_headers f) with
  | inl e => inl e
  | inr jh => inr (json_failure_entry f jh)
  end.
Proof.
  unfold failure_entry, json_failure_entry. rewrite JsonFacts.encode_PyDict.
  cbn [encode_members encode_key].
  destruct (encode (fail_headers f)); reflexivity.
Qed.

(** The failure entries are written when the headers they carry are. *)
Lemma encode_failure_entries (fs : list Failure) :
  (Forall (fun h => exists j, encode h = inr j) (map fail_headers fs) /\
   exists js,
     encode_items (map failure_entry fs) = inr js /\
     Forall2 (fun f j => exists jh, encode (fail_headers f) = inr jh /\
                                    j = json_failure_entry f jh) fs js) \/
  (exists h e,
      In h (map fail_headers fs) /\ encode h = inl e /\
      encode_items (map failure_entry fs) = inl e).
Proof.
  induction fs as [|f fs IH].
  - left. split; [constructor|]. exists []. split; [reflexivity | constructor].
  - cbn [map encode_items]. rewrite encode_failure_entry.
    destruct (encode (fail_headers f)) as [e|jh] eqn:Eh.
    + right. exists (fail_headers f), e. repeat split; auto. now left.
    + destruct IH as [[Hall (js & Hjs & Hf)] | (h & e & Hin & He & Hjs)].
      * left. split; [constructor; eauto|]. rewrite Hjs.
        eexists. split; [reflexivity|]. constructor; eauto.
      * right. exists h, e. repeat split; auto; [now right|].
        now rewrite Hjs.
Qed.

Lemma encode_success_entry_cases (h : PyVal) (b : list byte) :
  encode (success_entry h (PyBytes b)) =
  match encode h with
  | inl e => inl e
  | inr jh =>
      inr (JObj [ ("headers", jh);
                  ("payload", JStr (string_of_list_byte (b64encode b))) ])
  end.
Proof.
  unfold success_entry. rewrite JsonFacts.encode_PyDict.
  cbn [encode_members encode_key]. destruct (encode h); reflexivity.
Qed.

Lemma encode_kept_entries (hs entries : list PyVal) :
  Forall2 (fun h entry => exists b, entry = success_entry h (PyBytes b))
    hs entries ->
  (Forall (fun h => exists j, encode h = inr j) hs /\
   exists js, encode_items entries = inr js /\
              List.length js = List.length entries) \/
  (exists h e, In h hs /\ encode h = inl e /\ encode_items entries = inl e).
Proof.
  induction 1 as [|h entry hs' entries' [b ->] _ IH].
  - left. split; [constructor|]. exists []. split; reflexivity.
  - cbn [encode_items]. rewrite encode_success_entry_cases.
    destruct (encode h) as [e|jh] eqn:Eh.
    + right. exists h, e. repeat split; auto. now left.
    + destruct IH as [[Hall (js & Hjs & Hlen)] | (h' & e & Hin & He & Hjs)].
      * left. split; [constructor; eauto|]. rewrite Hjs.
        eexists. split; [reflexivity|]. cbn. now rewrite Hlen.
      * right. exists h', e. repeat split; auto; [now right|].
        now rewrite Hjs.
Qed.

(** X13: the final serialisation fails only because of a headers
    dictionary that the user's function had in its hands -- returned for a
    message that succeeded, or found in the [except] clause for a message
    that failed: when [json.dumps] can write all of them the call returns
    the envelope, and when the call returns the failure string, it is the
    sentence of line 119 followed by the error of one of them.  Payloads
    and error texts never make it fail. *)
Theorem only_headers_break_serialization (event : Event) (w : W) :
  (Forall (fun h => exists j, encode h = inr j)
     (written_headers_ event w (ev_messages event)) /\
   isinstance_bytes (snd (handler_ event w)) = true)
  \/
  (exists h e,
      In h (written_headers_ event w (ev_messages event)) /\
      encode h = inl e /\
      snd (handler_ event w) =
        PyStr ("Returned message types from user function are not able to be converted into JSON: "
                 ++ exc_str e)%string).
Proof.
  rewrite handler_unfold. cbn [snd]. unfold json_dumps, written_headers.
  rewrite JsonFacts.encode_processed_events, run_loop_outcomes.
  cbn [messages failed_messages]. rewrite failed_entries_failures.
  destruct (encode_kept_entries _ _
              (succeeded_headers_entries event (ev_messages event) w))
    as [[Hall (js & -> & _)] | (h & e & Hin & He & ->)].
  - destruct (encode_failure_entries (failures_ event w (ev_messages event)))
      as [[Hallf (fs & -> & _)] | (h & e & Hin & He & ->)].
    + left. split; [|reflexivity]. apply Forall_app. auto.
    + right. exists h, e. split; [|auto]. apply in_or_app. now right.
  - right. exists h, e. split; [|auto]. apply in_or_app. now left.
Qed.

(** X14: when the envelope is written, it is an object with the two
    members ["messages"] and ["failed_messages"], in this order; the first
    array has one entry per success entry, and the second holds, for each
    failing message in input order, the headers that the [except] clause
    found, the payload string of the message as it came in (not re-encoded)
    and the error text. *)
Theorem envelope_shape (event : Event) (w : W) (envelope : JSON) :
  encode (processed_events_dict (snd (run_loop_ event w))) = inr envelope ->
  exists ms fs,
    envelope = JObj [ ("messages", JArr ms); ("failed_messages", JArr fs) ] /\
    List.length ms = List.length (messages (snd (run_loop_ event w))) /\
    Forall2
      (fun f j =>
         exists jh,
           encode (fail_headers f) = inr jh /\
           j = JObj [ ("headers", jh);
                      ("payload", JStr (msg_payload (fail_message f)));
                      ("error", JStr (exc_str (fail_error f))) ])
      (failures_ event w (ev_messages event)) fs /\
    failed_messages (snd (run_loop_ event w)) =
      map (fun f =>
             PyDict [ (PyStr "headers", fail_headers f);
                      (PyStr "payload", PyStr (msg_payload (fail_message f)));
                      (PyStr "error", PyStr (exc_str (fail_error f))) ])
        (failures_ event w (ev_messages event)).
Proof.
  rewrite JsonFacts.encode_processed_events, run_loop_outcomes.
  cbn [messages failed_messages]. rewrite failed_entries_failures.
  destruct (encode_kept_entries _ _
              (succeeded_headers_entries event (ev_messages event) w))
    as [[_ (js & -> & Hlen)] | (h & e & _ & _ & ->)]; [|discriminate].
  destruct (encode_failure_entries (failures_ event w (ev_messages event)))
    as [[_ (fs & -> & Hfs)] | (h & e & _ & _ & ->)]; [|discriminate].
  intro H. inversion H; subst. exists js, fs.
  split; [reflexivity|]. split; [exact Hlen|]. split; [exact Hfs|].
  reflexivity.
Qed.

(** X20: every entry of the failure list reports one message of the batch
    that met an error: it is made of the headers of that message as the
    [except] clause finds them, of its payload string as it came in, and of
    the text of the error; when the error is met before the user's function
    is called, the headers are those of the input. *)
Theorem failure_entries_report_the_message (event : Event) (w : W)
    (entry : PyVal) :
  In entry (failed_messages (snd (run_loop_ event w))) ->
  exists i m e,
    nth_error (ev_messages event) i = Some m /\
    message_error_ event m (world_before_ event w (ev_messages event) i) e /\
    entry =
      PyDict [ (PyStr "headers",
                headers_after_ event m
                  (world_before_ event w (ev_messages event) i));
               (PyStr "payload", PyStr (msg_payload m));
               (PyStr "error", PyStr (exc_str e)) ] /\
    ((forall payload inputs,
         decode_payload_ m = inr payload -> lookup_inputs event <> inr inputs) ->
     headers_after_ event m (world_before_ event w (ev_messages event) i)
       = dict_of (msg_headers m)).
Proof.
  rewrite run_loop_outcomes. cbn [failed_messages]. intro H.
  apply In_failed_entries in H as (i & m & h & e & Hm & Ho & ->).
  exists i, m, e. split; [exact Hm|].
  rewrite outcomes_nth, Hm in Ho. cbn [option_map] in Ho.
  injection Ho as Ho. apply outcome_Failed in Ho as [He ->].
  split; [exact He|]. split; [reflexivity|].
  intro Hn. now apply headers_after_unreached.
Qed.

Lemma headers_after_left (event : Event) (m : Message) (w : W) :
  leaves_headers event_handler ->
  headers_after_ event m w = dict_of (msg_headers m).
Proof.
  intro Hl. unfold headers_after. rewrite run_try_unfold.
  destruct (decode_payload_ m) as [e|payload]; [reflexivity|].
  destruct (lookup_inputs event) as [e|inputs]; [reflexivity|].
  rewrite call_of_unfold.
  destruct (Hl payload (dict_of (msg_headers m)) inputs w) as [Hh Hb].
  destruct (event_handler payload (dict_of (msg_headers m)) inputs w)
    as [[w' h] [e|v|obj awaited]]; cbn [fst snd] in *; subst h.
  - reflexivity.
  - destruct use_async; [reflexivity|].
    destruct (unpack2 v) as [e|unpacked]; reflexivity.
  - destruct use_async.
    + specialize (Hb obj awaited eq_refl w').
      destruct (awaited w') as [[w'' h'] [e|v]]; cbn [fst snd] in *; subst h';
        [reflexivity|].
      destruct (unpack2 v) as [e|unpacked]; reflexivity.
    + destruct (unpack2 obj) as [e|unpacked]; reflexivity.
Qed.

Lemma failures_headers_left (event : Event) (msgs : list Message) :
  leaves_headers event_handler ->
  forall w,
    Forall (fun h => exists j, encode h = inr j)
      (map fail_headers (failures_ event w msgs)).
Proof.
  intro Hl. induction msgs as [|m rest IH]; intro w; [constructor|].
  cbn [failures]. rewrite map_app. apply Forall_app. split; [|apply IH].
  destruct (outcome_ event m w) as [entry| |h e] eqn:Ho; try constructor;
    [|constructor].
  apply outcome_Failed in Ho as [_ ->]. cbn [fail_headers].
  rewrite (headers_after_left _ _ _ Hl). eexists.
  apply JsonFacts.encode_dict_of.
Qed.

(** X21: when the user's function leaves the headers it is given as they
    are, every entry of the failure list carries the headers and the payload
    string of an input message exactly as they stand in the batch, with the
    text of the error that the message met. *)
Theorem untouched_headers_are_reported (event : Event) (w : W)
    (entry : PyVal) :
  leaves_headers event_handler ->
  In entry (failed_messages (snd (run_loop_ event w))) ->
  exists i m e,
    nth_error (ev_messages event) i = Some m /\
    message_error_ event m (world_before_ event w (ev_messages event) i) e /\
    entry = PyDict [ (PyStr "headers", dict_of (msg_headers m));
                     (PyStr "payload", PyStr (msg_payload m));
                     (PyStr "error", PyStr (exc_str e)) ].
Proof.
  intro Hl. rewrite run_loop_outcomes. cbn [failed_messages]. intro H.
  apply In_failed_entries in H as (i & m & h & e & Hm & Ho & ->).
  exists i, m, e. split; [exact Hm|].
  rewrite outcomes_nth, Hm in Ho. cbn [option_map] in Ho.
  injection Ho as Ho. apply outcome_Failed in Ho as [He ->].
  split; [exact He|].
  now rewrite (headers_after_left _ _ _ Hl).
Qed.

End more_run_facts.

(* ================================================================== *)
(** ** Runs of the example handler *)

Module SampleRuns.

Lemma sample_keeps_state {W : Type} {RT : PyRuntime} :
  keeps_state (@Sample.event_handler W RT).
Proof.
  intros payload headers inputs w. split; [reflexivity|].
  intros obj awaited H. unfold Sample.event_handler in H. cbn [snd] in H.
  destruct (Sample.setitem payload "testing" (PyStr "working")) as [e|p];
    [discriminate|].
  destruct (encode_plain p); discriminate.
Qed.

Lemma sample_leaves_headers {W : Type} {RT : PyRuntime} :
  leaves_headers (@Sample.event_handler W RT).
Proof.
  intros payload headers inputs w. split; [reflexivity|].
  intros obj awaited H. unfold Sample.event_handler in H. cbn [snd] in H.
  destruct (Sample.setitem payload "testing" (PyStr "working")) as [e|p];
    [discriminate|].
  destruct (encode_plain p); discriminate.
Qed.

Lemma sample_returned_pair {W : Type} {RT : PyRuntime} (event : Event)
    (m : Message) (w : W) (p : PyVal * PyVal) :
  returned_pair Sample.event_handler false true event m w = Some p ->
  exists b, p = (PyBytes b, dict_of (msg_headers m)).
Proof.
  unfold returned_pair, call_of, call_event_handler, Sample.event_handler.
  destruct (decode_payload true m) as [e|payload]; [discriminate|].
  destruct (lookup_inputs event) as [e|inputs]; [discriminate|].
  destruct (Sample.setitem payload "testing" (PyStr "working")) as [e|p'];
    [discriminate|].
  destruct (encode_plain p') as [e|j]; [discriminate|].
  cbn. intro H. inversion H. eauto.
Qed.

Lemma sample_outcome {W : Type} {RT : PyRuntime} (event : Event)
    (m : Message) (w : W) :
  (exists b,
      outcome Sample.event_handler false true event m w =
      Kept (success_entry (dict_of (msg_headers m)) (PyBytes b))) \/
  (exists h e, outcome Sample.event_handler false true event m w = Failed h e).
Proof.
  destruct (outcome Sample.event_handler false true event m w)
    as [entry| |h e] eqn:Ho.
  - left. apply outcome_Kept_inv in Ho as (b & kvs & Hp & ->).
    destruct (sample_returned_pair event m w _ Hp) as [b' Hb].
    inversion Hb; subst. eauto.
  - exfalso. apply outcome_Dropped in Ho.
    unfold returned_None_None in Ho.
    destruct (returned_pair Sample.event_handler false true event m w)
      as [p|] eqn:Hp; [|discriminate].
    destruct (sample_returned_pair event m w p Hp) as [b ->]. discriminate.
  - right. eauto.
Qed.

(** X15: under the example handler, a message whose payload parses to
    anything but a JSON object -- an array, a string, a number, [true],
    [false], [null] -- lands in [failed_messages] with a [TypeError]. *)
Theorem sample_needs_a_json_object {W : Type} {RT : PyRuntime}
    (event : Event) (w : W) (processed_events : ProcessedEvents)
    (m : Message) (inputs parsed : PyVal) :
  lookup_inputs event = inr inputs ->
  decode_payload true m = inr parsed ->
  isinstance_dict parsed = false ->
  exists e,
    exc_class e = "TypeError" /\
    loop_body Sample.event_handler false true event (w, processed_events) m =
    (w, {| messages := messages processed_events;
           failed_messages :=
             failed_messages processed_events ++ [failed_entry m e] |}).
Proof.
  intros Hi Hd Hn.
  destruct (SampleFacts.event_handler_raises_on_non_dict parsed
              (dict_of (msg_headers m)) inputs w Hn) as (e & Hcls & He).
  exists e. split; [exact Hcls|].
  apply (loop_body_error _ _ _ _ _ _ (dict_of (msg_headers m))).
  rewrite run_try_unfold, Hd, Hi, call_of_unfold, He. reflexivity.
Qed.

Lemma sample_run {W : Type} {RT : PyRuntime} (event : Event)
    (msgs : list Message) (w : W) :
  Forall
    (fun entry =>
       exists m b,
         In m msgs /\
         entry = success_entry (dict_of (msg_headers m)) (PyBytes b))
    (kept_entries (outcomes Sample.event_handler false true event w msgs)) /\
  List.length msgs =
    List.length (kept_entries (outcomes Sample.event_handler false true event w msgs))
    + List.length
        (failed_entries msgs (outcomes Sample.event_handler false true event w msgs)).
Proof.
  revert w. induction msgs as [|m rest IH]; intro w.
  - split; [constructor | reflexivity].
  - cbn [outcomes]. rewrite (try_body_keeps_state _ _ _ _ _ _ sample_keeps_state).
    destruct (IH w) as [IH1 IH2].
    assert (IH1' : Forall
                     (fun entry =>
                        exists m' b,
                          In m' (m :: rest) /\
                          entry = success_entry (dict_of (msg_headers m')) (PyBytes b))
                     (kept_entries
                        (outcomes Sample.event_handler false true event w rest))).
    { eapply Forall_impl; [|exact IH1]. cbn beta.
      intros entry (m' & b & Hin & ->). exists m', b. split; [now right | reflexivity]. }
    destruct (sample_outcome event m w) as [[b ->] | (h & e & ->)];
      cbn [kept_entries failed_entries List.length].
    + split; [|lia]. constructor; [|exact IH1'].
      exists m, b. split; [now left | reflexivity].
    + split; [exact IH1' | lia].
Qed.

(** X16: the entry point [handler] with the example [event_handler] never
    filters a message out: every message of the batch is either in
    [messages] or in [failed_messages]. *)
Theorem sample_handler_drops_nothing {W : Type} {RT : PyRuntime}
    (event : Event) (w : W) :
  List.length (ev_messages event) =
    List.length
      (messages (snd (run_loop Sample.event_handler false true event w)))
    + List.length
        (failed_messages (snd (run_loop Sample.event_handler false true event w))).
Proof.
  rewrite run_loop_outcomes. cbn [messages failed_messages].
  apply sample_run.
Qed.

(** X17: under the example handler, every success entry carries the headers
    of an input message unchanged, and the state is left alone. *)
Theorem sample_handler_passes_headers_through {W : Type} {RT : PyRuntime}
    (event : Event) (w : W) :
  fst (run_loop Sample.event_handler false true event w) = w /\
  Forall
    (fun entry =>
       exists m b,
         In m (ev_messages event) /\
         entry = PyDict [ (PyStr "headers", dict_of (msg_headers m));
                          (PyStr "payload", PyBytes b) ])
    (messages (snd (run_loop Sample.event_handler false true event w))).
Proof.
  split.
  - unfold run_loop. rewrite fold_loop_body. cbn [fst].
    apply (outcomes_keeps_state _ _ _ _ _ _ sample_keeps_state).
  - rewrite run_loop_outcomes. cbn [messages]. apply sample_run.
Qed.

(** X18: the entry point [handler] of line 124 always returns the bytes of
    a JSON envelope, never the failure string: what the example
    [event_handler] returns can always be serialised. *)
Theorem sample_handler_returns_envelope {W : Type} {RT : PyRuntime}
    (event : Event) (context : PyVal) (w : W) :
  isinstance_bytes (snd (Sample.handler event context w)) = true.
Proof.
  unfold Sample.handler, create_function.
  rewrite handler_unfold. cbn [snd]. unfold json_dumps.
  rewrite JsonFacts.encode_processed_events, run_loop_outcomes.
  cbn [messages failed_messages]. rewrite failed_entries_failures.
  assert (Hf : exists fs,
             encode_items
               (map failure_entry
                  (failures Sample.event_handler false true event w
                     (ev_messages event))) = inr fs).
  { destruct (encode_failure_entries
                (failures Sample.event_handler false true event w
                   (ev_messages event)))
      as [[_ (fs & Hfs & _)] | (h & e & Hin & He & _)]; [eauto|].
    exfalso.
    pose proof (failures_headers_left Sample.event_handler false true event
                  (ev_messages event) sample_leaves_headers w) as Hall.
    rewrite Forall_forall in Hall. destruct (Hall h Hin) as [j Hj].
    congruence. }
  destruct Hf as [fs ->].
  destruct (sample_run event (ev_messages event) w) as [Hk _].
  assert (He : exists js,
             encode_items
               (kept_entries
                  (outcomes Sample.event_handler false true event w
                     (ev_messages event))) = inr js).
  { induction Hk as [|entry l (m & b & _ & ->) _ IH]; [eexists; reflexivity|].
    destruct IH as [js Hjs]. cbn [encode_items].
    rewrite encode_success_entry_cases, JsonFacts.encode_dict_of, Hjs.
    eexists; reflexivity. }
  destruct He as [js ->]. reflexivity.
Qed.

End SampleRuns.

(* ================================================================== *)
(** ** The further statements at concrete inputs *)

(** A nested value that both encoders write. *)
Lemma EncodeBase64_extends_JSONEncoder_witness :
  encode_plain (PyDict [(PyStr "a", PyList [PyInt 1; PyNone])])
    = inr (JObj [("a", JArr [JNum 1; JNull])]) /\
  encode (PyDict [(PyStr "a", PyList [PyInt 1; PyNone])])
    = inr (JObj [("a", JArr [JNum 1; JNull])]).
Proof.
  split; [reflexivity|].
  exact (JsonEncoderFacts.EncodeBase64_extends_JSONEncoder
           (PyDict [(PyStr "a", PyList [PyInt 1; PyNone])])
           (JObj [("a", JArr [JNum 1; JNull])]) eq_refl).
Defined.

(** The example handler on the object [{"price": 1.5}]. *)
Lemma event_handler_sets_testing_witness :
  json_value (PyDict [(PyStr "price", PyFloat "1.5")]) = true /\
  exists j,
    encode_plain
      (PyDict (dict_setitem [(PyStr "price", PyFloat "1.5")] "testing"
                 (PyStr "working"))) = inr j /\
    member "testing" j = Some (JStr "working") /\
    Sample.event_handler (PyDict [(PyStr "price", PyFloat "1.5")])
      (dict_of [("k", "v")]) (dict_of []) 0 =
      (0, dict_of [("k", "v")],
       Returns (PyTuple [PyBytes (list_byte_of_string (json_text j));
                         dict_of [("k", "v")]])).
Proof.
  split; [reflexivity|].
  exact (SampleFacts.event_handler_sets_testing
           [(PyStr "price", PyFloat "1.5")]
           (dict_of [("k", "v")]) (dict_of []) 0 eq_refl).
Defined.

(** An event with no messages and no inputs. *)
Lemma empty_batch_gives_empty_envelope_witness :
  ev_messages (Demo.batch_without_inputs []) = [] /\
  handler Demo.demo_handler false false (Demo.batch_without_inputs []) 0 =
  (0, PyBytes (list_byte_of_string
                 (json_text (JObj [ ("messages", JArr []);
                                    ("failed_messages", JArr []) ])))).
Proof.
  split; [reflexivity|].
  exact (empty_batch_gives_empty_envelope Demo.demo_handler false false
           (Demo.batch_without_inputs []) 0 eq_refl).
Defined.

(** The example handler keeps no state. *)
Lemma stateless_function_isolates_messages_witness :
  keeps_state (@Sample.event_handler nat Demo.demo_runtime) /\
  run_loop Sample.event_handler false true
    (Demo.batch [Demo.raw_msg "e30="; Demo.raw_msg "W10="]) 0 =
  (0,
   {| messages :=
        kept_entries
          (map (fun m =>
                  outcome Sample.event_handler false true
                    (Demo.batch [Demo.raw_msg "e30="; Demo.raw_msg "W10="]) m 0)
             [Demo.raw_msg "e30="; Demo.raw_msg "W10="]);
      failed_messages :=
        failed_entries [Demo.raw_msg "e30="; Demo.raw_msg "W10="]
          (map (fun m =>
                  outcome Sample.event_handler false true
                    (Demo.batch [Demo.raw_msg "e30="; Demo.raw_msg "W10="]) m 0)
             [Demo.raw_msg "e30="; Demo.raw_msg "W10="]) |}).
Proof.
  split; [exact SampleRuns.sample_keeps_state|].
  exact (stateless_function_isolates_messages Sample.event_handler false true
           (Demo.batch [Demo.raw_msg "e30="; Demo.raw_msg "W10="]) 0
           SampleRuns.sample_keeps_state).
Defined.

Lemma demo_handler_is_plain : plain_function Demo.demo_handler.
Proof.
  intros payload headers inputs w obj awaited. unfold Demo.demo_handler.
  destruct payload as [| | | | | bs | | | |]; try discriminate.
  destruct bs as [|[] ?]; discriminate.
Qed.

(** The plain demo function, awaited. *)
Lemma awaiting_a_plain_function_fails_all_witness :
  true = true /\
  plain_function Demo.demo_handler /\
  messages
    (snd (run_loop Demo.demo_handler true false
            (Demo.batch [Demo.raw_msg "b2s="; Demo.raw_msg "bm9uZQ=="]) 0)) = [] /\
  List.length
    (failed_messages
       (snd (run_loop Demo.demo_handler true false
               (Demo.batch [Demo.raw_msg "b2s="; Demo.raw_msg "bm9uZQ=="]) 0)))
    = List.length
        (ev_messages (Demo.batch [Demo.raw_msg "b2s="; Demo.raw_msg "bm9uZQ=="])).
Proof.
  split; [reflexivity|]. split; [exact demo_handler_is_plain|].
  exact (awaiting_a_plain_function_fails_all Demo.demo_handler true false
           (Demo.batch [Demo.raw_msg "b2s="; Demo.raw_msg "bm9uZQ=="]) 0
           eq_refl demo_handler_is_plain).
Defined.

Lemma async_handler_is_coroutine : coroutine_function MoreDemo.async_handler.
Proof. intros payload headers inputs w. eexists. reflexivity. Qed.

(** The [async def] demo function, called without [use_async]. *)
Lemma calling_an_async_function_fails_all_witness :
  false = false /\
  coroutine_function MoreDemo.async_handler /\
  messages
    (snd (run_loop MoreDemo.async_handler false false
            (Demo.batch [Demo.raw_msg "b2s="]) 0)) = [] /\
  List.length
    (failed_messages
       (snd (run_loop MoreDemo.async_handler false false
               (Demo.batch [Demo.raw_msg "b2s="]) 0)))
    = List.length (ev_messages (Demo.batch [Demo.raw_msg "b2s="])).
Proof.
  split; [reflexivity|]. split; [exact async_handler_is_coroutine|].
  exact (calling_an_async_function_fails_all MoreDemo.async_handler false false
           (Demo.batch [Demo.raw_msg "b2s="]) 0 eq_refl
           async_handler_is_coroutine).
Defined.

(** A user function that returns nothing for the payload [x]. *)
Lemma non_pair_result_fails_witness :
  decode_payload false (Demo.raw_msg "eA==")
    = inr (PyBytes (list_byte_of_string "x")) /\
  lookup_inputs (Demo.batch [Demo.raw_msg "eA=="])
    = inr (dict_of [("field", "value")]) /\
  snd (call_of MoreDemo.forgetful_handler false
         (PyBytes (list_byte_of_string "x"))
         (dict_of [("field", "value")]) (Demo.raw_msg "eA==") 0) = inr PyNone /\
  iter_items PyNone = NotIterable /\
  exists e,
    outcome MoreDemo.forgetful_handler false false
      (Demo.batch [Demo.raw_msg "eA=="]) (Demo.raw_msg "eA==") 0
      = Failed (PyDict [(PyStr "k", PyStr "v")]) e /\
    (exc_class e = "TypeError" /\ iter_items PyNone = NotIterable \/
     exc_class e = "ValueError" /\
     exists items,
       iter_items PyNone = Yields items None /\ List.length items <> 2).
Proof.
  split; [reflexivity|]. split; [reflexivity|]. split; [reflexivity|].
  split; [reflexivity|].
  refine (non_pair_result_fails MoreDemo.forgetful_handler false false
            (Demo.batch [Demo.raw_msg "eA=="]) (Demo.raw_msg "eA==") 0
            (PyBytes (list_byte_of_string "x")) (dict_of [("field", "value")])
            PyNone eq_refl eq_refl eq_refl _ _).
  - intros a b H. discriminate H.
  - intros items e H. discriminate H.
Defined.

(** The envelope of a batch with one success and two failures, one of them
    with headers that the user's function marked. *)
Lemma envelope_shape_witness :
  exists envelope,
    encode
      (processed_events_dict
         (snd (run_loop Demo.demo_handler false false
                 (Demo.batch [Demo.raw_msg "bQ=="; Demo.raw_msg "b2s=";
                              Demo.raw_msg "AA"]) 0)))
      = inr envelope /\
    exists ms fs,
      envelope = JObj [ ("messages", JArr ms); ("failed_messages", JArr fs) ] /\
      List.length ms =
        List.length
          (messages
             (snd (run_loop Demo.demo_handler false false
                     (Demo.batch [Demo.raw_msg "bQ=="; Demo.raw_msg "b2s=";
                                  Demo.raw_msg "AA"]) 0))) /\
      Forall2
        (fun f j =>
           exists jh,
             encode (fail_headers f) = inr jh /\
             j = JObj [ ("headers", jh);
                        ("payload", JStr (msg_payload (fail_message f)));
                        ("error", JStr (exc_str (fail_error f))) ])
        (failures Demo.demo_handler false false
           (Demo.batch [Demo.raw_msg "bQ=="; Demo.raw_msg "b2s=";
                        Demo.raw_msg "AA"]) 0
           (ev_messages
              (Demo.batch [Demo.raw_msg "bQ=="; Demo.raw_msg "b2s=";
                           Demo.raw_msg "AA"]))) fs /\
      failed_messages
        (snd (run_loop Demo.demo_handler false false
                (Demo.batch [Demo.raw_msg "bQ=="; Demo.raw_msg "b2s=";
                             Demo.raw_msg "AA"]) 0)) =
        map (fun f =>
               PyDict [ (PyStr "headers", fail_headers f);
                        (PyStr "payload", PyStr (msg_payload (fail_message f)));
                        (PyStr "error", PyStr (exc_str (fail_error f))) ])
          (failures Demo.demo_handler false false
             (Demo.batch [Demo.raw_msg "bQ=="; Demo.raw_msg "b2s=";
                          Demo.raw_msg "AA"]) 0
             (ev_messages
                (Demo.batch [Demo.raw_msg "bQ=="; Demo.raw_msg "b2s=";
                             Demo.raw_msg "AA"]))).
Proof.
  eexists. split; [vm_compute; reflexivity|].
  apply (envelope_shape Demo.demo_handler false false
           (Demo.batch [Demo.raw_msg "bQ=="; Demo.raw_msg "b2s=";
                        Demo.raw_msg "AA"]) 0).
  vm_compute. reflexivity.
Defined.

(** The failure entry of a message whose headers the user's function
    marked before it raised. *)
Lemma failure_entries_report_the_message_witness :
  In (PyDict [ (PyStr "headers",
                PyDict [(PyStr "k", PyStr "v"); (PyStr "seen", PyStr "yes")]);
               (PyStr "payload", PyStr "bQ==");
               (PyStr "error", PyStr "boom") ])
     (failed_messages
        (snd (run_loop Demo.demo_handler false false
                (Demo.batch [Demo.raw_msg "b2s="; Demo.raw_msg "bQ=="]) 0)))
  /\
  exists i m e,
    nth_error
      (ev_messages (Demo.batch [Demo.raw_msg "b2s="; Demo.raw_msg "bQ=="])) i
      = Some m /\
    message_error Demo.demo_handler false false
      (Demo.batch [Demo.raw_msg "b2s="; Demo.raw_msg "bQ=="]) m
      (world_before Demo.demo_handler false false
         (Demo.batch [Demo.raw_msg "b2s="; Demo.raw_msg "bQ=="]) 0
         (ev_messages (Demo.batch [Demo.raw_msg "b2s="; Demo.raw_msg "bQ=="])) i)
      e /\
    PyDict [ (PyStr "headers",
              PyDict [(PyStr "k", PyStr "v"); (PyStr "seen", PyStr "yes")]);
             (PyStr "payload", PyStr "bQ==");
             (PyStr "error", PyStr "boom") ] =
    PyDict [ (PyStr "headers",
              headers_after Demo.demo_handler false false
                (Demo.batch [Demo.raw_msg "b2s="; Demo.raw_msg "bQ=="]) m
                (world_before Demo.demo_handler false false
                   (Demo.batch [Demo.raw_msg "b2s="; Demo.raw_msg "bQ=="]) 0
                   (ev_messages
                      (Demo.batch [Demo.raw_msg "b2s="; Demo.raw_msg "bQ=="]))
                   i));
             (PyStr "payload", PyStr (msg_payload m));
             (PyStr "error", PyStr (exc_str e)) ] /\
    ((forall payload inputs,
         decode_payload false m = inr payload ->
         lookup_inputs (Demo.batch [Demo.raw_msg "b2s="; Demo.raw_msg "bQ=="])
           <> inr inputs) ->
     headers_after Demo.demo_handler false false
       (Demo.batch [Demo.raw_msg "b2s="; Demo.raw_msg "bQ=="]) m
       (world_before Demo.demo_handler false false
          (Demo.batch [Demo.raw_msg "b2s="; Demo.raw_msg "bQ=="]) 0
          (ev_messages (Demo.batch [Demo.raw_msg "b2s="; Demo.raw_msg "bQ=="]))
          i)
     = dict_of (msg_headers m)).
Proof.
  assert (Hin : In (PyDict [ (PyStr "headers",
                              PyDict [(PyStr "k", PyStr "v");
                                      (PyStr "seen", PyStr "yes")]);
                             (PyStr "payload", PyStr "bQ==");
                             (PyStr "error", PyStr "boom") ])
                  (failed_messages
                     (snd (run_loop Demo.demo_handler false false
                             (Demo.batch [Demo.raw_msg "b2s=";
                                          Demo.raw_msg "bQ=="]) 0))))
    by (vm_compute; left; reflexivity).
  split; [exact Hin|].
  exact (failure_entries_report_the_message Demo.demo_handler false false
           (Demo.batch [Demo.raw_msg "b2s="; Demo.raw_msg "bQ=="]) 0 _ Hin).
Defined.

(** The example handler leaves the headers alone; the payload [W10=] makes
    it raise. *)
Lemma untouched_headers_are_reported_witness :
  leaves_headers (@Sample.event_handler nat Demo.demo_runtime) /\
  In (PyDict [ (PyStr "headers", PyDict [(PyStr "k", PyStr "v")]);
               (PyStr "payload", PyStr "W10=");
               (PyStr "error",
                PyStr "list indices must be integers or slices, not str") ])
     (failed_messages
        (snd (run_loop Sample.event_handler false true
                (Demo.batch [Demo.raw_msg "W10="]) 0)))
  /\
  exists i m e,
    nth_error (ev_messages (Demo.batch [Demo.raw_msg "W10="])) i = Some m /\
    message_error Sample.event_handler false true
      (Demo.batch [Demo.raw_msg "W10="]) m
      (world_before Sample.event_handler false true
         (Demo.batch [Demo.raw_msg "W10="]) 0
         (ev_messages (Demo.batch [Demo.raw_msg "W10="])) i)
      e /\
    PyDict [ (PyStr "headers", PyDict [(PyStr "k", PyStr "v")]);
             (PyStr "payload", PyStr "W10=");
             (PyStr "error",
              PyStr "list indices must be integers or slices, not str") ] =
    PyDict [ (PyStr "headers", dict_of (msg_headers m));
             (PyStr "payload", PyStr (msg_payload m));
             (PyStr "error", PyStr (exc_str e)) ].
Proof.
  assert (Hin : In (PyDict [ (PyStr "headers", PyDict [(PyStr "k", PyStr "v")]);
                             (PyStr "payload", PyStr "W10=");
                             (PyStr "error",
                              PyStr "list indices must be integers or slices, not str") ])
                  (failed_messages
                     (snd (run_loop Sample.event_handler false true
                             (Demo.batch [Demo.raw_msg "W10="]) 0))))
    by (vm_compute; left; reflexivity).
  split; [exact SampleRuns.sample_leaves_headers|].
  split; [exact Hin|].
  exact (untouched_headers_are_reported Sample.event_handler false true
           (Demo.batch [Demo.raw_msg "W10="]) 0 _
           SampleRuns.sample_leaves_headers Hin).
Defined.

(** Under the example handler, the payload [W10=] (the text of the empty
    JSON array) fails. *)
Lemma sample_needs_a_json_object_witness :
  lookup_inputs (Demo.batch [Demo.raw_msg "W10="])
    = inr (dict_of [("field", "value")]) /\
  decode_payload true (Demo.raw_msg "W10=") = inr (PyList []) /\
  isinstance_dict (PyList []) = false /\
  exists e,
    exc_class e = "TypeError" /\
    loop_body Sample.event_handler false true (Demo.batch [Demo.raw_msg "W10="])
      (0, {| messages := []; failed_messages := [] |}) (Demo.raw_msg "W10=") =
    (0, {| messages := [];
           failed_messages := [failed_entry (Demo.raw_msg "W10=") e] |}).
Proof.
  split; [reflexivity|]. split; [reflexivity|]. split; [reflexivity|].
  exact (SampleRuns.sample_needs_a_json_object
           (Demo.batch [Demo.raw_msg "W10="]) 0
           {| messages := []; failed_messages := [] |} (Demo.raw_msg "W10=")
           (dict_of [("field", "value")]) (PyList []) eq_refl eq_refl eq_refl).
Defined.

(** The payload [YQ==YQ==] decodes as [YQ==]. *)
Lemma text_after_padding_is_ignored_witness :
  (List.length (list_byte_of_string "a") mod 3 = 1)%nat /\
  str_encode (string_of_list_byte (list_byte_of_string "YQ=="))
    = inr (list_byte_of_string "YQ==") /\
  decode_payload false
    {| msg_headers := [];
       msg_payload :=
         string_of_list_byte
           (b64encode (list_byte_of_string "a") ++ list_byte_of_string "YQ==") |} =
  decode_payload false
    {| msg_headers := [];
       msg_payload := string_of_list_byte (b64encode (list_byte_of_string "a")) |}.
Proof.
  split; [reflexivity|]. split; [reflexivity|].
  refine (text_after_padding_is_ignored false [] (list_byte_of_string "a")
            (list_byte_of_string "YQ==") _ eq_refl).
  cbn. discriminate.
Defined.

(** *** Further values and payloads *)

(** A payload with a lone surrogate is refused before any decoding: the
    message fails with the error of [bytes(..., encoding='utf-8')]. *)
Example surrogate_payload_fails :
  snd (run_loop Demo.demo_handler false false
         (Demo.batch
            [Demo.raw_msg
               ("YQ==" ++ String (ascii_of_nat 237)
                            (String (ascii_of_nat 160)
                               (String (ascii_of_nat 128) EmptyString)))%string])
         0) =
    {| messages := [];
       failed_messages :=
         [PyDict [ (PyStr "headers", PyDict [(PyStr "k", PyStr "v")]);
                   (PyStr "payload",
                    PyStr ("YQ==" ++ String (ascii_of_nat 237)
                                       (String (ascii_of_nat 160)
                                          (String (ascii_of_nat 128)
                                             EmptyString)))%string);
                   (PyStr "error",
                    PyStr "'utf-8' codec can't encode character '\ud800' in position 4: surrogates not allowed") ]] |}.
Proof. vm_compute. reflexivity. Qed.

(** A set of two items unpacks; a generator that raises after two items
    fails the message with its own exception. *)
Example iterables_unpack :
  unpack2 (Demo.set_of [PyBytes []; PyDict []]) = inr (PyBytes [], PyDict []) /\
  unpack2 (PyObject (builtin "generator")
             (Yields [PyBytes []; PyDict []] (Some (mkExc "KeyError" "'late'"))))
    = inl (mkExc "KeyError" "'late'") /\
  unpack2 (PyObject (python_class "__main__" "C" "C") NotIterable)
    = inl (mkExc "TypeError" "cannot unpack non-iterable C object").
Proof. repeat split. Qed.

(** Floats are written; an integer of more than 4300 digits is not. *)
Example floats_and_long_integers :
  encode (PyList [PyFloat "1.5"; PyFloat "nan"; PyFloat "-inf"])
    = inr (JArr [JFloat "1.5"; JFloat "NaN"; JFloat "-Infinity"]) /\
  encode (PyDict [(PyFloat "1.5", PyInt 3)]) = inr (JObj [("1.5", JNum 3)]) /\
  encode (PyInt (10 ^ 4300)) = inl int_str_limit /\
  encode (PyInt (10 ^ 4300 - 1)) = inr (JNum (10 ^ 4300 - 1)).
Proof. repeat split; vm_compute; reflexivity. Qed.

(** The classes in the error of line 104. *)
Example class_names_in_the_error :
  err_msg_one_None (PyObject (python_class "__main__" "C" "C") NotIterable) PyNone
    = "processed_messages is of type <class '__main__.C'> and processed_headers is <class 'NoneType'>. Either both of these should be None or neither"
  /\
  err_msg_one_None
    (PyObject (mkClass "datetime" "datetime.datetime" "<class 'datetime.datetime'>")
       NotIterable) PyNone
    = "processed_messages is of type <class 'datetime.datetime'> and processed_headers is <class 'NoneType'>. Either both of these should be None or neither".
Proof. split; reflexivity. Qed.
